(** * Deployment orchestrator of the Huawei network automation suite

    A shallow embedding of
    [src/automation/huawei/scripts/core/deployment_orchestrator.py] and of the
    parts of [template_engine.py] it calls, followed by the properties of the
    design document that concern the deployment decision engine.

    Conventions of the embedding:
    - Python values loaded from YAML are the inductive [value]; a Python
      [dict] with string keys is a [gmap string value].
    - A Python exception is [Raise e]; a computation that may mutate the
      orchestrator, the template engine or the transport collaborator is a
      function [world -> outcome A * world], the final world being kept also
      when the computation raises (mutations made before a Python exception
      stay visible).
    - The device dictionaries of [self.devices] are shared, mutable objects:
      they live in the store [devices] of [world] and are referred to by their
      index, so a mutation made through one reference is seen through every
      other.
    - Logging is left out (it does not influence any result), and so is the
      wall-clock field [execution_time] of the two result records.
    - Jinja2 and the transport collaborator ([DeviceManager]) are interfaces
      whose implementations are arbitrary. *)

From Stdlib Require Import ZArith Ascii String List Lia Permutation Sorted.
From Stdlib Require OrderedTypeEx.
From stdpp Require Import base option gmap strings list fin_maps pretty sorting.

#[local] Set Warnings "-register-all".
#[local] Open Scope string_scope.
#[local] Open Scope Z_scope.

(** ** Python values *)

Inductive value :=
| VNone
| VBool (b : bool)
| VInt (n : Z)
| VStr (s : string)
| VList (l : list value)
| VDict (d : gmap string value).

Abbreviation dict := (gmap string value).

(** Truth value of an object, as tested by [if x:] and [not x]. *)
Definition truthy (v : value) : bool :=
  match v with
  | VNone => false
  | VBool b => b
  | VInt n => negb (n =? 0)
  | VStr s => negb (String.eqb s EmptyString)
  | VList l => match l with [] => false | _ => true end
  | VDict d => negb (Nat.eqb (size d) 0)
  end.

(** [d.get(k, default)] on an object known to be a dict. *)
Definition dget (d : dict) (k : string) (dflt : value) : value :=
  default dflt (d !! k).

(** ** Exceptions and outcomes *)

Inductive exn_class :=
| TemplateSyntaxError
| UndefinedError
| TemplateNotFound
| TemplateRuntimeError
| AttributeError
| TypeError
| OtherException.

(** An instance of a subclass of [Exception]: its class, [str(e)] and, for
    Jinja2 syntax errors, the attribute [lineno]. *)
Record exn := Exn {
  exn_kind : exn_class;
  exn_msg : string;
  exn_lineno : option Z
}.

Inductive outcome (A : Type) :=
| Return (a : A)
| Raise (e : exn).
Arguments Return {A} a.
Arguments Raise {A} e.

(** [obj.get(k, default)] on an arbitrary object: only a dict has the method,
    anything else raises [AttributeError]. *)
Definition py_get (obj : value) (k : string) (dflt : value) : outcome value :=
  match obj with
  | VDict d => Return (dget d k dflt)
  | _ => Raise (Exn AttributeError "object has no attribute 'get'" None)
  end.

(** ** The builtin stable sort

    [sorted(xs, key=f)] and [list.sort(key=f)] compute every key once, then
    sort the decorated list stably in ascending key order.  The sort itself is
    modelled by a stable insertion sort on the decorated list. *)

Section StableSort.
Context {K A : Type} (ltb : K -> K -> bool).

Fixpoint insert_by (x : K * A) (l : list (K * A)) : list (K * A) :=
  match l with
  | [] => [x]
  | y :: l' => if ltb (fst y) (fst x) then y :: insert_by x l' else x :: y :: l'
  end.

Fixpoint stable_sort (l : list (K * A)) : list (K * A) :=
  match l with
  | [] => []
  | x :: l' => insert_by x (stable_sort l')
  end.

(** The order between two decorated elements: the second key is not below
    the first. *)
Definition key_le (a b : K * A) : Prop := ltb (fst b) (fst a) = false.
End StableSort.

(** Keys that Python can order among themselves: integers (with [bool], a
    subclass of [int]) and strings. *)
Definition as_int (v : value) : option Z :=
  match v with
  | VInt n => Some n
  | VBool b => Some (if b then 1 else 0)
  | _ => None
  end.

Definition as_str (v : value) : option string :=
  match v with
  | VStr s => Some s
  | _ => None
  end.

(** The integer a key stands for, and the elements decorated with it. *)
Definition int_key {A : Type} (key : A -> value) (x : A) : Z :=
  default 999 (as_int (key x)).

Definition decorated {A : Type} (key : A -> value) (p : Z * A) : Prop :=
  fst p = int_key key (snd p).

(** [sorted(l, key=key)].  A list of fewer than two elements is returned
    without any comparison.  Otherwise the keys must all be integers or all be
    strings; a [None] or dict key, or a mix of integers and strings, makes the
    first comparison that meets it raise [TypeError].  (List-valued keys, which
    Python orders lexicographically, are not part of the modelled input domain
    and are reported as [TypeError] as well.) *)
Definition py_sorted {A : Type} (key : A -> value) (l : list A) : outcome (list A) :=
  if (length l <=? 1)%nat then Return l
  else
    match mapM (fun x => as_int (key x)) l with
    | Some ks => Return (snd <$> stable_sort Z.ltb (zip ks l))
    | None =>
      match mapM (fun x => as_str (key x)) l with
      | Some ks => Return (snd <$> stable_sort String.ltb (zip ks l))
      | None => Raise (Exn TypeError "'<' not supported between instances" None)
      end
    end.

(** ** Text helpers *)

(** [len(s)] counts code points: in a UTF-8 string these are the bytes that
    are not continuation bytes (10xxxxxx). *)
Definition is_continuation_byte (c : Ascii.ascii) : bool :=
  let n := Z.of_nat (Ascii.nat_of_ascii c) in (128 <=? n) && (n <? 192).

Definition py_len (s : string) : Z :=
  Z.of_nat (length (filter (fun c => is_continuation_byte c = false)
                           (list_ascii_of_string s))).

(** [s.split('\n')]. *)
Fixpoint split_lines_aux (cur : string) (s : string) : list string :=
  match s with
  | EmptyString => [String.rev cur]
  | String c s' =>
    if Ascii.eqb c "010"%char
    then String.rev cur :: split_lines_aux EmptyString s'
    else split_lines_aux (String c cur) s'
  end.

Definition split_lines (s : string) : list string := split_lines_aux EmptyString s.

(** [s.endswith(suffix)], the test behind the glob pattern [*.j2]. *)
Definition ends_with (suffix s : string) : bool :=
  let n := String.length s in
  let m := String.length suffix in
  (m <=? n)%nat && String.eqb (substring (n - m) m s) suffix.

(** ** Interfaces of the collaborators *)

(** What the embedding takes from the Python runtime without modelling it:
    [str(v)] of a value that is not a string, the emptiness test of
    [line.strip()] (Unicode whitespace), and the rendering [{rate:.1f}] of the
    floating-point success rate. *)
Class PyRuntime := {
  py_repr : value -> string;
  strip_nonempty : string -> bool;
  format_rate : Z -> Z -> string
}.

(** The part of Jinja2 the template engine relies on: loading and compiling a
    template of the environment, and rendering a compiled template.  Both may
    raise, and both read the template directory (a template may include or
    extend another one). *)
Class Jinja := {
  template : Type;
  env_get_template : gmap string string -> string -> outcome template;
  template_render : gmap string string -> template -> dict -> outcome string
}.

(** The transport collaborator ([DeviceManager]): each call runs on the
    collaborator's own state, returns a boolean or raises. *)
Class Transport := {
  DM : Type;
  dm_connect : string -> value -> dict -> DM -> outcome bool * DM;
  dm_deploy_config : string -> string -> bool -> DM -> outcome bool * DM;
  dm_disconnect : string -> DM -> outcome bool * DM
}.

(** ** Result records *)

Inductive DeploymentStatus :=
| PENDING
| IN_PROGRESS
| SUCCESS
| FAILED
| SKIPPED
| ROLLED_BACK.

Record DeviceResult := mkDeviceResult {
  device_name : string;
  status : DeploymentStatus;
  message : string;
  config_lines : Z;
  error : option string
}.

Record DeploymentResult := mkDeploymentResult {
  total_devices : Z;
  successful : Z;
  failed : Z;
  skipped : Z;
  results : gmap string DeviceResult;
  summary : string
}.

(** Calls received by the transport collaborator, in order. *)
Inductive call :=
| Connect (name : string) (ip : value) (params : dict)
| DeployConfig (name : string) (config : string) (dry_run : bool)
| Disconnect (name : string).

(** The parsed YAML inventory handed to [load_inventory]: the [devices]
    mapping in declaration order when the document has one, and the other
    top-level entries. *)
Record yaml_doc := {
  yaml_devices : option (list (string * dict));
  yaml_top : dict
}.

Section Orchestrator.
Context `{PyRuntime} `{Jinja} `{Transport}.

(** ** The mutable state

    [inventory] is [self.inventory] without its [devices] entry, whose
    dictionaries are the objects of the store [devices] ([self.devices]
    holds them in list order).  [template_dir] is the content of the
    template directory, [template_cache] the engine's own cache, [dm] the
    state of the transport collaborator and [calls] the calls it received. *)
Record world := mkWorld {
  inventory : dict;
  devices : list dict;
  deployment_history : list DeploymentResult;
  current_deployment : option DeploymentResult;
  template_dir : gmap string string;
  template_cache : gmap string template;
  dm : DM;
  calls : list call
}.

Definition set_inventory (v : dict) (w : world) : world :=
  mkWorld v (devices w) (deployment_history w) (current_deployment w)
          (template_dir w) (template_cache w) (dm w) (calls w).

Definition set_devices (v : list dict) (w : world) : world :=
  mkWorld (inventory w) v (deployment_history w) (current_deployment w)
          (template_dir w) (template_cache w) (dm w) (calls w).

Definition set_template_cache (v : gmap string template) (w : world) : world :=
  mkWorld (inventory w) (devices w) (deployment_history w) (current_deployment w)
          (template_dir w) v (dm w) (calls w).

Definition store_deployment (r : DeploymentResult) (w : world) : world :=
  mkWorld (inventory w) (devices w) (deployment_history w ++ [r]) (Some r)
          (template_dir w) (template_cache w) (dm w) (calls w).

Definition transport_step (c : call) (d : DM) (w : world) : world :=
  mkWorld (inventory w) (devices w) (deployment_history w) (current_deployment w)
          (template_dir w) (template_cache w) d (calls w ++ [c]).

(** ** State and exception monad *)

Definition M (A : Type) : Type := world -> outcome A * world.

#[global] Instance M_ret : MRet M := fun A a w => (Return a, w).

#[global] Instance M_bind : MBind M := fun A B f m w =>
  match m w with
  | (Return a, w') => f a w'
  | (Raise e, w') => (Raise e, w')
  end.

Definition gets {A : Type} (f : world -> A) : M A := fun w => (Return (f w), w).

Definition modify (f : world -> world) : M unit := fun w => (Return tt, f w).

Definition lift {A : Type} (o : outcome A) : M A := fun w => (o, w).

(** [try: body except Exception as e: handler(e)]. *)
Definition try_except {A : Type} (body : M A) (handler : exn -> M A) : M A :=
  fun w =>
    match body w with
    | (Return a, w') => (Return a, w')
    | (Raise e, w') => handler e w'
    end.

(** Reading and updating the device object behind reference [i].  A
    reference always designates an object of the store; for an index outside
    it the model reads an empty dictionary and the update does nothing. *)
Definition read_device (i : nat) : M dict := gets (fun w => devices w !!! i).

Definition update_device (i : nat) (f : dict -> dict) : M unit :=
  modify (fun w => set_devices (<[i := f (devices w !!! i)]> (devices w)) w).

(** The three calls of the transport interface, each recorded in [calls]. *)
Definition connect (name : string) (ip : value) (params : dict) : M bool :=
  fun w => let '(r, d) := dm_connect name ip params (dm w) in
           (r, transport_step (Connect name ip params) d w).

Definition deploy_config (name config : string) (dry_run : bool) : M bool :=
  fun w => let '(r, d) := dm_deploy_config name config dry_run (dm w) in
           (r, transport_step (DeployConfig name config dry_run) d w).

Definition disconnect (name : string) : M bool :=
  fun w => let '(r, d) := dm_disconnect name (dm w) in
           (r, transport_step (Disconnect name) d w).

(** [str(v)] as used by the f-strings. *)
Definition text_of (v : value) : string :=
  match v with
  | VStr s => s
  | _ => py_repr v
  end.

(** ** Template engine *)

(** [TemplateEngine.list_templates]: the [*.j2] files of the directory,
    sorted by name. *)
Definition list_templates (files : gmap string string) : list string :=
  snd <$> stable_sort String.ltb
            ((fun n => (n, n)) <$> filter (fun n => ends_with ".j2" n = true)
                                          (fst <$> map_to_list files)).

(** [TemplateEngine.template_exists]. *)
Definition template_exists (files : gmap string string) (name : string) : bool :=
  bool_decide (is_Some (files !! name)).

Definition minimal_vars (template_name : string) : dict :=
  list_to_map
    [("hostname", VStr "TEST-DEVICE");
     ("device_name", VStr "test-device");
     ("management_ip", VStr "192.168.1.1");
     ("vlans", VDict ∅);
     ("interfaces", VDict ∅);
     ("port_config", VDict ∅);
     ("stp", VDict (list_to_map [("mode", VStr "rstp"); ("priority", VInt 32768)]));
     ("routing", VDict (list_to_map
        [("ospf", VDict (list_to_map
           [("process_id", VInt 1);
            ("router_id", VStr "1.1.1.1");
            ("area", VInt 0);
            ("networks", VList [])]))]));
     ("nat", VDict (list_to_map
        [("inside_interfaces", VList []); ("outside_interfaces", VList [])]));
     ("features", VList []);
     ("mgmt_vlan", VInt 10);
     ("generation_time", VStr "2025-09-01 12:00:00");
     ("template_name", VStr template_name)].

(** The three [except] clauses of [validate_template_syntax]. *)
Definition validation_failure (e : exn) : dict :=
  match exn_kind e with
  | TemplateSyntaxError =>
    list_to_map
      [("valid", VBool false);
       ("error", VStr ("Syntax error: " +:+ exn_msg e));
       ("line_number", match exn_lineno e with Some n => VInt n | None => VNone end)]
  | UndefinedError =>
    list_to_map
      [("valid", VBool false);
       ("error", VStr ("Undefined variable: " +:+ exn_msg e))]
  | _ =>
    list_to_map
      [("valid", VBool false);
       ("error", VStr ("Validation error: " +:+ exn_msg e))]
  end.

(** [TemplateEngine.validate_template_syntax].  It goes through
    [self.env.get_template], not through the engine's [template_cache]. *)
Definition validate_template_syntax (files : gmap string string)
           (template_name : string) : dict :=
  if negb (template_exists files template_name) then
    list_to_map
      [("valid", VBool false);
       ("error", VStr ("Template file not found: " +:+ template_name))]
  else
    match env_get_template files template_name with
    | Raise e => validation_failure e
    | Return t =>
      match template_render files t (minimal_vars template_name) with
      | Raise e => validation_failure e
      | Return rendered =>
        list_to_map
          [("valid", VBool true);
           ("length", VInt (py_len rendered));
           ("lines", VInt (Z.of_nat (length (split_lines rendered))))]
      end
    end.

(** [TemplateEngine.validate_all_templates]: the result dictionary, in
    insertion order. *)
Definition validate_all (files : gmap string string) : list (string * dict) :=
  (fun n => (n, validate_template_syntax files n)) <$> list_templates files.

Definition validate_all_templates : M (list (string * dict)) :=
  gets (fun w => validate_all (template_dir w)).

(** [TemplateEngine.get_template]: served from [template_cache] when
    present, loaded and cached otherwise; [None] when loading raises. *)
Definition get_template (template_name : string) : M (option template) :=
  fun w =>
    match template_cache w !! template_name with
    | Some t => (Return (Some t), w)
    | None =>
      match env_get_template (template_dir w) template_name with
      | Return t =>
        (Return (Some t),
         set_template_cache (<[template_name := t]> (template_cache w)) w)
      | Raise _ => (Return None, w)
      end
    end.

Definition defaults : dict :=
  list_to_map
    [("hostname", VStr "DEVICE");
     ("device_name", VStr "device");
     ("management_ip", VStr "192.168.1.1");
     ("vlans", VDict ∅);
     ("interfaces", VDict ∅);
     ("port_config", VDict ∅);
     ("stp", VDict (list_to_map [("mode", VStr "rstp"); ("priority", VInt 32768)]));
     ("routing", VDict (list_to_map
        [("ospf", VDict (list_to_map
           [("process_id", VInt 1);
            ("router_id", VStr "1.1.1.1");
            ("area", VInt 0);
            ("networks", VList [])]));
         ("static_routes", VList [])]));
     ("nat", VDict (list_to_map
        [("inside_interfaces", VList []); ("outside_interfaces", VList [])]));
     ("features", VList []);
     ("mgmt_vlan", VInt 10);
     ("generation_time", VStr "2025-09-01 12:00:00");
     ("template_name", VStr "unknown")].

(** [TemplateEngine._prepare_variables]: a copy of the input in which every
    top-level key of [defaults] that is missing receives its default. *)
Definition prepare_variables (variables : dict) : dict := variables ∪ defaults.

(** [TemplateEngine.render_template]. *)
Definition render_template (template_name : string) (variables : dict)
  : M (option string) :=
  t ← get_template template_name;
  match t with
  | None => mret None
  | Some t =>
    files ← gets template_dir;
    match template_render files t (prepare_variables variables) with
    | Return rendered => mret (Some rendered)
    | Raise _ => mret None
    end
  end.

Definition template_mapping : gmap string string :=
  list_to_map
    [("management", "management_switch.j2");
     ("core", "core_switch.j2");
     ("access", "access_switch.j2");
     ("edge", "edge_router.j2");
     ("router", "edge_router.j2")].

(** [template_mapping.get(device_type)]: a list or a dict is unhashable and
    raises [TypeError]; any other value that is not one of the five keys
    gives [None]. *)
Definition mapping_get (device_type : value) : outcome (option string) :=
  match device_type with
  | VList _ | VDict _ => Raise (Exn TypeError "unhashable type" None)
  | VStr s => Return (template_mapping !! s)
  | _ => Return None
  end.

(** [TemplateEngine.generate_config(device_type, device_vars)], where
    [device_vars] is the device object behind reference [i]: the two
    assignments write into that object.  (Every name of [template_mapping]
    is non-empty, so [if not template_name] tests for [None].) *)
Definition generate_config (device_type : value) (i : nat) : M (option string) :=
  template_name ← lift (mapping_get device_type);
  match template_name with
  | None => mret None
  | Some template_name =>
    update_device i (fun d => <["template_name" := VStr template_name]> d);;
    update_device i (fun d => <["device_type" := device_type]> d);;
    device_vars ← read_device i;
    render_template template_name device_vars
  end.

(** ** Deployment orchestrator *)

(** The sort key [lambda d: d.get('deployment_order', 999)]. *)
Definition deployment_order (d : dict) : value := dget d "deployment_order" (VInt 999).

(** [DeploymentOrchestrator.load_inventory] on the outcome of reading and
    parsing the file ([None] when the file is missing or is not YAML).
    When sorting raises, the handler returns [False] and leaves the unsorted
    list behind. *)
Definition load_inventory (parsed : option yaml_doc) : M bool :=
  match parsed with
  | None => mret false
  | Some doc =>
    modify (set_inventory (yaml_top doc));;
    match yaml_devices doc with
    | None => mret false
    | Some entries =>
      let named := (fun e => <["name" := VStr (fst e)]> (snd e)) <$> entries in
      modify (set_devices named);;
      match py_sorted deployment_order named with
      | Return sorted => modify (set_devices sorted);; mret true
      | Raise _ => mret false
      end
    end
  end.

(** [DeploymentOrchestrator.get_devices]: a copy of the list. *)
Definition get_devices : M (list dict) := gets devices.

(** [DeploymentOrchestrator.get_deployment_sequence]: a new list holding
    the references of [self.devices], sorted. *)
Definition get_deployment_sequence : M (list nat) :=
  fun w =>
    (py_sorted (fun i => deployment_order (devices w !!! i))
               (seq 0 (length (devices w))), w).

(** The set [used_templates] built by [validate_templates]. *)
Definition used_templates (ds : list dict) : gset string :=
  fold_left
    (fun used device =>
       let template_name := dget device "template" VNone in
       if truthy template_name
       then used ∪ {[ text_of template_name +:+ ".j2" ]}
       else used)
    ds ∅.

(** [DeploymentOrchestrator.validate_templates]. *)
Definition validate_templates : M bool :=
  ds ← gets devices;
  if bool_decide (used_templates ds = ∅) then mret true
  else
    validation_results ← validate_all_templates;
    mret (fold_left
            (fun all_valid entry =>
               if truthy (dget (snd entry) "valid" (VBool false))
               then all_valid else false)
            validation_results true).

(** [self.inventory.get(section, {}).get(key, True)]. *)
Definition inventory_setting (section key : string) : M value :=
  inv ← gets inventory;
  lift (py_get (dget inv section (VDict ∅)) key (VBool true)).

(** The statement [if dry_run is None: dry_run = self.inventory.get(
    'global_settings', {}).get('dry_run_default', True)], which opens both
    [deploy_device] and [deploy_all_devices]. *)
Definition default_dry_run (dry_run : value) : M value :=
  match dry_run with
  | VNone => inventory_setting "global_settings" "dry_run_default"
  | _ => mret dry_run
  end.

(** [device_config.get('name', 'unknown')], as it is shown in messages and
    used as a key of [results]; the inventory loader sets it to the key of
    the device in the YAML mapping. *)
Definition name_of (device_config : dict) : string :=
  text_of (dget device_config "name" (VStr "unknown")).

Definition failed_result (name msg err : string) : DeviceResult :=
  mkDeviceResult name FAILED msg 0 (Some err).

(** [DeploymentOrchestrator.deploy_device(device_config, dry_run)], with
    [device_config] the device object behind reference [i]. *)
Definition deploy_device (i : nat) (dry_run : value) : M DeviceResult :=
  device_config ← read_device i;
  let device_name := name_of device_config in
  try_except
    (dry_run ← default_dry_run dry_run;
     let device_ip := dget device_config "ip" VNone in
     let device_type := dget device_config "device_type" (VStr "huawei") in
     let template_name := dget device_config "template" VNone in
     let role := dget device_config "role" (VStr "unknown") in
     if negb (truthy device_ip) then
       mret (failed_result device_name "No IP address specified"
                           "Missing device IP address")
     else if negb (truthy template_name) then
       mret (failed_result device_name "No template specified"
                           "Missing template name")
     else
       let credentials := dget device_config "credentials" (VDict ∅) in
       username ← lift (py_get credentials "username" (VStr "admin"));
       password ← lift (py_get credentials "password" VNone);
       ssh_key_file ← lift (py_get credentials "ssh_key_file" VNone);
       let connection_params : dict :=
         list_to_map [("device_type", device_type); ("username", username);
                      ("password", password); ("ssh_key_file", ssh_key_file)] in
       let deploy : M DeviceResult :=
         config ← generate_config role i;
         match config with
         | None | Some EmptyString =>
           mret (failed_result device_name "Failed to generate configuration"
                               "Template rendering failed")
         | Some config =>
           let config_lines :=
             Z.of_nat (length (filter (fun line => strip_nonempty line = true)
                                      (split_lines config))) in
           deployment_success ←
             (if truthy dry_run then mret true
              else
                ok ← deploy_config device_name config false;
                disconnect device_name;;
                mret ok);
           if deployment_success : bool then
             mret (mkDeviceResult device_name SUCCESS
                     ("Successfully deployed " +:+ pretty config_lines
                        +:+ " configuration lines")
                     config_lines None)
           else
             mret (mkDeviceResult device_name FAILED
                     "Configuration deployment failed" config_lines
                     (Some "Deployment execution failed"))
         end in
       if negb (truthy dry_run) then
         connected ← connect device_name device_ip connection_params;
         if negb connected then
           mret (failed_result device_name "Failed to connect to device"
                               "SSH connection failed")
         else deploy
       else deploy)
    (fun e =>
       mret (mkDeviceResult device_name FAILED "Deployment failed with exception"
                            0 (Some (exn_msg e)))).

(** The running state of the loop of [deploy_all_devices]. *)
Record tally := mkTally {
  t_results : gmap string DeviceResult;
  t_successful : Z;
  t_failed : Z;
  t_skipped : Z
}.

Definition skipped_result (name : string) : DeviceResult :=
  mkDeviceResult name SKIPPED "Skipped due to previous deployment failures" 0 None.

Definition record_skipped (name : string) (t : tally) : tally :=
  mkTally (<[name := skipped_result name]> (t_results t))
          (t_successful t) (t_failed t) (t_skipped t + 1).

Definition record_result (name : string) (r : DeviceResult) (t : tally) : tally :=
  match status r with
  | SUCCESS =>
    mkTally (<[name := r]> (t_results t)) (t_successful t + 1) (t_failed t) (t_skipped t)
  | _ =>
    mkTally (<[name := r]> (t_results t)) (t_successful t) (t_failed t + 1) (t_skipped t)
  end.

(** One iteration of [for device_config in deployment_sequence]. *)
Definition deploy_step (dry_run : value) (i : nat) (t : tally) : M tally :=
  device_config ← read_device i;
  let device_name := name_of device_config in
  rollback_on_failure ← inventory_setting "deployment_strategy" "rollback_on_failure";
  if truthy rollback_on_failure && (0 <? t_failed t) then
    mret (record_skipped device_name t)
  else
    result ← deploy_device i dry_run;
    mret (record_result device_name result t).

Fixpoint deploy_loop (dry_run : value) (sequence : list nat) (t : tally) : M tally :=
  match sequence with
  | [] => mret t
  | i :: rest =>
    t' ← deploy_step dry_run i t;
    deploy_loop dry_run rest t'
  end.

(** [DeploymentOrchestrator.deploy_all_devices(dry_run)]; [dry_run] is
    [VNone] when the argument is left out. *)
Definition deploy_all_devices (dry_run : value) : M DeploymentResult :=
  ds ← gets devices;
  match ds with
  | [] => mret (mkDeploymentResult 0 0 0 0 ∅ "No devices to deploy")
  | _ :: _ =>
    dry_run ← default_dry_run dry_run;
    valid ← validate_templates;
    if negb valid then
      n ← gets (fun w => Z.of_nat (length (devices w)));
      mret (mkDeploymentResult n 0 n 0 ∅
              "Template validation failed - deployment aborted")
    else
      deployment_sequence ← get_deployment_sequence;
      t ← deploy_loop dry_run deployment_sequence (mkTally ∅ 0 0 0);
      n ← gets (fun w => Z.of_nat (length (devices w)));
      let deployment_result :=
        mkDeploymentResult n (t_successful t) (t_failed t) (t_skipped t)
          (t_results t)
          (pretty (t_successful t) +:+ "/" +:+ pretty n
             +:+ " devices deployed successfully ("
             +:+ format_rate (t_successful t) n +:+ "%)") in
      modify (store_deployment deployment_result);;
      mret deployment_result
  end.

End Orchestrator.



(** * Further operations of the orchestrator and of the template engine *)

Section OrchestratorMore.
Context `{PyRuntime} `{Jinja} `{Transport}.

(** A change of the files of the template directory, made from outside. *)
Definition set_template_dir (v : gmap string string) (w : world) : world :=
  mkWorld (inventory w) (devices w) (deployment_history w) (current_deployment w)
          v (template_cache w) (dm w) (calls w).

(** [TemplateEngine.clear_cache]. *)
Definition clear_cache : M unit := modify (set_template_cache ∅).




(** [DeploymentOrchestrator.deploy(dry_run=True)] and
    [orchestrate_deployment(dry_run=True)]; the argument is [None] when it is
    left out. *)
Definition deploy (dry_run : option value) : M DeploymentResult :=
  deploy_all_devices (default (VBool true) dry_run).

Definition orchestrate_deployment (dry_run : option value) : M DeploymentResult :=
  deploy_all_devices (default (VBool true) dry_run).

(** [TemplateEngine.render], the alias of [render_template]. *)
Definition render (template_name : string) (variables : dict) : M (option string) :=
  render_template template_name variables.

(** [TemplateEngine.validate_syntax], the alias of
    [validate_template_syntax]. *)
Definition validate_syntax (files : gmap string string) (template_name : string) : dict :=
  validate_template_syntax files template_name.

End OrchestratorMore.

(** ** The network filters of the template engine

    [subnet_mask] and [wildcard_mask] of [_add_custom_filters], for an
    integer prefix length.  [ipaddress.IPv4Network] accepts the prefix
    lengths 0 to 32 and raises for any other integer, which the bare [except]
    of the filters turns into the masks of a /24; its netmask is
    [ALL_ONES ^ (ALL_ONES >> prefixlen)] and its hostmask
    [netmask ^ ALL_ONES]. *)
Definition ALL_ONES : Z := 2 ^ 32 - 1.

Definition netmask (prefixlen : Z) : Z := Z.lxor ALL_ONES (Z.shiftr ALL_ONES prefixlen).

Definition hostmask (prefixlen : Z) : Z := Z.lxor (netmask prefixlen) ALL_ONES.

(** [str] of an IPv4 address. *)
Definition dotted_quad (a : Z) : string :=
  pretty (Z.shiftr a 24 mod 256) +:+ "." +:+ pretty (Z.shiftr a 16 mod 256)
    +:+ "." +:+ pretty (Z.shiftr a 8 mod 256) +:+ "." +:+ pretty (a mod 256).

Definition valid_prefixlen (prefix_length : Z) : bool :=
  (0 <=? prefix_length) && (prefix_length <=? 32).

Definition subnet_mask (prefix_length : Z) : string :=
  if valid_prefixlen prefix_length then dotted_quad (netmask prefix_length)
  else "255.255.255.0".

Definition wildcard_mask (prefix_length : Z) : string :=
  if valid_prefixlen prefix_length then dotted_quad (hostmask prefix_length)
  else "0.0.0.255".


(** * The device manager

    A shallow embedding of [device_manager.py], the transport collaborator
    the orchestrator is built with: [connect], [is_connected], [disconnect],
    [send_config_set], [deploy_config] and [_cleanup_connection].

    netmiko, the file system and [str.strip] are an interface.  A
    [ConnectHandler] object is a handle; what a call on it does depends on,
    and changes, the state [Net] of the network.  Every call made through
    netmiko is recorded in [log].  Logging and [time.sleep] are left out. *)

Module DeviceManager.

(** The exceptions a netmiko call can raise, as the [except] clauses of
    [connect] tell them apart: [NetmikoBaseException] stands for an instance
    that is neither a timeout nor an authentication failure, [OtherError]
    for any other instance of [Exception]. *)
Inductive error_class :=
| NetmikoTimeoutException
| NetmikoAuthenticationException
| NetmikoBaseException
| OtherError.

Inductive answer (A : Type) :=
| Ok (a : A)
| Err (k : error_class) (msg : string).
Arguments Ok {A} a.
Arguments Err {A} k msg.

Class Netmiko := {
  Net : Type;
  Conn : Type;
  ConnectHandler : dict -> Net -> answer Conn * Net;
  conn_send_command : Conn -> string -> Z -> Net -> answer string * Net;
  conn_send_config_set : Conn -> list string -> bool -> Net -> answer string * Net;
  conn_save_config : Conn -> Net -> answer string * Net;
  conn_disconnect : Conn -> Net -> answer unit * Net;
  (** [str(Path(s).expanduser())] and [Path.exists]. *)
  expanduser : string -> string;
  path_exists : string -> bool;
  (** [str.strip]. *)
  py_strip : string -> string
}.

(** The calls made through netmiko, each with the device name it was made
    for. *)
Inductive netmiko_call :=
| Open (name : string) (params : dict)
| SendCommand (name : string) (command : string)
| SendConfigSet (name : string) (commands : list string)
| SaveConfig (name : string)
| Close (name : string).

Record ConnectionConfig := mkConnectionConfig {
  timeout : Z;
  keepalive : Z;
  max_retries : Z;
  retry_delay : Z;
  ssh_key_file : string;
  default_username : string
}.

Definition default_config : ConnectionConfig :=
  mkConnectionConfig 30 30 3 5 "~/.ssh/huawei_automation_rsa" "admin".

(** [sub in s]. *)
Definition py_in (sub s : string) : bool :=
  match String.index 0 sub s with
  | Some _ => true
  | None => false
  end.

Section Manager.
Context `{Netmiko}.

Record manager := mkManager {
  config : ConnectionConfig;
  connections : gmap string Conn;
  connection_status : gmap string bool;
  net : Net;
  log : list netmiko_call
}.

(** [DeviceManager.__init__]. *)
Definition init (cfg : option ConnectionConfig) (n : Net) : manager :=
  mkManager (default default_config cfg) ∅ ∅ n [].

Definition set_connections (f : gmap string Conn -> gmap string Conn) (m : manager)
  : manager :=
  mkManager (config m) (f (connections m)) (connection_status m) (net m) (log m).

Definition set_status (f : gmap string bool -> gmap string bool) (m : manager)
  : manager :=
  mkManager (config m) (connections m) (f (connection_status m)) (net m) (log m).

(** A call through netmiko: it runs on the network and is recorded. *)
Definition netmiko {A : Type} (c : netmiko_call) (f : Net -> answer A * Net)
  : manager -> answer A * manager :=
  fun m =>
    let '(r, n) := f (net m) in
    (r, mkManager (config m) (connections m) (connection_status m) n (log m ++ [c])).

Definition D (A : Type) : Type := manager -> outcome A * manager.

Definition ret {A : Type} (a : A) : D A := fun m => (Return a, m).

(** [DeviceManager._cleanup_connection]. *)
Definition cleanup_connection (device_name : string) (m : manager) : manager :=
  set_status (delete device_name) (set_connections (delete device_name) m).

(** [DeviceManager.is_connected]. *)
Definition is_connected (device_name : string) : D bool :=
  fun m =>
    match connections m !! device_name with
    | None => (Return false, m)
    | Some c =>
      match netmiko (SendCommand device_name "display clock")
                    (conn_send_command c "display clock" 5) m with
      | (Ok _, m1) => (Return true, set_status <[device_name := true]> m1)
      | (Err _ _, m1) =>
        (Return false,
         cleanup_connection device_name (set_status <[device_name := false]> m1))
      end
    end.

(** How one pass through the [try] block of [connect] ends: with a verified
    connection, at the end of the loop body (the next attempt follows), or
    with a [break]. *)
Inductive attempt_end :=
| Connected (c : Conn)
| Retry
| Break.

(** The four [except] clauses of [connect]. *)
Definition after_error (k : error_class) : attempt_end :=
  match k with
  | NetmikoTimeoutException => Retry
  | NetmikoAuthenticationException => Break
  | NetmikoBaseException => Retry
  | OtherError => Break
  end.

Definition attempt (device_name : string) (connection_params : dict)
  : manager -> attempt_end * manager :=
  fun m =>
    match netmiko (Open device_name connection_params)
                  (ConnectHandler connection_params) m with
    | (Err k _, m1) => (after_error k, m1)
    | (Ok connection, m1) =>
      match netmiko (SendCommand device_name "display version")
                    (conn_send_command connection "display version" 10) m1 with
      | (Err k _, m2) => (after_error k, m2)
      | (Ok output, m2) =>
        if py_in "VRP" output || py_in "Huawei" output then (Connected connection, m2)
        else
          match netmiko (Close device_name) (conn_disconnect connection) m2 with
          | (Err k _, m3) => (after_error k, m3)
          | (Ok _, m3) => (Retry, m3)
          end
      end
    end.

(** The loop [for attempt in range(max_retries)] and the two statements
    after it. *)
Fixpoint connect_loop (attempts : nat) (device_name : string) (connection_params : dict)
  : D bool :=
  fun m =>
    match attempts with
    | O => (Return false, set_status <[device_name := false]> m)
    | S attempts =>
      match attempt device_name connection_params m with
      | (Connected connection, m1) =>
        (Return true,
         set_status <[device_name := true]>
                    (set_connections <[device_name := connection]> m1))
      | (Retry, m1) => connect_loop attempts device_name connection_params m1
      | (Break, m1) => (Return false, set_status <[device_name := false]> m1)
      end
    end.

(** [Path(ssh_key_file).expanduser()]: [Path] accepts a string and raises
    [TypeError] for anything else. *)
Definition key_path (ssh_key_file : value) : outcome string :=
  match ssh_key_file with
  | VStr s => Return (expanduser s)
  | _ => Raise (Exn TypeError "expected str, bytes or os.PathLike object" None)
  end.

(** The dictionary [connection_params] before the authentication entries
    are added. *)
Definition base_params (cfg : ConnectionConfig) (device_ip : value) (kwargs : dict)
  : dict :=
  list_to_map
    [("device_type", dget kwargs "device_type" (VStr "huawei"));
     ("host", device_ip);
     ("username", dget kwargs "username" (VStr (default_username cfg)));
     ("timeout", VInt (timeout cfg));
     ("keepalive", VInt (keepalive cfg));
     ("session_timeout", VInt 60)].

(** [DeviceManager.connect(device_name, device_ip, **kwargs)]. *)
Definition connect (device_name : string) (device_ip : value) (kwargs : dict) : D bool :=
  fun m =>
    let '(reuse, m0) :=
      match connections m !! device_name with
      | None => (false, m)
      | Some _ =>
        match is_connected device_name m with
        | (Return true, m1) => (true, m1)
        | (_, m1) => (false, cleanup_connection device_name m1)
        end
      end in
    if reuse : bool then (Return true, m0)
    else
      let password := dget kwargs "password" VNone in
      let ssh_key_file := dget kwargs "ssh_key_file" (VStr (ssh_key_file (config m0))) in
      match key_path ssh_key_file with
      | Raise e => (Raise e, m0)
      | Return ssh_key_path =>
        let connection_params := base_params (config m0) device_ip kwargs in
        if path_exists ssh_key_path then
          connect_loop (Z.to_nat (max_retries (config m0))) device_name
            (<["key_file" := VStr ssh_key_path]>
               (<["use_keys" := VBool true]> connection_params)) m0
        else if truthy password then
          connect_loop (Z.to_nat (max_retries (config m0))) device_name
            (<["password" := password]> connection_params) m0
        else (Return false, m0)
      end.

(** [DeviceManager.disconnect]. *)
Definition disconnect (device_name : string) : D bool :=
  fun m =>
    match connections m !! device_name with
    | None => (Return true, m)
    | Some c =>
      match netmiko (Close device_name) (conn_disconnect c) m with
      | (Ok _, m1) => (Return true, cleanup_connection device_name m1)
      | (Err _ _, m1) => (Return false, cleanup_connection device_name m1)
      end
    end.

(** [DeviceManager.send_config_set(device_name, config_commands, dry_run=...,
    cmd_verify=..., save_config=...)].  A missing connection object inside
    the [try] block would raise [KeyError], which the handler turns into
    [False]. *)
Definition send_config_set (device_name : string) (config_commands : list string)
           (dry_run cmd_verify save_config : bool) : D bool :=
  fun m =>
    match is_connected device_name m with
    | (Raise e, m0) => (Raise e, m0)
    | (Return false, m0) => (Return false, m0)
    | (Return true, m0) =>
      if dry_run then (Return true, m0)
      else
        match connections m0 !! device_name with
        | None => (Return false, m0)
        | Some c =>
          match netmiko (SendConfigSet device_name config_commands)
                        (conn_send_config_set c config_commands cmd_verify) m0 with
          | (Err _ _, m1) => (Return false, m1)
          | (Ok _, m1) =>
            if save_config then
              match netmiko (SaveConfig device_name) (conn_save_config c) m1 with
              | (Err _ _, m2) => (Return false, m2)
              | (Ok _, m2) => (Return true, m2)
              end
            else (Return true, m1)
          end
        end
    end.

(** The list [config_lines] of [deploy_config]: the stripped lines that are
    neither blank nor comments. *)
Definition is_command (line : string) : bool :=
  negb (String.eqb (py_strip line) EmptyString) && negb (String.prefix "#" (py_strip line)).

Definition config_commands (configuration : string) : list string :=
  py_strip <$> filter (fun line => is_command line = true) (split_lines configuration).

(** [DeviceManager.deploy_config]. *)
Definition deploy_config (device_name configuration : string) (dry_run : bool) : D bool :=
  if String.eqb (py_strip configuration) EmptyString then ret false
  else
    match config_commands configuration with
    | [] => ret false
    | config_lines =>
      if dry_run then ret true
      else send_config_set device_name config_lines false true true
    end.

(** [DeviceManager.get_connection_status]: a copy of the dictionary. *)
Definition get_connection_status : D (gmap string bool) :=
  fun m => (Return (connection_status m), m).

(** The aliases [connect_device] and [deploy_configuration]. *)
Definition connect_device (device_name : string) (device_ip : value) (kwargs : dict)
  : D bool :=
  connect device_name device_ip kwargs.

Definition deploy_configuration (device_name configuration : string) (dry_run : bool)
  : D bool :=
  deploy_config device_name configuration dry_run.

(** The device manager as the transport collaborator of the orchestrator. *)
Definition transport : Transport :=
  {| DM := manager;
     dm_connect := connect;
     dm_deploy_config := deploy_config;
     dm_disconnect := disconnect |}.

End Manager.
End DeviceManager.



(** * Vocabulary of the properties *)

Section Vocabulary.
Context `{PyRuntime} `{Jinja} `{Transport}.

(** [keeps p m]: running [m] leaves the part [p] of the world as it was,
    whether [m] returns or raises. *)
Definition keeps {X A : Type} (p : world -> X) (m : M A) : Prop :=
  forall w, p (m w).2 = p w.

(** [yields P m]: whatever [m] returns satisfies [P]. *)
Definition yields {A : Type} (P : A -> Prop) (m : M A) : Prop :=
  forall w a w', m w = (Return a, w') -> P a.

(** [total m]: [m] returns; it never raises. *)
Definition total {A : Type} (m : M A) : Prop :=
  forall w, exists a w', m w = (Return a, w').

(** The result of a deployment that was attempted: [Success] without an
    error, or [Failed] with one. *)
Definition attempted (r : DeviceResult) : Prop :=
  (status r = SUCCESS /\ error r = None)
  \/ (status r = FAILED /\ is_Some (error r)).

(** Every template file of the directory passes [validate_template_syntax]. *)
Definition all_discovered_valid (files : gmap string string) : bool :=
  forallb (fun n => truthy (dget (validate_template_syntax files n) "valid" (VBool false)))
          (list_templates files).

(** The template names the devices of the inventory refer to are all valid. *)
Definition all_referenced_valid (w : world) : Prop :=
  forall n, n ∈ used_templates (devices w) ->
    dget (validate_template_syntax (template_dir w) n) "valid" (VBool false) = VBool true.

(** The name under which the device behind reference [i] is reported. *)
Definition label (w : world) (i : nat) : string := name_of (devices w !!! i).


(** The value of [rollback_on_failure] read by the loop. *)
Definition rollback_setting (w : world) : outcome value :=
  py_get (dget (inventory w) "deployment_strategy" (VDict ∅))
         "rollback_on_failure" (VBool true).



(** The three counters of a tally, added up. *)
Definition counted (t : tally) : Z := t_successful t + t_failed t + t_skipped t.

(** A device whose [deployment_order], when present, is an integer. *)
Definition int_order (d : dict) : Prop := is_Some (as_int (deployment_order d)).

Definition order_of (d : dict) : Z := int_key deployment_order d.

(** The device objects behind a list of references. *)
Definition objects (w : world) (sequence : list nat) : list dict :=
  (fun i => devices w !!! i) <$> sequence.

(** The dictionaries [load_inventory] builds from the [devices] mapping, in
    declaration order. *)
Definition declared (entries : list (string * dict)) : list dict :=
  (fun e => <["name" := VStr (fst e)]> (snd e)) <$> entries.

(** The result [deploy_all_devices] builds from the final tally [t] of the
    loop, in the world [w] the loop ended in. *)
Definition run_result (w : world) (t : tally) : DeploymentResult :=
  let n := Z.of_nat (length (devices w)) in
  mkDeploymentResult n (t_successful t) (t_failed t) (t_skipped t) (t_results t)
    (pretty (t_successful t) +:+ "/" +:+ pretty n
       +:+ " devices deployed successfully ("
       +:+ format_rate (t_successful t) n +:+ "%)").

(** The result returned when the gate fails. *)
Definition abort_result (w : world) : DeploymentResult :=
  let n := Z.of_nat (length (devices w)) in
  mkDeploymentResult n 0 n 0 ∅ "Template validation failed - deployment aborted".

End Vocabulary.


(** * Vocabulary of the further properties *)

Section MoreVocabulary.
Context `{PyRuntime} `{Jinja} `{Transport}.

(** An entry of the result map: filed under the name it carries, and
    [Success] or [Skipped] without an error, or [Failed] with one. *)
Definition entry_ok (n : string) (r : DeviceResult) : Prop :=
  device_name r = n
  /\ ((status r = SUCCESS /\ error r = None)
      \/ (status r = FAILED /\ is_Some (error r))
      \/ (status r = SKIPPED /\ error r = None)).

Definition entries_ok (results : gmap string DeviceResult) : Prop :=
  forall n r, results !! n = Some r -> entry_ok n r.

(** The keyword arguments [deploy_device] passes to [connect] for a device
    object and its [credentials] mapping. *)
Definition connection_params (device_config credentials : dict) : dict :=
  list_to_map
    [("device_type", dget device_config "device_type" (VStr "huawei"));
     ("username", dget credentials "username" (VStr "admin"));
     ("password", dget credentials "password" VNone);
     ("ssh_key_file", dget credentials "ssh_key_file" VNone)].

(** The number of non-blank lines of a configuration text. *)
Definition config_line_count (config : string) : Z :=
  Z.of_nat (length (filter (fun line => strip_nonempty line = true)
                           (split_lines config))).

(** A device that passes the two checks of [deploy_device] and whose
    [credentials] entry is absent or the mapping [credentials]. *)
Definition deployable (device_config credentials : dict) : Prop :=
  truthy (dget device_config "ip" VNone) = true
  /\ truthy (dget device_config "template" VNone) = true
  /\ dget device_config "credentials" (VDict ∅) = VDict credentials.

End MoreVocabulary.


(** * Vocabulary of the properties of the device manager *)

Section DeviceManagerVocabulary.
Context `{DeviceManager.Netmiko}.

(** The number of connections opened by a list of netmiko calls. *)
Definition is_open (c : DeviceManager.netmiko_call) : bool :=
  match c with
  | DeviceManager.Open _ _ => true
  | _ => false
  end.

Definition opened (l : list DeviceManager.netmiko_call) : nat :=
  length (filter (fun c => is_open c = true) l).

(** The manager keeps its configuration, and what it knows of the devices
    other than [name]. *)
Definition others_kept (name : string) (m m' : DeviceManager.manager) : Prop :=
  DeviceManager.config m' = DeviceManager.config m
  /\ forall other : string, other <> name ->
       DeviceManager.connections m' !! other = DeviceManager.connections m !! other
       /\ DeviceManager.connection_status m' !! other
          = DeviceManager.connection_status m !! other.

(** A device reported as connected has a connection object. *)
Definition consistent (m : DeviceManager.manager) : Prop :=
  forall name : string,
    DeviceManager.connection_status m !! name = Some true ->
    is_Some (DeviceManager.connections m !! name).

(** The keyword arguments [connect] hands to [ConnectHandler] when it
    authenticates with the key file at [ssh_key_path], or else with the
    password of [kwargs]. *)
Definition handler_params (cfg : DeviceManager.ConnectionConfig) (device_ip : value)
           (kwargs : dict) (ssh_key_path : string) : dict :=
  if DeviceManager.path_exists ssh_key_path then
    <["key_file" := VStr ssh_key_path]>
      (<["use_keys" := VBool true]> (DeviceManager.base_params cfg device_ip kwargs))
  else
    <["password" := dget kwargs "password" VNone]>
      (DeviceManager.base_params cfg device_ip kwargs).

(** The key file [connect] looks for. *)
Definition key_file_of (cfg : DeviceManager.ConnectionConfig) (kwargs : dict) : value :=
  dget kwargs "ssh_key_file" (VStr (DeviceManager.ssh_key_file cfg)).

(** A command as [deploy_config] sends it: not empty, not a comment. *)
Definition proper_command (c : string) : Prop :=
  c <> EmptyString /\ String.prefix "#" c = false.

End DeviceManagerVocabulary.

(** A device object whose [credentials], when they are a mapping, hold no
    string under [ssh_key_file]. *)
Definition names_no_key_file (device_config : dict) : Prop :=
  forall c, dget device_config "credentials" (VDict ∅) = VDict c ->
            as_str (dget c "ssh_key_file" VNone) = None.


(** * Concrete collaborators and inventories

    The three interfaces instantiated so that the model can be run, and the
    inventories used below to exercise it. *)

(** Whitespace of ASCII text, as removed by [str.strip]. *)
Definition is_ascii_space (c : ascii) : bool :=
  let n := nat_of_ascii c in
  Nat.eqb n 32 || ((9 <=? n)%nat && (n <=? 13)%nat) || ((28 <=? n)%nat && (n <=? 31)%nat).

(** One decimal of the rate [100 * s / n], rounded half to even. *)
Definition rate_tenths (s n : Z) : Z :=
  let q := (1000 * s) / n in
  let r := (1000 * s) mod n in
  if 2 * r <? n then q
  else if 2 * r =? n then (if Z.even q then q else q + 1)
  else q + 1.

Definition demo_runtime : PyRuntime := {|
  py_repr := fun _ => "<object>";
  strip_nonempty := fun line =>
    existsb (fun c => negb (is_ascii_space c)) (list_ascii_of_string line);
  format_rate := fun s n =>
    pretty (rate_tenths s n / 10) +:+ "." +:+ pretty (rate_tenths s n mod 10)
|}.

(** A template engine for plain-text templates: a template without any Jinja2
    tag renders to its own text; the body [{% if %}] does not compile. *)
Definition demo_jinja : Jinja := {|
  template := string;
  env_get_template := fun files name =>
    match files !! name with
    | None => Raise (Exn TemplateNotFound name None)
    | Some body =>
      if String.eqb body "{% if %}"
      then Raise (Exn TemplateSyntaxError
                      "Expected an expression, got 'end of statement block'" (Some 1))
      else Return body
    end;
  template_render := fun _ body _ => Return body
|}.

(** A transport collaborator that reaches every device. *)
Definition demo_transport : Transport := {|
  DM := unit;
  dm_connect := fun _ _ _ d => (Return true, d);
  dm_deploy_config := fun _ _ _ d => (Return true, d);
  dm_disconnect := fun _ d => (Return true, d)
|}.

Abbreviation demo_world := (@world demo_jinja demo_transport).

(** A freshly constructed orchestrator over a template directory. *)
Definition fresh (files : gmap string string) : demo_world :=
  @mkWorld demo_jinja demo_transport ∅ [] [] None files ∅ tt [].

(** The orchestrator after [load_inventory] on a parsed document. *)
Definition loaded (files : gmap string string) (doc : yaml_doc) : demo_world :=
  (@load_inventory demo_jinja demo_transport (Some doc) (fresh files)).2.

Definition good_templates : gmap string string :=
  list_to_map [("core_switch.j2", "sysname CORE"); ("access_switch.j2", "sysname ACCESS")].

(** The same directory with one more file, which no device uses and which
    does not compile. *)
Definition templates_with_broken_extra : gmap string string :=
  <["unused.j2" := "{% if %}"]> good_templates.

Definition core_device (order : Z) : dict :=
  list_to_map [("ip", VStr "10.0.0.1"); ("device_type", VStr "huawei");
               ("role", VStr "core"); ("template", VStr "core_switch");
               ("deployment_order", VInt order)].

Definition access_device (order : Z) : dict :=
  list_to_map [("ip", VStr "10.0.0.2"); ("device_type", VStr "huawei");
               ("role", VStr "access"); ("template", VStr "access_switch");
               ("deployment_order", VInt order)].

(** A device entry without [ip]. *)
Definition device_without_ip (order : Z) : dict :=
  list_to_map [("device_type", VStr "huawei"); ("role", VStr "access");
               ("template", VStr "access_switch"); ("deployment_order", VInt order)].


Definition one_core_doc : yaml_doc :=
  {| yaml_devices := Some [("core1", core_device 1)]; yaml_top := ∅ |}.

(** Three devices declared with orders 3, 1, 2. *)
Definition three_doc : yaml_doc :=
  {| yaml_devices := Some [("c", core_device 3); ("a", access_device 1);
                           ("b", access_device 2)];
     yaml_top := ∅ |}.

(** Three devices of which the second one to be deployed has no address. *)
Definition middle_fails_doc : yaml_doc :=
  {| yaml_devices := Some [("sw1", core_device 1); ("sw2", device_without_ip 2);
                           ("sw3", access_device 3)];
     yaml_top := ∅ |}.

(** Two devices without address. *)
Definition two_without_ip_doc : yaml_doc :=
  {| yaml_devices := Some [("sw1", device_without_ip 1); ("sw2", device_without_ip 2)];
     yaml_top := ∅ |}.


(** The inventories above once loaded. *)
Definition one_core_world : demo_world := loaded good_templates one_core_doc.
Definition one_core_broken_extra_world : demo_world := loaded templates_with_broken_extra one_core_doc.
Definition middle_fails_world : demo_world := loaded good_templates middle_fails_doc.
Definition two_without_ip_world : demo_world := loaded good_templates two_without_ip_doc.

(** Running a computation on the concrete collaborators. *)
Definition returned {A : Type} (dflt : A) (run : outcome A * demo_world) : A :=
  match run.1 with
  | Return a => a
  | Raise _ => dflt
  end.

Definition empty_tally : tally := mkTally ∅ 0 0 0.

Definition empty_result : DeploymentResult := mkDeploymentResult 0 0 0 0 ∅ EmptyString.


Definition middle_fails_run : outcome DeploymentResult * demo_world :=
  @deploy_all_devices demo_runtime demo_jinja demo_transport (VBool true)
                      middle_fails_world.

Definition two_without_ip_run : outcome DeploymentResult * demo_world :=
  @deploy_all_devices demo_runtime demo_jinja demo_transport (VBool true)
                      two_without_ip_world.

Definition one_core_run : outcome DeploymentResult * demo_world :=
  @deploy_all_devices demo_runtime demo_jinja demo_transport (VBool true)
                      one_core_world.

(** A transport collaborator whose every call raises. *)
Definition unreachable_transport : Transport := {|
  DM := unit;
  dm_connect := fun _ _ _ d => (Raise (Exn OtherException "connection timed out" None), d);
  dm_deploy_config := fun _ _ _ d =>
    (Raise (Exn OtherException "connection timed out" None), d);
  dm_disconnect := fun _ d => (Raise (Exn OtherException "connection timed out" None), d)
|}.

(** The inventory of one core switch, loaded next to that collaborator. *)
Definition one_core_unreachable_world : @world demo_jinja unreachable_transport :=
  (@load_inventory demo_jinja unreachable_transport (Some one_core_doc)
     (@mkWorld demo_jinja unreachable_transport ∅ [] [] None good_templates ∅ tt [])).2.


(** * Further collaborators and inventories *)

(** A transport collaborator whose [connect] answers [False]. *)
Definition refusing_transport : Transport := {|
  DM := unit;
  dm_connect := fun _ _ _ d => (Return false, d);
  dm_deploy_config := fun _ _ _ d => (Return true, d);
  dm_disconnect := fun _ d => (Return true, d)
|}.

(** One whose [deploy_config] raises, and one whose [disconnect] raises. *)
Definition failing_deploy_transport : Transport := {|
  DM := unit;
  dm_connect := fun _ _ _ d => (Return true, d);
  dm_deploy_config := fun _ _ _ d => (Raise (Exn OtherException "channel closed" None), d);
  dm_disconnect := fun _ d => (Return true, d)
|}.

Definition failing_disconnect_transport : Transport := {|
  DM := unit;
  dm_connect := fun _ _ _ d => (Return true, d);
  dm_deploy_config := fun _ _ _ d => (Return true, d);
  dm_disconnect := fun _ d => (Raise (Exn OtherException "socket is closed" None), d)
|}.

(** The inventory of one core switch, loaded next to a given collaborator. *)
Definition one_core_with (T : Transport) (d : @DM T) : @world demo_jinja T :=
  (@load_inventory demo_jinja T (Some one_core_doc)
     (@mkWorld demo_jinja T ∅ [] [] None good_templates ∅ d [])).2.

(** Two devices without address, in an inventory that turns
    [rollback_on_failure] off. *)
Definition no_rollback_doc : yaml_doc :=
  {| yaml_devices := Some [("sw1", device_without_ip 1); ("sw2", device_without_ip 2)];
     yaml_top := {[ "deployment_strategy" :=
                      VDict {[ "rollback_on_failure" := VBool false ]} ]} |}.

Definition no_rollback_world : demo_world := loaded good_templates no_rollback_doc.

Definition no_rollback_run : outcome DeploymentResult * demo_world :=
  @deploy_all_devices demo_runtime demo_jinja demo_transport (VBool true)
                      no_rollback_world.

(** One core switch in an inventory whose [dry_run_default] is [null]. *)
Definition null_default_doc : yaml_doc :=
  {| yaml_devices := Some [("core1", core_device 1)];
     yaml_top := {[ "global_settings" := VDict {[ "dry_run_default" := VNone ]} ]} |}.

Definition null_default_world : demo_world := loaded good_templates null_default_doc.

(** One core switch in an inventory whose [deployment_strategy] is a string. *)
Definition malformed_strategy_doc : yaml_doc :=
  {| yaml_devices := Some [("core1", core_device 1)];
     yaml_top := {[ "deployment_strategy" := VStr "sequential" ]} |}.

Definition malformed_strategy_world : demo_world :=
  loaded good_templates malformed_strategy_doc.


(** A template directory with a file that is not a template. *)
Definition templates_with_readme : gmap string string :=
  <["README.md" := "templates"]> good_templates.

(** [str.strip] on ASCII text. *)
Fixpoint lstrip_ascii (s : string) : string :=
  match s with
  | EmptyString => EmptyString
  | String c s' => if is_ascii_space c then lstrip_ascii s' else s
  end.

Definition strip_ascii (s : string) : string :=
  String.rev (lstrip_ascii (String.rev (lstrip_ascii s))).

(** A network of three hosts: [10.0.0.1] is a Huawei switch that accepts the
    login, [10.0.0.8] does not answer, any other host rejects the login.  The
    network state counts the calls that reached it; the only key file that
    exists is [/keys/huawei_rsa]. *)
Definition demo_netmiko : DeviceManager.Netmiko := {|
  DeviceManager.Net := nat;
  DeviceManager.Conn := string;
  DeviceManager.ConnectHandler := fun params n =>
    match params !! "host" with
    | Some (VStr "10.0.0.1") => (DeviceManager.Ok "10.0.0.1", S n)
    | Some (VStr "10.0.0.8") =>
      (DeviceManager.Err DeviceManager.NetmikoTimeoutException "timed out", S n)
    | _ =>
      (DeviceManager.Err DeviceManager.NetmikoAuthenticationException
                         "authentication failed", S n)
    end;
  DeviceManager.conn_send_command := fun _ _ _ n =>
    (DeviceManager.Ok "Huawei Versatile Routing Platform Software", S n);
  DeviceManager.conn_send_config_set := fun _ _ _ n => (DeviceManager.Ok "ok", S n);
  DeviceManager.conn_save_config := fun _ n => (DeviceManager.Ok "saved", S n);
  DeviceManager.conn_disconnect := fun _ n => (DeviceManager.Ok tt, S n);
  DeviceManager.expanduser := fun s => s;
  DeviceManager.path_exists := fun p => String.eqb p "/keys/huawei_rsa";
  DeviceManager.py_strip := strip_ascii
|}.

Abbreviation demo_manager := (@DeviceManager.manager demo_netmiko).

(** A new device manager, and one that holds a connection to [core1]. *)
Definition new_manager : demo_manager :=
  @DeviceManager.init demo_netmiko None 0%nat.

Definition manager_with_core1 : demo_manager :=
  @DeviceManager.mkManager demo_netmiko DeviceManager.default_config
    {[ "core1" := "10.0.0.1" ]} {[ "core1" := true ]} 0%nat [].

(** Keyword arguments of [connect]: a key file that exists, a password
    only, no key file name at all (as the orchestrator passes it), and a key
    file that does not exist. *)
Definition key_kwargs : dict :=
  {[ "ssh_key_file" := VStr "/keys/huawei_rsa" ]}.

Definition password_kwargs : dict :=
  list_to_map [("ssh_key_file", VStr "/keys/none"); ("password", VStr "secret")].

Definition null_key_kwargs : dict :=
  list_to_map [("ssh_key_file", VNone); ("password", VStr "secret")].

Definition missing_key_kwargs : dict :=
  {[ "ssh_key_file" := VStr "/keys/none" ]}.

(** A configuration of two commands, a comment and a blank line. *)
Definition sample_configuration : string :=
  String "#"%char (" core switch" +:+ String "010"%char
    (" sysname CORE " +:+ String "010"%char (String "010"%char "vlan 10"))).

(** The inventory of one core switch with a password, run with the device
    manager. *)
Definition password_device : dict :=
  <["credentials" := VDict {[ "password" := VStr "secret" ]}]> (core_device 1).

Definition password_doc : yaml_doc :=
  {| yaml_devices := Some [("core1", password_device)]; yaml_top := ∅ |}.

Definition managed_world : @world demo_jinja (@DeviceManager.transport demo_netmiko) :=
  (@load_inventory demo_jinja (@DeviceManager.transport demo_netmiko)
     (Some password_doc)
     (@mkWorld demo_jinja (@DeviceManager.transport demo_netmiko)
               ∅ [] [] None good_templates ∅ new_manager [])).2.

(** The inventory of one core switch next to the collaborators above. *)
Definition refused_world : @world demo_jinja refusing_transport :=
  one_core_with refusing_transport tt.

Definition failing_deploy_world : @world demo_jinja failing_deploy_transport :=
  one_core_with failing_deploy_transport tt.

Definition failing_disconnect_world : @world demo_jinja failing_disconnect_transport :=
  one_core_with failing_disconnect_transport tt.

(** The world in which [generate_config] runs once [connect] has returned. *)
Definition connected (T : Transport) (w : @world demo_jinja T) (d : @DM T)
  : @world demo_jinja T :=
  @transport_step demo_jinja T
    (Connect (@label demo_runtime demo_jinja T w 0%nat)
             (dget (devices w !!! 0%nat) "ip" VNone)
             (connection_params (devices w !!! 0%nat) ∅)) d w.

Definition configured (T : Transport) (w : @world demo_jinja T) (d : @DM T)
  : @world demo_jinja T :=
  (@generate_config demo_jinja T (dget (devices w !!! 0%nat) "role" (VStr "unknown"))
                    0%nat (connected T w d)).2.


(** * Properties *)

(** ** The stable sort *)

Section StableSortFacts.
Context {K A : Type} (ltb : K -> K -> bool).
Implicit Types (x : K * A) (l : list (K * A)).

Lemma insert_by_perm x l : Permutation (insert_by ltb x l) (x :: l).
Proof.
  induction l as [|y l IH]; simpl; [done|].
  destruct (ltb y.1 x.1); [|done].
  rewrite IH. apply perm_swap.
Qed.

Lemma stable_sort_perm l : Permutation (stable_sort ltb l) l.
Proof.
  induction l as [|x l IH]; simpl; [done|].
  by rewrite insert_by_perm, IH.
Qed.

Lemma stable_sort_length l : length (stable_sort ltb l) = length l.
Proof. apply Permutation_length, stable_sort_perm. Qed.

Hypothesis ltb_irrefl : forall a, ltb a a = false.
Hypothesis ltb_asym : forall a b, ltb a b = true -> ltb b a = false.
Hypothesis le_trans : forall a b c,
  ltb b a = false -> ltb c b = false -> ltb c a = false.

Lemma insert_by_sorted x l :
  StronglySorted (key_le ltb) l -> StronglySorted (key_le ltb) (insert_by ltb x l).
Proof.
  induction 1 as [|y l Hs IH Hy]; simpl.
  - repeat constructor.
  - destruct (ltb y.1 x.1) eqn:E.
    + constructor; [done|].
      rewrite insert_by_perm. constructor; [|done].
      by apply ltb_asym.
    + constructor; [by constructor|].
      constructor; [done|].
      eapply Forall_impl; [exact Hy|].
      intros z Hz. unfold key_le in *. eauto.
Qed.

Lemma stable_sort_sorted l : StronglySorted (key_le ltb) (stable_sort ltb l).
Proof.
  induction l as [|x l IH]; simpl; [constructor|].
  by apply insert_by_sorted.
Qed.

(** Stability: the elements that carry one given key keep their order. *)
Context `{EqDecision K}.

Lemma insert_by_stable k x l :
  filter (fun y => y.1 = k) (insert_by ltb x l)
  = filter (fun y => y.1 = k) (x :: l).
Proof.
  induction l as [|y l IH]; simpl; [done|].
  destruct (ltb y.1 x.1) eqn:E; [|done].
  rewrite (filter_cons _ y), IH, !filter_cons.
  assert (y.1 <> x.1) by (intros Heq; rewrite Heq, ltb_irrefl in E; done).
  repeat case_decide; congruence.
Qed.

Lemma stable_sort_stable k l :
  filter (fun y => y.1 = k) (stable_sort ltb l) = filter (fun y => y.1 = k) l.
Proof.
  induction l as [|x l IH]; simpl; [done|].
  rewrite insert_by_stable, !filter_cons, IH. done.
Qed.
End StableSortFacts.

(** ** [py_sorted] on integer keys *)

Section PySortedInt.
Context {A : Type} (key : A -> value).

#[local] Abbreviation int_key := (int_key key).
#[local] Abbreviation decorated := (decorated key).

Lemma mapM_int_keys (l : list A) :
  Forall (fun x => is_Some (as_int (key x))) l ->
  mapM (fun x => as_int (key x)) l = Some (int_key <$> l).
Proof.
  intros Hl. apply mapM_Some. induction Hl as [|x l [n Hn] _ IH]; simpl.
  - constructor.
  - constructor; [|done]. unfold int_key. by rewrite Hn.
Qed.

Lemma zip_int_keys (l : list A) :
  zip (int_key <$> l) l = (fun x => (int_key x, x)) <$> l.
Proof. induction l as [|x l IH]; simpl; [done|]. f_equal. apply IH. Qed.

Lemma decorated_sorted (L : list (Z * A)) :
  Forall decorated L ->
  StronglySorted (key_le Z.ltb) L ->
  StronglySorted (fun a b => int_key a <= int_key b) (snd <$> L).
Proof.
  intros Hd Hs. induction Hs as [|p L Hs IH Hp]; simpl; [constructor|].
  apply Forall_cons in Hd as [Hp1 Hd].
  constructor; [by apply IH|].
  apply Forall_fmap. apply Forall_forall. intros q Hq. simpl.
  rewrite Forall_forall in Hp, Hd.
  specialize (Hp q Hq). specialize (Hd q Hq).
  unfold key_le, decorated in *. rewrite <- Hp1, <- Hd. lia.
Qed.

Lemma decorated_filter k (L : list (Z * A)) :
  Forall decorated L ->
  filter (fun x => int_key x = k) (snd <$> L) = snd <$> filter (fun p => p.1 = k) L.
Proof.
  induction 1 as [|p L Hp _ IH]; [done|].
  rewrite fmap_cons, !filter_cons, IH. unfold decorated in Hp.
  repeat case_decide; try done; congruence.
Qed.

Lemma py_sorted_int (l : list A) :
  Forall (fun x => is_Some (as_int (key x))) l ->
  exists s,
    py_sorted key l = Return s
    /\ Permutation s l
    /\ StronglySorted (fun a b => int_key a <= int_key b) s
    /\ forall k, filter (fun x => int_key x = k) s = filter (fun x => int_key x = k) l.
Proof.
  intros Hl. unfold py_sorted.
  destruct (length l <=? 1)%nat eqn:Hlen.
  - exists l. repeat split; [done|].
    apply Nat.leb_le in Hlen.
    destruct l as [|x [|y l]]; simpl in Hlen; try lia; repeat constructor.
  - rewrite (mapM_int_keys _ Hl). cbv beta iota. rewrite zip_int_keys.
    set (L := (fun x => (int_key x, x)) <$> l).
    assert (HL : snd <$> L = l).
    { unfold L. rewrite <- list_fmap_compose. apply list_fmap_id. }
    assert (Hd : Forall decorated (stable_sort Z.ltb L)).
    { rewrite stable_sort_perm. unfold L. apply Forall_fmap, Forall_forall.
      by intros x _. }
    eexists; split; [reflexivity|]. split; [|split].
    + etrans; [apply fmap_Permutation, stable_sort_perm|]. by rewrite HL.
    + apply decorated_sorted; [done|].
      apply stable_sort_sorted; intros; lia.
    + intros k. rewrite decorated_filter by done.
      rewrite stable_sort_stable by (intros; lia).
      rewrite <- decorated_filter, HL; [done|].
      unfold L. apply Forall_fmap, Forall_forall. by intros x _.
Qed.
End PySortedInt.


(** ** Reasoning about computations *)

Section OrchestratorFacts.
Context `{PyRuntime} `{Jinja} `{Transport}.

Section Keeps.
Context {X : Type} (p : world -> X).

Lemma keeps_ret {A} (a : A) : keeps p (mret a).
Proof. by intros w. Qed.

Lemma keeps_bind {A B} (m : M A) (f : A -> M B) :
  keeps p m -> (forall a, keeps p (f a)) -> keeps p (m ≫= f).
Proof.
  intros Hm Hf w. unfold mbind, M_bind.
  specialize (Hm w). destruct (m w) as [[a|e] w1]; simpl in *; [|done].
  by rewrite Hf.
Qed.

Lemma keeps_bind_ret {A B} (a : A) (f : A -> M B) :
  keeps p (f a) -> keeps p (mret a ≫= f).
Proof. done. Qed.

Lemma keeps_gets {A} (f : world -> A) : keeps p (gets f).
Proof. by intros w. Qed.

Lemma keeps_lift {A} (o : outcome A) : keeps p (lift o).
Proof. by intros w. Qed.

Lemma keeps_modify (f : world -> world) :
  (forall w, p (f w) = p w) -> keeps p (modify f).
Proof. intros Hf w. apply Hf. Qed.

Lemma keeps_try {A} (body : M A) (handler : exn -> M A) :
  keeps p body -> (forall e, keeps p (handler e)) -> keeps p (try_except body handler).
Proof.
  intros Hb Hh w. unfold try_except.
  specialize (Hb w). destruct (body w) as [[a|e] w1]; simpl in *; [done|].
  by rewrite Hh.
Qed.

Lemma keeps_read_device i : keeps p (read_device i).
Proof. apply keeps_gets. Qed.

Lemma keeps_inventory_setting s k : keeps p (inventory_setting s k).
Proof. apply keeps_bind; [apply keeps_gets|]. intros a. apply keeps_lift. Qed.

Lemma keeps_default_dry_run dry_run : keeps p (default_dry_run dry_run).
Proof. destruct dry_run; first [apply keeps_inventory_setting | apply keeps_ret]. Qed.

Lemma keeps_validate_templates : keeps p validate_templates.
Proof.
  unfold validate_templates. apply keeps_bind; [apply keeps_gets|]. intros ds.
  destruct (bool_decide _); [apply keeps_ret|].
  apply keeps_bind; [apply keeps_gets|]. intros r. apply keeps_ret.
Qed.

Lemma keeps_get_deployment_sequence : keeps p get_deployment_sequence.
Proof. by intros w. Qed.

(** What the template engine and [generate_config] write: the entries
    [template_name] and [device_type] of a device object, and the template
    cache. *)
Hypothesis p_update : forall i k v w,
  k = "template_name" \/ k = "device_type" ->
  p (set_devices (<[i := <[k := v]> (devices w !!! i)]> (devices w)) w) = p w.
Hypothesis p_cache : forall v w, p (set_template_cache v w) = p w.

Lemma keeps_update_device i k v :
  k = "template_name" \/ k = "device_type" ->
  keeps p (update_device i (fun d => <[k := v]> d)).
Proof. intros Hk. apply keeps_modify. intros w. by apply p_update. Qed.

Lemma keeps_get_template n : keeps p (get_template n).
Proof.
  intros w. unfold get_template.
  destruct (template_cache w !! n); [done|].
  destruct (env_get_template _ _); simpl; [apply p_cache | done].
Qed.

Lemma keeps_render_template n vars : keeps p (render_template n vars).
Proof.
  unfold render_template. apply keeps_bind; [apply keeps_get_template|].
  intros [t|]; [|apply keeps_ret].
  apply keeps_bind; [apply keeps_gets|]. intros files.
  destruct (template_render _ _ _); apply keeps_ret.
Qed.

Lemma keeps_generate_config role i : keeps p (generate_config role i).
Proof.
  unfold generate_config. apply keeps_bind; [apply keeps_lift|].
  intros [tn|]; [|apply keeps_ret].
  apply keeps_bind; [apply keeps_update_device; by left|]. intros _.
  apply keeps_bind; [apply keeps_update_device; by right|]. intros _.
  apply keeps_bind; [apply keeps_read_device|]. intros device_vars.
  apply keeps_render_template.
Qed.

Ltac keeps_step :=
  cbn [truthy negb];
  lazymatch goal with
  | |- keeps _ (mret _ ≫= _) => apply keeps_bind_ret; cbv beta
  | |- keeps _ (mret _) => apply keeps_ret
  | |- keeps _ (gets _) => apply keeps_gets
  | |- keeps _ (lift _) => apply keeps_lift
  | |- keeps _ (read_device _) => apply keeps_read_device
  | |- keeps _ (inventory_setting _ _) => apply keeps_inventory_setting
  | |- keeps _ (generate_config _ _) => apply keeps_generate_config
  | |- keeps _ (_ ≫= _) => apply keeps_bind; [|intros ?]
  | |- keeps _ (if ?b then _ else _) => destruct b
  | |- keeps _ (match ?x with _ => _ end) => destruct x
  end.

(** In dry-run mode [deploy_device] writes nothing else. *)
Lemma keeps_deploy_device_dry i : keeps p (deploy_device i (VBool true)).
Proof.
  unfold deploy_device. apply keeps_bind; [apply keeps_read_device|].
  intros device_config. apply keeps_try; [|intros e; apply keeps_ret].
  cbv zeta. unfold default_dry_run. repeat keeps_step.
Qed.

(** Otherwise it also drives the transport collaborator. *)
Hypothesis p_transport : forall c d w, p (transport_step c d w) = p w.

Lemma keeps_connect n ip params : keeps p (connect n ip params).
Proof. intros w. unfold connect. destruct (dm_connect _ _ _ _). apply p_transport. Qed.

Lemma keeps_deploy_config n c b : keeps p (deploy_config n c b).
Proof. intros w. unfold deploy_config. destruct (dm_deploy_config _ _ _ _). apply p_transport. Qed.

Lemma keeps_disconnect n : keeps p (disconnect n).
Proof. intros w. unfold disconnect. destruct (dm_disconnect _ _). apply p_transport. Qed.

Ltac keeps_step' :=
  first [ apply keeps_connect | apply keeps_deploy_config | apply keeps_disconnect
        | keeps_step ].

Lemma keeps_deploy_device i dry_run : keeps p (deploy_device i dry_run).
Proof.
  unfold deploy_device. apply keeps_bind; [apply keeps_read_device|].
  intros device_config. apply keeps_try; [|intros e; apply keeps_ret].
  cbv zeta. apply keeps_bind; [apply keeps_default_dry_run|].
  intros dr. repeat keeps_step'.
Qed.

Lemma keeps_deploy_step dry_run i t : keeps p (deploy_step dry_run i t).
Proof.
  unfold deploy_step. cbv zeta.
  apply keeps_bind; [apply keeps_read_device|]. intros device_config.
  apply keeps_bind; [apply keeps_inventory_setting|]. intros rb.
  destruct (_ && _); [apply keeps_ret|].
  apply keeps_bind; [apply keeps_deploy_device|]. intros r. apply keeps_ret.
Qed.

Lemma keeps_deploy_loop dry_run sequence t : keeps p (deploy_loop dry_run sequence t).
Proof.
  revert t. induction sequence as [|i rest IH]; intros t; simpl.
  - apply keeps_ret.
  - apply keeps_bind; [apply keeps_deploy_step | apply IH].
Qed.

(** A whole run also appends to the history. *)
Hypothesis p_store : forall r w, p (store_deployment r w) = p w.

Lemma keeps_deploy_all_devices dry_run : keeps p (deploy_all_devices dry_run).
Proof.
  unfold deploy_all_devices. apply keeps_bind; [apply keeps_gets|].
  intros [|d ds]; [apply keeps_ret|].
  apply keeps_bind; [apply keeps_default_dry_run|].
  intros dr. apply keeps_bind; [apply keeps_validate_templates|].
  intros [|]; simpl.
  - apply keeps_bind; [apply keeps_get_deployment_sequence|]. intros sq.
    apply keeps_bind; [apply keeps_deploy_loop|]. intros t.
    apply keeps_bind; [apply keeps_gets|]. intros n.
    apply keeps_bind; [by apply keeps_modify | intros ?; apply keeps_ret].
  - apply keeps_bind; [apply keeps_gets | intros ?; apply keeps_ret].
Qed.
End Keeps.

Section Results.
Context {A : Type}.

Lemma total_ret (a : A) : total (mret a).
Proof. intros w. by exists a, w. Qed.

Lemma total_bind {B} (m : M A) (f : A -> M B) :
  total m -> (forall a, total (f a)) -> total (m ≫= f).
Proof.
  intros Hm Hf w. unfold mbind, M_bind.
  destruct (Hm w) as (a & w1 & ->). apply Hf.
Qed.

Lemma total_gets (f : world -> A) : total (gets f).
Proof. intros w. by eexists _, _. Qed.

Lemma total_try (body : M A) (handler : exn -> M A) :
  (forall e, total (handler e)) -> total (try_except body handler).
Proof.
  intros Hh w. unfold try_except.
  destruct (body w) as [[a|e] w1]; [by eexists _, _ | apply Hh].
Qed.

Lemma yields_ret (P : A -> Prop) (a : A) : P a -> yields P (mret a).
Proof. intros Ha w a' w' [= <- _]. done. Qed.

Lemma yields_bind {B} (P : B -> Prop) (m : M A) (f : A -> M B) :
  (forall a, yields P (f a)) -> yields P (m ≫= f).
Proof.
  intros Hf w b w'. unfold mbind, M_bind.
  destruct (m w) as [[a|e] w1]; [apply Hf | done].
Qed.

Lemma yields_try (P : A -> Prop) (body : M A) (handler : exn -> M A) :
  yields P body -> (forall e, yields P (handler e)) -> yields P (try_except body handler).
Proof.
  intros Hb Hh w a w'. unfold try_except.
  destruct (body w) as [[a1|e] w1] eqn:E.
  - intros [= <- _]. by eapply Hb.
  - apply Hh.
Qed.
End Results.

(** ** [deploy_device] *)

Ltac yields_step :=
  lazymatch goal with
  | |- yields _ (mret _) => apply yields_ret
  | |- yields _ (_ ≫= _) => apply yields_bind; intros ?
  | |- yields _ (if ?b then _ else _) => destruct b
  | |- yields _ (match ?x with _ => _ end) => destruct x
  end.

Lemma deploy_device_attempted i dry_run : yields attempted (deploy_device i dry_run).
Proof.
  unfold deploy_device. apply yields_bind. intros device_config.
  apply yields_try.
  - cbv zeta. repeat yields_step; try (right; by eauto); try (left; done).
  - intros e. apply yields_ret. right. by eauto.
Qed.

Lemma deploy_device_total i dry_run : total (deploy_device i dry_run).
Proof.
  unfold deploy_device. apply total_bind; [apply total_gets|].
  intros device_config. apply total_try. intros e. apply total_ret.
Qed.


(** ** Running a computation step by step *)

Lemma bind_run {A B} (m : M A) (f : A -> M B) w a w1 :
  m w = (Return a, w1) -> (m ≫= f) w = f a w1.
Proof. intros Hm. unfold mbind, M_bind. by rewrite Hm. Qed.

Lemma bind_Return {A B} (m : M A) (f : A -> M B) w b w' :
  (m ≫= f) w = (Return b, w') ->
  exists a w1, m w = (Return a, w1) /\ f a w1 = (Return b, w').
Proof.
  unfold mbind, M_bind. destruct (m w) as [[a|e] w1]; [|done].
  intros Hf. by exists a, w1.
Qed.

Lemma inventory_setting_run section key w :
  inventory_setting section key w
  = (py_get (dget (inventory w) section (VDict ∅)) key (VBool true), w).
Proof. done. Qed.

(** ** The validation gate *)

Lemma fold_all_valid {A} (P : A -> bool) (l : list A) (b : bool) :
  fold_left (fun all_valid e => if P e then all_valid else false) l b
  = b && forallb P l.
Proof.
  revert b. induction l as [|x l IH]; intros b; simpl.
  - by rewrite andb_true_r.
  - rewrite IH. by destruct (P x), b.
Qed.

Lemma forallb_fmap {A B} (P : B -> bool) (f : A -> B) (l : list A) :
  forallb P (f <$> l) = forallb (fun x => P (f x)) l.
Proof. induction l as [|x l IH]; simpl; [done|]. f_equal. exact IH. Qed.

Lemma validate_templates_run w :
  validate_templates w
  = (Return (bool_decide (used_templates (devices w) = ∅)
             || all_discovered_valid (template_dir w)), w).
Proof.
  unfold validate_templates, mbind, M_bind, gets, validate_all_templates. simpl.
  destruct (bool_decide _); [done|]. simpl. unfold mret, M_ret. do 2 f_equal.
  rewrite fold_all_valid. unfold all_discovered_valid, validate_all.
  by rewrite forallb_fmap.
Qed.

(** C1, as amended: the gate passes exactly when no device names a template
    or every template file discovered in the template directory validates,
    whether a device refers to it or not, and it never changes the state; so,
    once a device names a template, one discovered file that does not
    validate makes the gate fail. *)
Theorem validate_templates_checks_all_discovered w :
  validate_templates w
  = (Return (bool_decide (used_templates (devices w) = ∅)
             || all_discovered_valid (template_dir w)), w)
  /\ (forall n,
        used_templates (devices w) <> ∅ ->
        n ∈ list_templates (template_dir w) ->
        truthy (dget (validate_template_syntax (template_dir w) n) "valid"
                     (VBool false)) = false ->
        validate_templates w = (Return false, w)).
Proof.
  split; [apply validate_templates_run|].
  intros n Hused Hn Hbad. rewrite validate_templates_run.
  rewrite bool_decide_eq_false_2 by done. simpl. do 2 f_equal.
  apply not_true_iff_false. intros Hall.
  unfold all_discovered_valid in Hall. rewrite forallb_forall in Hall.
  apply list_elem_of_In in Hn. specialize (Hall n Hn). congruence.
Qed.

(** ** Idempotence of the validation *)


(** ** The run *)

Lemma py_sorted_length {A} (key : A -> value) (l s : list A) :
  py_sorted key l = Return s -> length s = length l.
Proof.
  unfold py_sorted. destruct (length l <=? 1)%nat; [by intros [= ->]|].
  destruct (mapM _ l) as [ks|] eqn:E.
  - intros [= <-]. apply mapM_Some, Forall2_length in E.
    rewrite length_fmap, stable_sort_length, length_zip_with. lia.
  - destruct (mapM (fun x => as_str (key x)) l) as [ks|] eqn:E'; [|done].
    intros [= <-]. apply mapM_Some, Forall2_length in E'.
    rewrite length_fmap, stable_sort_length, length_zip_with. lia.
Qed.

(** C2: when the gate fails on a non-empty inventory, the run returns the
    abort result (every device counted as failed, none as successful or
    skipped, no per-device entry, the abort summary) and the state is the one
    before the call: the transport collaborator received no call. *)
Theorem gate_failure_aborts_run dry_run dr w :
  devices w <> [] ->
  default_dry_run dry_run w = (Return dr, w) ->
  validate_templates w = (Return false, w) ->
  deploy_all_devices dry_run w = (Return (abort_result w), w)
  /\ total_devices (abort_result w) = Z.of_nat (length (devices w))
  /\ failed (abort_result w) = total_devices (abort_result w)
  /\ successful (abort_result w) = 0
  /\ skipped (abort_result w) = 0
  /\ results (abort_result w) = ∅
  /\ summary (abort_result w) = "Template validation failed - deployment aborted"
  /\ calls (deploy_all_devices dry_run w).2 = calls w.
Proof.
  intros Hne Hdr Hgate.
  assert (Hrun : deploy_all_devices dry_run w = (Return (abort_result w), w)).
  { unfold deploy_all_devices, abort_result. unfold mbind at 1, M_bind at 1, gets at 1.
    destruct (devices w) as [|d ds] eqn:Hd; [done|].
    rewrite (bind_run _ _ _ _ _ Hdr), (bind_run _ _ _ _ _ Hgate). simpl.
    unfold mbind, M_bind, gets, mret, M_ret. by rewrite Hd. }
  repeat (split; [done|]). by rewrite Hrun.
Qed.


(** ** One device *)


Lemma deploy_device_missing_ip i dry_run w :
  dry_run <> VNone ->
  truthy (dget (devices w !!! i) "ip" VNone) = false ->
  deploy_device i dry_run w
  = (Return (failed_result (label w i) "No IP address specified"
                           "Missing device IP address"), w).
Proof.
  intros Hdr Hip. unfold deploy_device, try_except, mbind, M_bind, read_device, gets.
  cbv zeta. replace (default_dry_run dry_run) with (mret dry_run : M value)
    by (by destruct dry_run).
  unfold mret, M_ret. by rewrite Hip.
Qed.



(** ** One iteration of the loop *)

Lemma deploy_step_skip dry_run i t w v :
  rollback_setting w = Return v -> truthy v = true -> 0 < t_failed t ->
  deploy_step dry_run i t w = (Return (record_skipped (label w i) t), w).
Proof.
  intros Hrb Hv Hf. unfold deploy_step, mbind, M_bind, read_device, gets.
  cbv zeta. rewrite inventory_setting_run. fold (rollback_setting w).
  rewrite Hrb, Hv. by replace (0 <? t_failed t) with true by lia.
Qed.

Lemma deploy_step_attempt dry_run i t w v :
  rollback_setting w = Return v -> truthy v && (0 <? t_failed t) = false ->
  exists r w', deploy_device i dry_run w = (Return r, w')
    /\ attempted r
    /\ deploy_step dry_run i t w = (Return (record_result (label w i) r t), w').
Proof.
  intros Hrb Hgate.
  destruct (deploy_device_total i dry_run w) as (r & w' & Hr).
  exists r, w'. split; [done|]. split; [by eapply deploy_device_attempted|].
  unfold deploy_step, mbind, M_bind, read_device, gets.
  cbv zeta. rewrite inventory_setting_run. fold (rollback_setting w).
  rewrite Hrb, Hgate, Hr. done.
Qed.

(** Each iteration adds one to exactly one of the three counters. *)
Lemma deploy_step_counts_once dry_run i t w t' w' :
  deploy_step dry_run i t w = (Return t', w') ->
  (t_successful t' = t_successful t + 1 /\ t_failed t' = t_failed t
     /\ t_skipped t' = t_skipped t)
  \/ (t_successful t' = t_successful t /\ t_failed t' = t_failed t + 1
     /\ t_skipped t' = t_skipped t)
  \/ (t_successful t' = t_successful t /\ t_failed t' = t_failed t
     /\ t_skipped t' = t_skipped t + 1).
Proof.
  unfold deploy_step, mbind, M_bind, read_device, gets. cbv zeta.
  rewrite inventory_setting_run. unfold lift.
  destruct (py_get _ _ _) as [v|e]; [|done].
  destruct (truthy v && (0 <? t_failed t)).
  - intros [= <- _]. right; right. done.
  - destruct (deploy_device i dry_run w) as [[r|e] w1]; [|done].
    intros [= <- _]. unfold record_result.
    destruct (status r); simpl; auto.
Qed.




(** ** The loop *)





Lemma deploy_loop_counted dry_run sequence t w t' w' :
  deploy_loop dry_run sequence t w = (Return t', w') ->
  counted t' = counted t + Z.of_nat (length sequence).
Proof.
  revert t w. induction sequence as [|i rest IH]; intros t w.
  - intros [= <- _]. simpl. lia.
  - cbn [deploy_loop]. intros Hrun.
    apply bind_Return in Hrun as (t1 & w1 & Hstep & Hrest).
    apply IH in Hrest. apply deploy_step_counts_once in Hstep.
    unfold counted in *. cbn [length]. lia.
Qed.



(** ** The whole run *)

Lemma default_dry_run_state dry_run w : (default_dry_run dry_run w).2 = w.
Proof. by apply (keeps_default_dry_run (fun w => w)). Qed.

Lemma validate_templates_state w valid w' :
  validate_templates w = (Return valid, w') -> w' = w.
Proof.
  intros Hv. pose proof (keeps_validate_templates (fun w => w) w) as Hk.
  by rewrite Hv in Hk.
Qed.

Lemma deploy_all_devices_run dry_run dr w sequence t w1 :
  devices w <> [] ->
  default_dry_run dry_run w = (Return dr, w) ->
  validate_templates w = (Return true, w) ->
  get_deployment_sequence w = (Return sequence, w) ->
  deploy_loop dr sequence (mkTally ∅ 0 0 0) w = (Return t, w1) ->
  deploy_all_devices dry_run w
  = (Return (run_result w1 t), store_deployment (run_result w1 t) w1).
Proof.
  intros Hne Hdr Hgate Hseq Hloop.
  unfold deploy_all_devices. unfold mbind at 1, M_bind at 1, gets at 1.
  destruct (devices w) as [|d ds] eqn:Hd; [done|].
  rewrite (bind_run _ _ _ _ _ Hdr), (bind_run _ _ _ _ _ Hgate). cbn [negb].
  rewrite (bind_run _ _ _ _ _ Hseq), (bind_run _ _ _ _ _ Hloop). done.
Qed.

Lemma deploy_all_devices_Return dry_run w r w' :
  deploy_all_devices dry_run w = (Return r, w') ->
  (devices w = [] /\ r = mkDeploymentResult 0 0 0 0 ∅ "No devices to deploy")
  \/ (devices w <> [] /\ r = abort_result w)
  \/ (exists dr sequence t w1,
        devices w <> []
        /\ get_deployment_sequence w = (Return sequence, w)
        /\ deploy_loop dr sequence (mkTally ∅ 0 0 0) w = (Return t, w1)
        /\ r = run_result w1 t).
Proof.
  unfold deploy_all_devices. unfold mbind at 1, M_bind at 1, gets at 1.
  destruct (devices w) as [|d ds] eqn:Hd.
  { intros [= <- _]. by left. }
  intros Hrun. right.
  apply bind_Return in Hrun as (dr & w0 & Hdr & Hrun).
  assert (w0 = w) as -> by (by rewrite <- (default_dry_run_state dry_run w), Hdr).
  apply bind_Return in Hrun as (valid & w0 & Hv & Hrun).
  apply validate_templates_state in Hv as ->. destruct valid.
  - right. cbn [negb] in Hrun.
    apply bind_Return in Hrun as (sq & w0 & Hsq & Hrun).
    assert (w0 = w) as -> by (by injection Hsq).
    apply bind_Return in Hrun as (t & w1 & Hloop & Hrun).
    exists dr, sq, t, w1. split; [done|]. split; [done|]. split; [done|].
    by injection Hrun as <- _.
  - left. cbn [negb] in Hrun. split; [done|].
    by injection Hrun as <- _.
Qed.



(** C7, as amended: a device without [ip] yields, for both values of the
    dry-run flag, the [Failed] result with message ["No IP address
    specified"], without any change of state; and when its turn comes in the
    loop while the skip gate is open ([rollback_on_failure] off, or no
    failure counted so far) it adds one to [failed] and nothing to
    [skipped]. *)
Theorem missing_ip_fails i b w :
  truthy (dget (devices w !!! i) "ip" VNone) = false ->
  deploy_device i (VBool b) w
  = (Return (mkDeviceResult (label w i) FAILED "No IP address specified" 0
                            (Some "Missing device IP address")), w)
  /\ (forall t v,
        rollback_setting w = Return v ->
        truthy v && (0 <? t_failed t) = false ->
        exists t',
          deploy_step (VBool b) i t w = (Return t', w)
          /\ t_failed t' = t_failed t + 1
          /\ t_skipped t' = t_skipped t
          /\ t_successful t' = t_successful t
          /\ t_results t' !! label w i
             = Some (mkDeviceResult (label w i) FAILED "No IP address specified" 0
                                    (Some "Missing device IP address"))).
Proof.
  intros Hip.
  assert (Hdev := deploy_device_missing_ip i (VBool b) w ltac:(done) Hip).
  split; [exact Hdev|].
  intros t v Hrb Hgate.
  destruct (deploy_step_attempt (VBool b) i t w v Hrb Hgate) as (r & w' & Hr & _ & Hstep).
  rewrite Hdev in Hr. injection Hr as <- <-.
  eexists. split; [exact Hstep|].
  cbn. repeat (split; [done|]). apply lookup_insert_eq.
Qed.

(** C10: in every result returned by [deploy_all_devices], for an empty
    inventory, after a failed gate or after the loop, [total_devices] is the
    sum of [successful], [failed] and [skipped]; and every iteration of the
    loop adds one to exactly one of the three counters. *)
Theorem counters_partition_devices dry_run w r w' :
  deploy_all_devices dry_run w = (Return r, w') ->
  total_devices r = successful r + failed r + skipped r
  /\ (forall dr i t w0 t' w0',
        deploy_step dr i t w0 = (Return t', w0') ->
        (t_successful t' = t_successful t + 1 /\ t_failed t' = t_failed t
           /\ t_skipped t' = t_skipped t)
        \/ (t_successful t' = t_successful t /\ t_failed t' = t_failed t + 1
           /\ t_skipped t' = t_skipped t)
        \/ (t_successful t' = t_successful t /\ t_failed t' = t_failed t
           /\ t_skipped t' = t_skipped t + 1)).
Proof.
  intros Hrun. split; [|intros dr i t w0 t' w0'; apply deploy_step_counts_once].
  apply deploy_all_devices_Return in Hrun
    as [[_ ->]|[[_ ->]|(dr & sq & t & w1 & _ & Hsq & Hloop & ->)]].
  - done.
  - simpl. lia.
  - cbn [total_devices successful failed skipped run_result].
    pose proof (deploy_loop_counted _ _ _ _ _ _ Hloop) as Hc.
    assert (Hlen : length (devices w1) = length (devices w)).
    { pose proof (keeps_deploy_loop (fun w => length (devices w))) as Hk.
      specialize (Hk ltac:(intros; simpl; apply length_insert) ltac:(done) ltac:(done)
                     dr sq (mkTally ∅ 0 0 0) w).
      by rewrite Hloop in Hk. }
    injection Hsq as Hsq. apply py_sorted_length in Hsq. rewrite length_seq in Hsq.
    unfold counted in Hc. simpl in Hc. lia.
Qed.


(** ** The deployment sequence *)

Lemma filter_fmap_comm {A B} (f : A -> B) (P : B -> Prop) `{!forall y, Decision (P y)}
      (l : list A) :
  filter P (f <$> l) = f <$> filter (fun x => P (f x)) l.
Proof.
  induction l as [|x l IH]; [done|].
  rewrite fmap_cons, !filter_cons, IH. by case_decide.
Qed.

Lemma objects_of_all_references (l : list dict) :
  (fun i => l !!! i) <$> seq 0 (length l) = l.
Proof.
  apply list_eq. intros i. rewrite list_lookup_fmap.
  destruct (decide (i < length l)%nat) as [Hi|Hi].
  - rewrite lookup_seq_lt by done. simpl.
    symmetry. by apply list_lookup_lookup_total_lt.
  - rewrite lookup_seq_ge by lia. simpl. symmetry. apply lookup_ge_None. lia.
Qed.

Lemma deployment_order_named name (d : dict) :
  deployment_order (<["name" := VStr name]> d) = deployment_order d.
Proof. unfold deployment_order, dget. by rewrite lookup_insert_ne. Qed.

Lemma declared_int_order (entries : list (string * dict)) :
  Forall (fun e => int_order e.2) entries -> Forall int_order (declared entries).
Proof.
  intros He. unfold declared. apply Forall_fmap. eapply Forall_impl; [exact He|].
  intros [n d] Hd. unfold int_order in *. simpl in *.
  by rewrite deployment_order_named.
Qed.

Lemma load_inventory_sorted (entries : list (string * dict)) top w sorted :
  py_sorted deployment_order (declared entries) = Return sorted ->
  exists w1,
    load_inventory (Some {| yaml_devices := Some entries; yaml_top := top |}) w
    = (Return true, w1)
    /\ devices w1 = sorted.
Proof.
  intros Hs. unfold load_inventory. cbn [yaml_devices yaml_top].
  fold (declared entries). rewrite Hs.
  eexists. split; [reflexivity|done].
Qed.

Lemma get_deployment_sequence_sorted w :
  Forall int_order (devices w) ->
  exists sequence,
    get_deployment_sequence w = (Return sequence, w)
    /\ Permutation (objects w sequence) (devices w)
    /\ StronglySorted (fun a b => order_of a <= order_of b) (objects w sequence)
    /\ forall k, filter (fun d => order_of d = k) (objects w sequence)
                 = filter (fun d => order_of d = k) (devices w).
Proof.
  intros Hint. unfold get_deployment_sequence.
  set (key := fun i => deployment_order (devices w !!! i)).
  destruct (py_sorted_int key (seq 0 (length (devices w))))
    as (sq & Hsq & Hperm & Hsorted & Hstable).
  { apply Forall_forall. intros i Hi%elem_of_seq.
    rewrite Forall_forall in Hint. apply Hint.
    apply list_elem_of_lookup. exists i. apply list_lookup_lookup_total_lt. lia. }
  exists sq. rewrite Hsq. split; [done|]. unfold objects. split; [|split].
  - etrans; [apply fmap_Permutation, Hperm|].
    by rewrite objects_of_all_references.
  - eapply StronglySorted_fmap; [|exact Hsorted]. by intros i j.
  - intros k.
    pose proof (objects_of_all_references (devices w)) as Hobj.
    set (f := fun i : nat => devices w !!! i) in *.
    rewrite <- Hobj at 1. rewrite !filter_fmap_comm. f_equal. apply Hstable.
Qed.

(** The example of the design document, for any three devices declared with
    the orders 3, 1 and 2. *)
Lemma three_devices_sequence (n3 n1 n2 : string) (d3 d1 d2 : dict) top w :
  deployment_order d3 = VInt 3 ->
  deployment_order d1 = VInt 1 ->
  deployment_order d2 = VInt 2 ->
  exists w1,
    load_inventory
      (Some {| yaml_devices := Some [(n3, d3); (n1, d1); (n2, d2)]; yaml_top := top |}) w
    = (Return true, w1)
    /\ get_deployment_sequence w1 = (Return [0; 1; 2]%nat, w1)
    /\ objects w1 [0; 1; 2]%nat
       = [<["name" := VStr n1]> d1; <["name" := VStr n2]> d2; <["name" := VStr n3]> d3].
Proof.
  intros Ho3 Ho1 Ho2.
  destruct (load_inventory_sorted [(n3, d3); (n1, d1); (n2, d2)] top w
              [<["name" := VStr n1]> d1; <["name" := VStr n2]> d2;
               <["name" := VStr n3]> d3]) as (w1 & Hload & Hdev).
  { unfold py_sorted, declared. cbn [length fmap list_fmap Nat.leb fst snd mapM].
    rewrite !deployment_order_named, Ho3, Ho1, Ho2. reflexivity. }
  exists w1. split; [done|]. unfold get_deployment_sequence, objects. rewrite Hdev.
  split; [|done].
  unfold py_sorted.
  cbn [length seq Nat.leb mapM lookup_total list_lookup_total].
  rewrite !deployment_order_named, Ho3, Ho1, Ho2. reflexivity.
Qed.

(** C6: after [load_inventory], the deployment sequence lists the declared
    devices sorted in ascending [deployment_order] (999 when the entry has
    none), and the devices that share one order stay in their order of
    declaration; devices declared with the orders 3, 1, 2 are sequenced as
    1, 2, 3. *)
Theorem deployment_sequence_stable_sorted (entries : list (string * dict)) top w :
  Forall (fun e => int_order e.2) entries ->
  (exists w1 sequence,
     load_inventory (Some {| yaml_devices := Some entries; yaml_top := top |}) w
     = (Return true, w1)
     /\ get_deployment_sequence w1 = (Return sequence, w1)
     /\ Permutation (objects w1 sequence) (declared entries)
     /\ StronglySorted (fun a b => order_of a <= order_of b) (objects w1 sequence)
     /\ (forall k, filter (fun d => order_of d = k) (objects w1 sequence)
                   = filter (fun d => order_of d = k) (declared entries)))
  /\ (forall (n3 n1 n2 : string) (d3 d1 d2 : dict),
        deployment_order d3 = VInt 3 ->
        deployment_order d1 = VInt 1 ->
        deployment_order d2 = VInt 2 ->
        exists w1,
          load_inventory
            (Some {| yaml_devices := Some [(n3, d3); (n1, d1); (n2, d2)];
                     yaml_top := top |}) w
          = (Return true, w1)
          /\ get_deployment_sequence w1 = (Return [0; 1; 2]%nat, w1)
          /\ objects w1 [0; 1; 2]%nat
             = [<["name" := VStr n1]> d1; <["name" := VStr n2]> d2;
                <["name" := VStr n3]> d3]).
Proof.
  intros Hint. split; [|intros; by apply three_devices_sequence].
  apply declared_int_order in Hint.
  destruct (py_sorted_int deployment_order (declared entries) Hint)
    as (sorted & Hs & Hperm & _ & Hstable).
  destruct (load_inventory_sorted entries top w sorted Hs) as (w1 & Hload & Hdev).
  destruct (get_deployment_sequence_sorted w1) as (sq & Hsq & Hp & Hsorted & Hst).
  { rewrite Hdev. by rewrite Hperm. }
  exists w1, sq. repeat (split; [done|]). rewrite Hdev in *. split; [|split].
  - by rewrite Hp.
  - done.
  - intros k. rewrite Hst. apply Hstable.
Qed.


(** ** What a run writes into the device objects *)

(** Of a device object, a run changes at most the entries [template_name]
    and [device_type]. *)
Lemma device_entries_kept dry_run w (j : nat) (key : string) :
  key <> "template_name" -> key <> "device_type" ->
  (devices (deploy_all_devices dry_run w).2 !!! j) !! key = (devices w !!! j) !! key.
Proof.
  intros Hk1 Hk2.
  apply (keeps_deploy_all_devices (fun w => (devices w !!! j) !! key)); try done.
  intros i k v w0 Hk. cbn [devices set_devices].
  destruct (decide (i < length (devices w0))%nat) as [Hi|Hi].
  - destruct (decide (i = j)) as [->|Hij].
    + rewrite list_lookup_total_insert_eq by done.
      rewrite lookup_insert_ne; [done|]. by destruct Hk as [->| ->].
    + by rewrite list_lookup_total_insert_ne.
  - rewrite list_insert_ge by lia. done.
Qed.

(** ** The run returns *)

Lemma deploy_step_returns dry_run i t w v :
  rollback_setting w = Return v ->
  exists t' w', deploy_step dry_run i t w = (Return t', w')
                /\ rollback_setting w' = Return v.
Proof.
  intros Hrb.
  assert (Hinv : forall o w', deploy_step dry_run i t w = (o, w') ->
                              rollback_setting w' = Return v).
  { intros o w' Hstep.
    pose proof (keeps_deploy_step inventory ltac:(done) ltac:(done) ltac:(done)
                  dry_run i t w) as Hk.
    rewrite Hstep in Hk. unfold rollback_setting in *. simpl in Hk. by rewrite Hk. }
  destruct (truthy v && (0 <? t_failed t)) eqn:Hgate.
  - apply andb_true_iff in Hgate as [Hv Hf].
    eexists _, _. split; [|eapply Hinv]; eapply deploy_step_skip; eauto; lia.
  - destruct (deploy_step_attempt dry_run i t w v Hrb Hgate) as (r & w' & _ & _ & Hstep).
    eexists _, _. split; [exact Hstep | by eapply Hinv].
Qed.

Lemma deploy_loop_returns dry_run sequence t w v :
  rollback_setting w = Return v ->
  exists t' w', deploy_loop dry_run sequence t w = (Return t', w').
Proof.
  revert t w. induction sequence as [|i rest IH]; intros t w Hrb.
  - by eexists _, _.
  - destruct (deploy_step_returns dry_run i t w v Hrb) as (t1 & w1 & Hstep & Hrb1).
    destruct (IH t1 w1 Hrb1) as (t' & w' & Hrest).
    exists t', w'. cbn [deploy_loop]. by rewrite (bind_run _ _ _ _ _ Hstep).
Qed.

(** On an inventory whose settings can be read and whose deployment orders
    are integers, [deploy_all_devices] returns a result. *)
Lemma deploy_all_devices_returns dry_run dr v w :
  default_dry_run dry_run w = (Return dr, w) ->
  rollback_setting w = Return v ->
  Forall int_order (devices w) ->
  exists r w', deploy_all_devices dry_run w = (Return r, w').
Proof.
  intros Hdr Hrb Hint.
  destruct (devices w) as [|d ds] eqn:Hd.
  { eexists _, _. unfold deploy_all_devices, mbind, M_bind, gets.
    rewrite Hd. reflexivity. }
  assert (Hne : devices w <> []) by (by rewrite Hd).
  rewrite <- Hd in Hint.
  destruct (bool_decide (used_templates (devices w) = ∅)
            || all_discovered_valid (template_dir w)) eqn:Hgate.
  - destruct (get_deployment_sequence_sorted w Hint) as (sq & Hsq & _).
    destruct (deploy_loop_returns dr sq (mkTally ∅ 0 0 0) w v Hrb) as (t & w1 & Hloop).
    eexists _, _. eapply deploy_all_devices_run; eauto.
    by rewrite validate_templates_run, Hgate.
  - eexists _, _. unfold deploy_all_devices. unfold mbind at 1, M_bind at 1, gets at 1.
    rewrite Hd. rewrite (bind_run _ _ _ _ _ Hdr).
    erewrite bind_run; [|by rewrite validate_templates_run, Hgate]. reflexivity.
Qed.

End OrchestratorFacts.


(** * Further properties

    ** The order of strings *)

Lemma string_ltb_lt (a b : string) :
  String.ltb a b = true <-> OrderedTypeEx.String_as_OT.lt a b.
Proof.
  unfold String.ltb. rewrite <- OrderedTypeEx.String_as_OT.cmp_lt.
  unfold OrderedTypeEx.String_as_OT.cmp. by destruct (String.compare a b).
Qed.

Lemma string_ltb_irrefl (a : string) : String.ltb a a = false.
Proof.
  apply not_true_iff_false. intros Hlt%string_ltb_lt.
  by apply OrderedTypeEx.String_as_OT.lt_not_eq in Hlt.
Qed.

Lemma string_ltb_trans (a b c : string) :
  String.ltb a b = true -> String.ltb b c = true -> String.ltb a c = true.
Proof.
  rewrite !string_ltb_lt. apply OrderedTypeEx.String_as_OT.lt_trans.
Qed.

Lemma string_ltb_asym (a b : string) :
  String.ltb a b = true -> String.ltb b a = false.
Proof.
  intros Hab. apply not_true_iff_false. intros Hba.
  pose proof (string_ltb_trans _ _ _ Hab Hba) as Haa.
  by rewrite string_ltb_irrefl in Haa.
Qed.

Lemma string_ltb_total (a b : string) :
  String.ltb a b = true \/ a = b \/ String.ltb b a = true.
Proof.
  destruct (String.compare a b) eqn:E.
  - right; left. by apply String.compare_eq_iff.
  - left. unfold String.ltb. by rewrite E.
  - right; right. unfold String.ltb.
    rewrite String.compare_antisym, E. done.
Qed.

Lemma string_le_trans (a b c : string) :
  String.ltb b a = false -> String.ltb c b = false -> String.ltb c a = false.
Proof.
  intros Hab Hbc. apply not_true_iff_false. intros Hca.
  destruct (string_ltb_total a b) as [Hlt|[->|Hgt]].
  - rewrite (string_ltb_trans _ _ _ Hca Hlt) in Hbc. done.
  - congruence.
  - congruence.
Qed.


(** * Further properties of the orchestrator and of the template engine *)

Section MoreFacts.
Context `{PyRuntime} `{Jinja} `{Transport}.

(** ** Dry runs *)

Section KeepsDry.
Context {X : Type} (p : world -> X).
Hypothesis p_update : forall i k v w,
  k = "template_name" \/ k = "device_type" ->
  p (set_devices (<[i := <[k := v]> (devices w !!! i)]> (devices w)) w) = p w.
Hypothesis p_cache : forall v w, p (set_template_cache v w) = p w.

Lemma keeps_deploy_step_dry i t : keeps p (deploy_step (VBool true) i t).
Proof.
  unfold deploy_step. cbv zeta.
  apply keeps_bind; [apply keeps_read_device|]. intros device_config.
  apply keeps_bind; [apply keeps_inventory_setting|]. intros rb.
  destruct (_ && _); [apply keeps_ret|].
  apply keeps_bind; [by apply keeps_deploy_device_dry|]. intros r. apply keeps_ret.
Qed.

Lemma keeps_deploy_loop_dry sequence t : keeps p (deploy_loop (VBool true) sequence t).
Proof.
  revert t. induction sequence as [|i rest IH]; intros t; simpl.
  - apply keeps_ret.
  - apply keeps_bind; [apply keeps_deploy_step_dry | apply IH].
Qed.

Hypothesis p_store : forall r w, p (store_deployment r w) = p w.

Lemma keeps_deploy_all_devices_dry : keeps p (deploy_all_devices (VBool true)).
Proof.
  unfold deploy_all_devices. apply keeps_bind; [apply keeps_gets|].
  intros [|d ds]; [apply keeps_ret|].
  apply keeps_bind_ret.
  apply keeps_bind; [apply keeps_validate_templates|].
  intros [|]; simpl.
  - apply keeps_bind; [apply keeps_get_deployment_sequence|]. intros sq.
    apply keeps_bind; [apply keeps_deploy_loop_dry|]. intros t.
    apply keeps_bind; [apply keeps_gets|]. intros n.
    apply keeps_bind; [by apply keeps_modify | intros ?; apply keeps_ret].
  - apply keeps_bind; [apply keeps_gets | intros ?; apply keeps_ret].
Qed.
End KeepsDry.

(** X1: a whole run in dry-run mode, and so [deploy()] and
    [orchestrate_deployment()] called without argument, never reaches the
    transport collaborator: no call is made and its state is unchanged,
    whatever the inventory (also when [dry_run_default] is off) and however
    the run ends. *)
Theorem dry_run_never_contacts_transport w :
  (calls (deploy_all_devices (VBool true) w).2 = calls w
   /\ dm (deploy_all_devices (VBool true) w).2 = dm w)
  /\ (calls (deploy None w).2 = calls w /\ dm (deploy None w).2 = dm w)
  /\ (calls (orchestrate_deployment None w).2 = calls w
      /\ dm (orchestrate_deployment None w).2 = dm w).
Proof.
  assert (Hc : calls (deploy_all_devices (VBool true) w).2 = calls w)
    by (by apply (keeps_deploy_all_devices_dry calls)).
  assert (Hd : dm (deploy_all_devices (VBool true) w).2 = dm w)
    by (by apply (keeps_deploy_all_devices_dry dm)).
  done.
Qed.

(** ** The history of runs *)

Lemma deploy_all_devices_body dry_run w d ds :
  devices w = d :: ds ->
  deploy_all_devices dry_run w
  = match default_dry_run dry_run w with
    | (Raise e, w0) => (Raise e, w0)
    | (Return dr, w0) =>
      match validate_templates w0 with
      | (Raise e, w1) => (Raise e, w1)
      | (Return false, w1) => (Return (abort_result w1), w1)
      | (Return true, w1) =>
        match get_deployment_sequence w1 with
        | (Raise e, w2) => (Raise e, w2)
        | (Return sq, w2) =>
          match deploy_loop dr sq (mkTally ∅ 0 0 0) w2 with
          | (Raise e, w3) => (Raise e, w3)
          | (Return t, w3) =>
            (Return (run_result w3 t), store_deployment (run_result w3 t) w3)
          end
        end
      end
    end.
Proof.
  intros Hd. unfold deploy_all_devices.
  unfold mbind at 1, M_bind at 1, gets at 1. rewrite Hd.
  unfold mbind at 1, M_bind at 1.
  destruct (default_dry_run dry_run w) as [[dr|e] w0]; [|done].
  unfold mbind at 1, M_bind at 1.
  destruct (validate_templates w0) as [[[|]|e] w1]; [| |done]; cbn [negb].
  - unfold mbind at 1, M_bind at 1.
    destruct (get_deployment_sequence w1) as [[sq|e] w2]; [|done].
    unfold mbind at 1, M_bind at 1.
    by destruct (deploy_loop dr sq (mkTally ∅ 0 0 0) w2) as [[t|e] w3].
  - done.
Qed.


(** A returned result is the empty one, or the abort result of a failed
    gate, or the result of the completed loop. *)
Lemma deploy_all_devices_completed dry_run w r w' :
  devices w <> [] ->
  validate_templates w = (Return true, w) ->
  deploy_all_devices dry_run w = (Return r, w') ->
  exists dr sequence t w1,
    get_deployment_sequence w = (Return sequence, w)
    /\ deploy_loop dr sequence (mkTally ∅ 0 0 0) w = (Return t, w1)
    /\ r = run_result w1 t
    /\ w' = store_deployment r w1.
Proof.
  intros Hne Hgate. destruct (devices w) as [|d ds] eqn:Hd; [done|].
  rewrite (deploy_all_devices_body dry_run w d ds Hd).
  pose proof (default_dry_run_state dry_run w) as Hs.
  destruct (default_dry_run dry_run w) as [[dr|e] w0]; simpl in Hs; subst w0; [|done].
  rewrite Hgate.
  destruct (get_deployment_sequence w) as [[sq|e] w0] eqn:Hsq; [|done].
  assert (w0 = w) as -> by (by injection Hsq).
  destruct (deploy_loop dr sq (mkTally ∅ 0 0 0) w) as [[t|e] w1] eqn:Hloop; [|done].
  intros [= <- <-]. by exists dr, sq, t, w1.
Qed.

Lemma run_length dry_run sequence t w t' w' :
  get_deployment_sequence w = (Return sequence, w) ->
  deploy_loop dry_run sequence t w = (Return t', w') ->
  length sequence = length (devices w) /\ length (devices w') = length (devices w).
Proof.
  intros Hsq Hloop. split.
  - injection Hsq as Hsq. apply py_sorted_length in Hsq. by rewrite length_seq in Hsq.
  - pose proof (keeps_deploy_loop (fun w => length (devices w))
                  ltac:(intros; simpl; apply length_insert) ltac:(done) ltac:(done)
                  dry_run sequence t w) as Hk.
    by rewrite Hloop in Hk.
Qed.


(** ** The skip gate and the counters *)

Lemma deploy_step_rollback_on dry_run i t w v t' w' :
  rollback_setting w = Return v -> truthy v = true ->
  deploy_step dry_run i t w = (Return t', w') ->
  0 <= t_failed t <= 1 ->
  0 <= t_failed t' <= 1 /\ rollback_setting w' = Return v.
Proof.
  intros Hrb Hv Hstep Hf.
  destruct (deploy_step_returns dry_run i t w v Hrb) as (t2 & w2 & Hstep2 & Hrb2).
  rewrite Hstep in Hstep2. injection Hstep2 as <- <-. split; [|done].
  destruct (decide (0 < t_failed t)) as [Hpos|Hzero].
  - rewrite (deploy_step_skip dry_run i t w v Hrb Hv Hpos) in Hstep.
    injection Hstep as <- _. simpl. lia.
  - apply deploy_step_counts_once in Hstep. lia.
Qed.

Lemma deploy_loop_rollback_on dry_run sequence t w v t' w' :
  rollback_setting w = Return v -> truthy v = true ->
  deploy_loop dry_run sequence t w = (Return t', w') ->
  0 <= t_failed t <= 1 -> 0 <= t_failed t' <= 1.
Proof.
  intros Hrb Hv. revert t w Hrb.
  induction sequence as [|i rest IH]; intros t w Hrb.
  - by intros [= <- _].
  - cbn [deploy_loop]. intros Hrun Hf.
    apply bind_Return in Hrun as (t1 & w1 & Hstep & Hrest).
    destruct (deploy_step_rollback_on _ _ _ _ _ _ _ Hrb Hv Hstep Hf) as [Hf1 Hrb1].
    by eapply IH.
Qed.

Lemma deploy_step_rollback_off dry_run i t w v t' w' :
  rollback_setting w = Return v -> truthy v = false ->
  deploy_step dry_run i t w = (Return t', w') ->
  t_skipped t' = t_skipped t /\ rollback_setting w' = Return v.
Proof.
  intros Hrb Hv Hstep.
  destruct (deploy_step_returns dry_run i t w v Hrb) as (t2 & w2 & Hstep2 & Hrb2).
  rewrite Hstep in Hstep2. injection Hstep2 as <- <-. split; [|done].
  destruct (deploy_step_attempt dry_run i t w v Hrb) as (r & w2 & _ & _ & Hstep2).
  { by rewrite Hv. }
  rewrite Hstep in Hstep2. injection Hstep2 as -> _.
  unfold record_result. by destruct (status r).
Qed.

Lemma deploy_loop_rollback_off dry_run sequence t w v t' w' :
  rollback_setting w = Return v -> truthy v = false ->
  deploy_loop dry_run sequence t w = (Return t', w') ->
  t_skipped t' = t_skipped t.
Proof.
  intros Hrb Hv. revert t w Hrb.
  induction sequence as [|i rest IH]; intros t w Hrb.
  - by intros [= <- _].
  - cbn [deploy_loop]. intros Hrun.
    apply bind_Return in Hrun as (t1 & w1 & Hstep & Hrest).
    destruct (deploy_step_rollback_off _ _ _ _ _ _ _ Hrb Hv Hstep) as [Hk1 Hrb1].
    rewrite <- Hk1. by eapply IH.
Qed.

(** X3: with [rollback_on_failure] on, a run that passes the gate stops
    deploying at the first failure: its result never counts more than one
    failed device, and every device is successful, the one failed device, or
    skipped. *)
Theorem rollback_on_at_most_one_failure dry_run w v r w' :
  rollback_setting w = Return v -> truthy v = true ->
  validate_templates w = (Return true, w) ->
  deploy_all_devices dry_run w = (Return r, w') ->
  0 <= failed r <= 1
  /\ skipped r = total_devices r - successful r - failed r.
Proof.
  intros Hrb Hv Hgate Hrun.
  destruct (decide (devices w = [])) as [Hd|Hne].
  { revert Hrun. unfold deploy_all_devices, mbind, M_bind, gets. rewrite Hd.
    intros [= <- _]. simpl. lia. }
  destruct (deploy_all_devices_completed _ _ _ _ Hne Hgate Hrun)
    as (dr & sq & t & w1 & Hsq & Hloop & -> & _).
  destruct (run_length _ _ _ _ _ _ Hsq Hloop) as [Hlen1 Hlen2].
  pose proof (deploy_loop_counted _ _ _ _ _ _ Hloop) as Hc.
  pose proof (deploy_loop_rollback_on _ _ _ _ _ _ _ Hrb Hv Hloop) as Hf.
  unfold counted in Hc. simpl in *. lia.
Qed.

(** X4: with [rollback_on_failure] off, no device is ever skipped: every
    result a run returns has [skipped = 0]. *)
Theorem rollback_off_never_skips dry_run w v r w' :
  rollback_setting w = Return v -> truthy v = false ->
  deploy_all_devices dry_run w = (Return r, w') ->
  skipped r = 0.
Proof.
  intros Hrb Hv Hrun.
  destruct (deploy_all_devices_Return _ _ _ _ Hrun)
    as [[_ ->]|[[_ ->]|(dr & sq & t & w1 & _ & Hsq & Hloop & ->)]]; [done|done|].
  simpl. by rewrite (deploy_loop_rollback_off _ _ _ _ _ _ _ Hrb Hv Hloop).
Qed.

(** ** The result map *)

Lemma py_sorted_perm {A} (key : A -> value) (l s : list A) :
  py_sorted key l = Return s -> Permutation s l.
Proof.
  unfold py_sorted. destruct (length l <=? 1)%nat; [by intros [= ->]|].
  destruct (mapM (fun x => as_int (key x)) l) as [ks|] eqn:E.
  - intros [= <-]. apply mapM_Some, Forall2_length in E.
    etrans; [apply fmap_Permutation, stable_sort_perm|].
    rewrite snd_zip by lia. done.
  - destruct (mapM (fun x => as_str (key x)) l) as [ks|] eqn:E'; [|done].
    intros [= <-]. apply mapM_Some, Forall2_length in E'.
    etrans; [apply fmap_Permutation, stable_sort_perm|].
    rewrite snd_zip by lia. done.
Qed.

Ltac yields_step :=
  lazymatch goal with
  | |- yields _ (mret _) => apply yields_ret
  | |- yields _ (_ ≫= _) => apply yields_bind; intros ?
  | |- yields _ (if ?b then _ else _) => destruct b
  | |- yields _ (match ?x with _ => _ end) => destruct x
  end.

Lemma deploy_device_name i dry_run w r w' :
  deploy_device i dry_run w = (Return r, w') -> device_name r = label w i.
Proof.
  unfold deploy_device. intros Hrun.
  apply bind_Return in Hrun as (cfg & w0 & Hread & Hrun).
  injection Hread as <- <-. revert Hrun. cbv zeta.
  apply (yields_try (fun r => device_name r = label w i)).
  - repeat yields_step; done.
  - intros e. by apply yields_ret.
Qed.

Lemma deploy_step_entries_ok dry_run i t w t' w' :
  deploy_step dry_run i t w = (Return t', w') ->
  entries_ok (t_results t) -> entries_ok (t_results t').
Proof.
  unfold deploy_step, mbind, M_bind, read_device, gets. cbv zeta.
  rewrite inventory_setting_run. unfold lift.
  destruct (py_get _ _ _) as [v|e]; [|done].
  destruct (truthy v && (0 <? t_failed t)).
  - intros [= <- _] Hok n r. simpl.
    destruct (decide (name_of (devices w !!! i) = n)) as [<-|Hne].
    + rewrite lookup_insert_eq. intros [= <-]. split; [done|]. right; right. done.
    + rewrite lookup_insert_ne by done. apply Hok.
  - destruct (deploy_device i dry_run w) as [[r|e] w1] eqn:Hdev; [|done].
    intros [= <- _] Hok n r0.
    pose proof (deploy_device_name _ _ _ _ _ Hdev) as Hname.
    pose proof (deploy_device_attempted _ _ _ _ _ Hdev) as Hatt.
    assert (Hres : t_results (record_result (name_of (devices w !!! i)) r t)
                   = <[name_of (devices w !!! i) := r]> (t_results t)).
    { unfold record_result. by destruct (status r). }
    rewrite Hres.
    destruct (decide (name_of (devices w !!! i) = n)) as [<-|Hne].
    + rewrite lookup_insert_eq. intros [= <-]. split; [done|].
      destruct Hatt as [Hs|Hf]; [by left | by right; left].
    + rewrite lookup_insert_ne by done. apply Hok.
Qed.

Lemma deploy_loop_entries_ok dry_run sequence t w t' w' :
  deploy_loop dry_run sequence t w = (Return t', w') ->
  entries_ok (t_results t) -> entries_ok (t_results t').
Proof.
  revert t w. induction sequence as [|i rest IH]; intros t w.
  - by intros [= <- _].
  - cbn [deploy_loop]. intros Hrun Hok.
    apply bind_Return in Hrun as (t1 & w1 & Hstep & Hrest).
    eapply IH; [exact Hrest|]. by eapply deploy_step_entries_ok.
Qed.

Lemma label_update i k v w (j : nat) :
  k = "template_name" \/ k = "device_type" ->
  label (set_devices (<[i := <[k := v]> (devices w !!! i)]> (devices w)) w) j
  = label w j.
Proof.
  intros Hk. unfold label, name_of, dget. cbn [devices set_devices]. do 2 f_equal.
  destruct (decide (i < length (devices w))%nat) as [Hi|Hi].
  - destruct (decide (i = j)) as [->|Hij].
    + rewrite list_lookup_total_insert_eq by done.
      rewrite lookup_insert_ne; [done|]. by destruct Hk as [->| ->].
    + by rewrite list_lookup_total_insert_ne.
  - rewrite list_insert_ge by lia. done.
Qed.

Lemma deploy_step_records dry_run i t w t' w' :
  deploy_step dry_run i t w = (Return t', w') ->
  is_Some (t_results t' !! label w i)
  /\ (forall n, is_Some (t_results t !! n) -> is_Some (t_results t' !! n))
  /\ (forall j, label w' j = label w j).
Proof.
  intros Hstep.
  assert (Hlabel : forall j, label w' j = label w j).
  { intros j.
    pose proof (keeps_deploy_step (fun w => label w j)
                  ltac:(intros; by apply label_update) ltac:(done) ltac:(done)
                  dry_run i t w) as Hk.
    by rewrite Hstep in Hk. }
  assert (Hres : exists r, t_results t' = <[label w i := r]> (t_results t)).
  { revert Hstep. unfold deploy_step, mbind, M_bind, read_device, gets. cbv zeta.
    rewrite inventory_setting_run. unfold lift.
    destruct (py_get _ _ _) as [v|e]; [|done].
    destruct (truthy v && (0 <? t_failed t)).
    - intros [= <- _]. by eexists.
    - destruct (deploy_device i dry_run w) as [[r|e] w1]; [|done].
      intros [= <- _]. exists r. unfold record_result. by destruct (status r). }
  destruct Hres as (r & ->). split; [|split; [|done]].
  - rewrite lookup_insert_eq. by eexists.
  - intros n Hn. destruct (decide (label w i = n)) as [<-|Hne].
    + rewrite lookup_insert_eq. by eexists.
    + by rewrite lookup_insert_ne.
Qed.

Lemma deploy_loop_records dry_run sequence t w t' w' :
  deploy_loop dry_run sequence t w = (Return t', w') ->
  (forall j, j ∈ sequence -> is_Some (t_results t' !! label w j))
  /\ (forall n, is_Some (t_results t !! n) -> is_Some (t_results t' !! n)).
Proof.
  revert t w. induction sequence as [|i rest IH]; intros t w.
  - intros [= <- _]. split; [|done]. intros j Hj. by apply elem_of_nil in Hj.
  - cbn [deploy_loop]. intros Hrun.
    apply bind_Return in Hrun as (t1 & w1 & Hstep & Hrest).
    destruct (deploy_step_records _ _ _ _ _ _ Hstep) as (Hi & Hmono & Hlabel).
    destruct (IH _ _ Hrest) as (Hrest1 & Hmono1). split.
    + intros j [->|Hj]%elem_of_cons.
      * by apply Hmono1.
      * rewrite <- Hlabel. by apply Hrest1.
    + intros n Hn. by apply Hmono1, Hmono.
Qed.

(** X5: the result map of every returned result is well formed: each entry
    is filed under the name it carries and is [Success] or [Skipped] without
    an error, or [Failed] with an error (no entry is ever [Pending],
    [InProgress] or [RolledBack]); and when the run has passed the gate, every
    device of the inventory has an entry under its name. *)
Theorem result_map_complete dry_run w r w' :
  deploy_all_devices dry_run w = (Return r, w') ->
  entries_ok (results r)
  /\ (devices w <> [] ->
      validate_templates w = (Return true, w) ->
      forall j, (j < length (devices w))%nat -> is_Some (results r !! label w j)).
Proof.
  intros Hrun. split.
  - destruct (deploy_all_devices_Return _ _ _ _ Hrun)
      as [[_ ->]|[[_ ->]|(dr & sq & t & w1 & _ & Hsq & Hloop & ->)]].
    + intros n r0 Hn. simpl in Hn. by rewrite lookup_empty in Hn.
    + intros n r0 Hn. simpl in Hn. by rewrite lookup_empty in Hn.
    + simpl. eapply deploy_loop_entries_ok; [exact Hloop|].
      intros n r0 Hn. simpl in Hn. by rewrite lookup_empty in Hn.
  - intros Hne Hgate j Hj.
    destruct (deploy_all_devices_completed _ _ _ _ Hne Hgate Hrun)
      as (dr & sq & t & w1 & Hsq & Hloop & -> & _).
    simpl. apply (proj1 (deploy_loop_records _ _ _ _ _ _ Hloop)).
    injection Hsq as Hsq. apply py_sorted_perm in Hsq.
    rewrite Hsq. apply elem_of_seq. lia.
Qed.

(** ** Production mode *)

Lemma deploy_device_production_start i w c :
  deployable (devices w !!! i) c ->
  deploy_device i (VBool false) w
  = try_except
      (connected ← connect (label w i) (dget (devices w !!! i) "ip" VNone)
                           (connection_params (devices w !!! i) c);
       if negb connected then
         mret (failed_result (label w i) "Failed to connect to device"
                             "SSH connection failed")
       else
         config ← generate_config (dget (devices w !!! i) "role" (VStr "unknown")) i;
         match config with
         | None | Some EmptyString =>
           mret (failed_result (label w i) "Failed to generate configuration"
                               "Template rendering failed")
         | Some config =>
           deployment_success ←
             (ok ← deploy_config (label w i) config false;
              disconnect (label w i);;
              mret ok);
           if deployment_success : bool then
             mret (mkDeviceResult (label w i) SUCCESS
                     ("Successfully deployed " +:+ pretty (config_line_count config)
                        +:+ " configuration lines")
                     (config_line_count config) None)
           else
             mret (mkDeviceResult (label w i) FAILED
                     "Configuration deployment failed" (config_line_count config)
                     (Some "Deployment execution failed"))
         end)
      (fun e =>
         mret (mkDeviceResult (label w i) FAILED "Deployment failed with exception"
                              0 (Some (exn_msg e)))) w.
Proof.
  intros (Hip & Htpl & Hcred).
  unfold deploy_device. unfold mbind at 1, M_bind at 1, read_device at 1, gets at 1.
  cbv zeta. unfold try_except. unfold default_dry_run.
  unfold mbind at 1, M_bind at 1, mret at 1, M_ret at 1.
  rewrite Hip, Htpl, Hcred. cbn [negb truthy lift py_get].
  unfold mbind at 1 2 3, M_bind at 1 2 3, lift. reflexivity.
Qed.

(** X6: in production mode, when [connect] returns [False] for a device
    with an address and a template, the device is reported [Failed] with
    ["Failed to connect to device"], [connect] has been the only call (with
    the device type defaulting to ['huawei'] and the user name to ['admin']),
    and no configuration has been generated: the device objects and the
    template cache are untouched. *)
Theorem connect_refused_fails_device i w c d' :
  deployable (devices w !!! i) c ->
  dm_connect (label w i) (dget (devices w !!! i) "ip" VNone)
             (connection_params (devices w !!! i) c) (dm w) = (Return false, d') ->
  deploy_device i (VBool false) w
  = (Return (mkDeviceResult (label w i) FAILED "Failed to connect to device" 0
                            (Some "SSH connection failed")),
     transport_step (Connect (label w i) (dget (devices w !!! i) "ip" VNone)
                             (connection_params (devices w !!! i) c)) d' w).
Proof.
  intros Hdev Hconn. rewrite (deploy_device_production_start i w c Hdev).
  unfold try_except, mbind, M_bind, connect. rewrite Hconn. reflexivity.
Qed.

Lemma generate_config_calls role i w :
  calls (generate_config role i w).2 = calls w.
Proof. by apply (keeps_generate_config calls). Qed.

Lemma deploy_device_connected i w c d1 config w2 :
  deployable (devices w !!! i) c ->
  dm_connect (label w i) (dget (devices w !!! i) "ip" VNone)
             (connection_params (devices w !!! i) c) (dm w) = (Return true, d1) ->
  generate_config (dget (devices w !!! i) "role" (VStr "unknown")) i
    (transport_step (Connect (label w i) (dget (devices w !!! i) "ip" VNone)
                             (connection_params (devices w !!! i) c)) d1 w)
  = (Return (Some config), w2) ->
  config <> EmptyString ->
  deploy_device i (VBool false) w
  = match dm_deploy_config (label w i) config false (dm w2) with
    | (Raise e, d3) =>
      (Return (mkDeviceResult (label w i) FAILED "Deployment failed with exception"
                              0 (Some (exn_msg e))),
       transport_step (DeployConfig (label w i) config false) d3 w2)
    | (Return ok, d3) =>
      match dm_disconnect (label w i) d3 with
      | (Raise e, d4) =>
        (Return (mkDeviceResult (label w i) FAILED "Deployment failed with exception"
                                0 (Some (exn_msg e))),
         transport_step (Disconnect (label w i)) d4
           (transport_step (DeployConfig (label w i) config false) d3 w2))
      | (Return _, d4) =>
        (Return (if ok
                 then mkDeviceResult (label w i) SUCCESS
                        ("Successfully deployed " +:+ pretty (config_line_count config)
                           +:+ " configuration lines")
                        (config_line_count config) None
                 else mkDeviceResult (label w i) FAILED
                        "Configuration deployment failed" (config_line_count config)
                        (Some "Deployment execution failed")),
         transport_step (Disconnect (label w i)) d4
           (transport_step (DeployConfig (label w i) config false) d3 w2))
      end
    end
  /\ calls w2 = (calls w ++ [Connect (label w i) (dget (devices w !!! i) "ip" VNone)
                                     (connection_params (devices w !!! i) c)])%list.
Proof.
  intros Hdev Hconn Hgen Hne. split.
  - rewrite (deploy_device_production_start i w c Hdev).
    unfold try_except. unfold mbind at 1, M_bind at 1, connect at 1.
    rewrite Hconn. cbn [negb]. unfold mbind at 1, M_bind at 1. rewrite Hgen.
    destruct config as [|ch config]; [done|].
    unfold mbind, M_bind, deploy_config, disconnect. cbn [dm transport_step].
    destruct (dm_deploy_config _ _ _ _) as [[ok|e] d3]; [|done].
    cbn [dm transport_step].
    destruct (dm_disconnect _ _) as [[b|e] d4]; [|done].
    by destruct ok.
  - pose proof (generate_config_calls
                  (dget (devices w !!! i) "role" (VStr "unknown")) i
                  (transport_step (Connect (label w i) (dget (devices w !!! i) "ip" VNone)
                                           (connection_params (devices w !!! i) c)) d1 w))
      as Hc.
    by rewrite Hgen in Hc.
Qed.

(** X7: in production mode, once [connect] has succeeded and a
    configuration has been generated, the collaborator receives exactly
    [connect], [deploy_config] (with the generated text and [dry_run=False])
    and [disconnect], in this order; the device is [Success] exactly when
    [deploy_config] returned [True], whatever [disconnect] returned. *)
Theorem production_deploys_then_disconnects i w c d1 config w2 ok d3 b d4 :
  deployable (devices w !!! i) c ->
  dm_connect (label w i) (dget (devices w !!! i) "ip" VNone)
             (connection_params (devices w !!! i) c) (dm w) = (Return true, d1) ->
  generate_config (dget (devices w !!! i) "role" (VStr "unknown")) i
    (transport_step (Connect (label w i) (dget (devices w !!! i) "ip" VNone)
                             (connection_params (devices w !!! i) c)) d1 w)
  = (Return (Some config), w2) ->
  config <> EmptyString ->
  dm_deploy_config (label w i) config false (dm w2) = (Return ok, d3) ->
  dm_disconnect (label w i) d3 = (Return b, d4) ->
  exists r w',
    deploy_device i (VBool false) w = (Return r, w')
    /\ (status r = SUCCESS <-> ok = true)
    /\ (status r = FAILED <-> ok = false)
    /\ config_lines r = config_line_count config
    /\ dm w' = d4
    /\ calls w'
       = (calls w ++ [Connect (label w i) (dget (devices w !!! i) "ip" VNone)
                              (connection_params (devices w !!! i) c);
                      DeployConfig (label w i) config false;
                      Disconnect (label w i)])%list.
Proof.
  intros Hdev Hconn Hgen Hne Hdep Hdis.
  destruct (deploy_device_connected i w c d1 config w2 Hdev Hconn Hgen Hne)
    as [Hrun Hcalls].
  rewrite Hdep, Hdis in Hrun. eexists _, _. split; [exact Hrun|].
  cbn [calls dm transport_step]. rewrite Hcalls, <- !app_assoc.
  by destruct ok.
Qed.

(** X8: when [deploy_config] raises, [deploy_device] reports the device
    [Failed] with the text of the exception and does not call [disconnect]:
    the last call the collaborator has received is [deploy_config]. *)
Theorem deploy_fault_skips_disconnect i w c d1 config w2 e d3 :
  deployable (devices w !!! i) c ->
  dm_connect (label w i) (dget (devices w !!! i) "ip" VNone)
             (connection_params (devices w !!! i) c) (dm w) = (Return true, d1) ->
  generate_config (dget (devices w !!! i) "role" (VStr "unknown")) i
    (transport_step (Connect (label w i) (dget (devices w !!! i) "ip" VNone)
                             (connection_params (devices w !!! i) c)) d1 w)
  = (Return (Some config), w2) ->
  config <> EmptyString ->
  dm_deploy_config (label w i) config false (dm w2) = (Raise e, d3) ->
  exists w',
    deploy_device i (VBool false) w
    = (Return (mkDeviceResult (label w i) FAILED "Deployment failed with exception"
                              0 (Some (exn_msg e))), w')
    /\ calls w'
       = (calls w ++ [Connect (label w i) (dget (devices w !!! i) "ip" VNone)
                              (connection_params (devices w !!! i) c);
                      DeployConfig (label w i) config false])%list.
Proof.
  intros Hdev Hconn Hgen Hne Hdep.
  destruct (deploy_device_connected i w c d1 config w2 Hdev Hconn Hgen Hne)
    as [Hrun Hcalls].
  rewrite Hdep in Hrun. eexists. split; [exact Hrun|].
  cbn [calls transport_step]. by rewrite Hcalls, <- !app_assoc.
Qed.

(** X9: when [disconnect] raises after [deploy_config] has returned, the
    device is reported [Failed] with the text of that exception, also when
    [deploy_config] had returned [True]. *)
Theorem disconnect_fault_fails_device i w c d1 config w2 ok d3 e d4 :
  deployable (devices w !!! i) c ->
  dm_connect (label w i) (dget (devices w !!! i) "ip" VNone)
             (connection_params (devices w !!! i) c) (dm w) = (Return true, d1) ->
  generate_config (dget (devices w !!! i) "role" (VStr "unknown")) i
    (transport_step (Connect (label w i) (dget (devices w !!! i) "ip" VNone)
                             (connection_params (devices w !!! i) c)) d1 w)
  = (Return (Some config), w2) ->
  config <> EmptyString ->
  dm_deploy_config (label w i) config false (dm w2) = (Return ok, d3) ->
  dm_disconnect (label w i) d3 = (Raise e, d4) ->
  exists w',
    deploy_device i (VBool false) w
    = (Return (mkDeviceResult (label w i) FAILED "Deployment failed with exception"
                              0 (Some (exn_msg e))), w').
Proof.
  intros Hdev Hconn Hgen Hne Hdep Hdis.
  destruct (deploy_device_connected i w c d1 config w2 Hdev Hconn Hgen Hne)
    as [Hrun _].
  rewrite Hdep, Hdis in Hrun. by eexists.
Qed.

(** ** The template engine *)

(** X10: [_prepare_variables] fills in defaults at the top level only: every
    key the caller supplies keeps the caller's value as it is (a nested
    mapping is not merged with the default one), every other key has its
    default, all keys of [defaults] are present, and preparing twice changes
    nothing more. *)
Theorem prepare_variables_top_level (variables : dict) :
  (forall k v, variables !! k = Some v -> prepare_variables variables !! k = Some v)
  /\ (forall k, variables !! k = None -> prepare_variables variables !! k = defaults !! k)
  /\ (forall k, is_Some (defaults !! k) -> is_Some (prepare_variables variables !! k))
  /\ prepare_variables (prepare_variables variables) = prepare_variables variables.
Proof.
  unfold prepare_variables. split; [|split; [|split]].
  - intros k v Hk. by apply lookup_union_Some_l.
  - intros k Hk. by apply lookup_union_r.
  - intros k [d Hd]. destruct (variables !! k) as [v|] eqn:Hk.
    + exists v. by apply lookup_union_Some_l.
    + exists d. by rewrite lookup_union_r.
  - by rewrite <- (assoc_L (∪)), (idemp_L (∪)).
Qed.

(** X11: [get_template] caches what it loads and nothing else.  After a
    successful call the template is in the cache and every later call
    returns it without looking at the template directory, also when the
    files have changed since; a failed load stores nothing; after
    [clear_cache] the next call loads from the directory again. *)
Theorem template_cache_serves_loaded_template n w :
  (forall t w1,
     get_template n w = (Return (Some t), w1) ->
     template_cache w1 !! n = Some t
     /\ forall files,
          get_template n (set_template_dir files w1)
          = (Return (Some t), set_template_dir files w1))
  /\ (forall w1, get_template n w = (Return None, w1) ->
                 w1 = w /\ template_cache w !! n = None)
  /\ (get_template n (clear_cache w).2
      = match env_get_template (template_dir w) n with
        | Return t =>
          (Return (Some t), set_template_cache {[ n := t ]} w)
        | Raise _ => (Return None, set_template_cache ∅ w)
        end).
Proof.
  split; [|split].
  - intros t w1 Hget.
    assert (Hc : template_cache w1 !! n = Some t).
    { revert Hget. unfold get_template.
      destruct (template_cache w !! n) as [t0|] eqn:Hc.
      - by intros [= <- <-].
      - destruct (env_get_template _ _); [|done].
        intros [= <- <-]. simpl. apply lookup_insert_eq. }
    split; [done|]. intros files. unfold get_template. simpl. by rewrite Hc.
  - intros w1. unfold get_template.
    destruct (template_cache w !! n) as [t0|] eqn:Hc; [done|].
    destruct (env_get_template _ _); [done|]. by intros [= <-].
  - unfold get_template, clear_cache, modify. simpl. rewrite lookup_empty.
    destruct (env_get_template _ _); [|done].
    unfold set_template_cache. simpl. by rewrite insert_empty.
Qed.

Lemma split_lines_aux_nonempty cur s : (1 <= length (split_lines_aux cur s))%nat.
Proof.
  revert cur. induction s as [|c s IH]; intros cur; simpl; [lia|].
  destruct (Ascii.eqb c "010"); simpl; [lia | apply IH].
Qed.

(** X12: a validation result always answers [result['valid']] with a
    boolean.  A failed validation carries an error text; a missing file is
    reported as ["Template file not found: <name>"]; a successful one carries
    the length of the rendered text and its number of lines, which is at
    least one, and no error. *)
Theorem validation_result_shape (files : gmap string string) (n : string) :
  exists b,
    validate_template_syntax files n !! "valid" = Some (VBool b)
    /\ (b = false ->
        exists msg, validate_template_syntax files n !! "error" = Some (VStr msg))
    /\ (files !! n = None ->
        b = false
        /\ validate_template_syntax files n !! "error"
           = Some (VStr ("Template file not found: " +:+ n)))
    /\ (b = true ->
        is_Some (files !! n)
        /\ validate_template_syntax files n !! "error" = None
        /\ exists len lines,
             validate_template_syntax files n !! "length" = Some (VInt len)
             /\ validate_template_syntax files n !! "lines" = Some (VInt lines)
             /\ 0 <= len /\ 1 <= lines).
Proof.
  unfold validate_template_syntax, template_exists.
  destruct (files !! n) as [body|] eqn:Hfile.
  - rewrite bool_decide_eq_true_2 by eauto. cbn [negb].
    assert (Hfail : forall e,
              validation_failure e !! "valid" = Some (VBool false)
              /\ exists msg, validation_failure e !! "error" = Some (VStr msg)).
    { intros e. unfold validation_failure.
      destruct (exn_kind e); split; try reflexivity; by eexists. }
    destruct (env_get_template files n) as [t|e].
    + destruct (template_render files t (minimal_vars n)) as [rendered|e].
      * exists true. split; [reflexivity|]. split; [done|]. split; [done|].
        intros _. split; [by eexists|]. split; [reflexivity|].
        eexists _, _. split; [reflexivity|]. split; [reflexivity|].
        unfold py_len, split_lines.
        pose proof (split_lines_aux_nonempty EmptyString rendered). lia.
      * destruct (Hfail e) as [Hv He]. exists false. repeat split; try done.
    + destruct (Hfail e) as [Hv He]. exists false. repeat split; try done.
  - rewrite bool_decide_eq_false_2 by (by intros [? ?]). cbn [negb].
    exists false. split; [reflexivity|]. split; [by eexists|]. split; [|done].
    intros _. split; reflexivity.
Qed.

Lemma same_key_sorted (L : list (string * string)) :
  Forall (fun p => p.1 = p.2) L ->
  StronglySorted (key_le String.ltb) L ->
  StronglySorted (fun a b => String.ltb b a = false) (snd <$> L).
Proof.
  intros Hd Hs. induction Hs as [|p L Hs IH Hp]; simpl; [constructor|].
  apply Forall_cons in Hd as [Hp1 Hd].
  constructor; [by apply IH|].
  apply Forall_fmap. apply Forall_forall. intros q Hq. simpl.
  rewrite Forall_forall in Hp, Hd.
  specialize (Hp q Hq). specialize (Hd q Hq).
  unfold key_le in Hp. by rewrite <- Hp1, <- Hd.
Qed.

Lemma list_templates_perm (files : gmap string string) :
  Permutation (list_templates files)
              (filter (fun n => ends_with ".j2" n = true) (fst <$> map_to_list files)).
Proof.
  unfold list_templates.
  etrans; [apply fmap_Permutation, stable_sort_perm|].
  rewrite <- list_fmap_compose. by rewrite list_fmap_id.
Qed.

(** X13: [list_templates] returns exactly the files of the template
    directory whose name ends in [.j2], each once, in strictly ascending
    order of their names; [validate_all_templates] has one entry for each of
    them, in the same order. *)
Theorem list_templates_sorted_j2_files (files : gmap string string) :
  (forall n, n ∈ list_templates files
             <-> is_Some (files !! n) /\ ends_with ".j2" n = true)
  /\ NoDup (list_templates files)
  /\ StronglySorted (fun a b => String.ltb a b = true) (list_templates files)
  /\ fst <$> validate_all files = list_templates files.
Proof.
  assert (Hnd : NoDup (list_templates files)).
  { rewrite list_templates_perm. apply NoDup_filter, NoDup_fst_map_to_list. }
  split; [|split; [done|split]].
  - intros n. rewrite list_templates_perm, list_elem_of_filter, list_elem_of_fmap.
    split.
    + intros [Hj2 ([k v] & -> & Hkv)]. split; [|done].
      apply elem_of_map_to_list in Hkv. by eexists.
    + intros [[v Hv] Hj2]. split; [done|]. exists (n, v). split; [done|].
      by apply elem_of_map_to_list.
  - assert (Hle : StronglySorted (fun a b => String.ltb b a = false)
                                 (list_templates files)).
    { unfold list_templates. apply same_key_sorted.
      - rewrite stable_sort_perm. apply Forall_fmap, Forall_forall. by intros x _.
      - apply stable_sort_sorted.
        + apply string_ltb_asym.
        + apply string_le_trans. }
    revert Hnd Hle. generalize (list_templates files). intros l Hnd Hle.
    induction Hle as [|a l Hs IH Ha]; [constructor|].
    apply NoDup_cons in Hnd as [Hnotin Hnd].
    constructor; [by apply IH|].
    rewrite Forall_forall in Ha |- *. intros b Hb. specialize (Ha b Hb).
    destruct (string_ltb_total a b) as [Hlt|[->|Hgt]]; [done| |congruence].
    by destruct Hnotin.
  - unfold validate_all. rewrite <- list_fmap_compose. apply list_fmap_id.
Qed.

Lemma render_template_total n vars : total (render_template n vars).
Proof.
  intros w. unfold render_template, mbind, M_bind, get_template.
  destruct (template_cache w !! n) as [t|].
  - unfold gets. destruct (template_render _ _ _); by eexists _, _.
  - destruct (env_get_template _ _) as [t|e]; [|by eexists _, _].
    unfold gets. destruct (template_render _ _ _); by eexists _, _.
Qed.

(** X14: [generate_config] touches the device object only for a role of the
    role table.  For any other hashable role it returns [None] and changes
    nothing; for a list or a dict it raises [TypeError] and changes nothing;
    for a role of the table it returns (it never raises), and the device
    object then carries the template name under [template_name] and the role
    under [device_type], all other device objects being as before. *)
Theorem generate_config_by_role role (i : nat) w :
  (mapping_get role = Return None -> generate_config role i w = (Return None, w))
  /\ (forall e, mapping_get role = Raise e ->
                generate_config role i w = (Raise e, w) /\ exn_kind e = TypeError)
  /\ (forall tn,
        mapping_get role = Return (Some tn) ->
        (i < length (devices w))%nat ->
        exists config w',
          generate_config role i w = (Return config, w')
          /\ (devices w' !!! i) !! "template_name" = Some (VStr tn)
          /\ (devices w' !!! i) !! "device_type" = Some role
          /\ (forall j : nat, j <> i -> devices w' !!! j = devices w !!! j)).
Proof.
  split; [|split].
  - intros Hm. unfold generate_config, mbind, M_bind, lift. by rewrite Hm.
  - intros e Hm. split.
    + unfold generate_config, mbind, M_bind, lift. by rewrite Hm.
    + destruct role; simpl in Hm; try done; by injection Hm as <-.
  - intros tn Hm Hi. unfold generate_config. unfold mbind at 1, M_bind at 1, lift.
    rewrite Hm.
    unfold mbind at 1 2 3, M_bind at 1 2 3, update_device, modify, read_device, gets.
    cbn [devices set_devices].
    set (w2 := set_devices _ (set_devices _ w)).
    set (vars := _ !!! i).
    destruct (render_template_total tn vars w2) as (config & w' & Hrender).
    exists config, w'. split; [exact Hrender|].
    pose proof (keeps_render_template devices ltac:(done) tn vars w2) as Hk.
    rewrite Hrender in Hk. simpl in Hk. rewrite Hk. unfold w2. cbn [devices set_devices].
    assert (Hlen : (i < length (<[i:=<["template_name":=VStr tn]> (devices w !!! i)]>
                                  (devices w)))%nat) by (by rewrite length_insert).
    rewrite !list_lookup_total_insert_eq by done.
    split; [|split].
    + rewrite lookup_insert_ne by done. apply lookup_insert_eq.
    + apply lookup_insert_eq.
    + intros j Hj. by rewrite !list_lookup_total_insert_ne.
Qed.

(** ** Loading the inventory *)



(** ** The omitted dry-run flag *)

(** The value the flag stands for where it is omitted. *)
Lemma default_dry_run_None w :
  default_dry_run VNone w
  = (py_get (dget (inventory w) "global_settings" (VDict ∅)) "dry_run_default"
            (VBool true), w).
Proof. apply inventory_setting_run. Qed.

(** [deploy_device] uses its flag through [truthy] only, after resolving an
    omitted one. *)
Lemma deploy_device_flag i dry_run w v :
  default_dry_run dry_run w = (Return v, w) ->
  deploy_device i dry_run w = deploy_device i (VBool (truthy v)) w.
Proof.
  intros Hv. unfold deploy_device, mbind at 1 3, M_bind at 1 3, read_device, gets.
  unfold try_except. unfold mbind at 1 11, M_bind at 1 11. rewrite Hv.
  reflexivity.
Qed.

Lemma deploy_step_flag i dry_run t w v :
  default_dry_run dry_run w = (Return v, w) ->
  deploy_step dry_run i t w = deploy_step (VBool (truthy v)) i t w.
Proof.
  intros Hv. unfold deploy_step, mbind at 1 4, M_bind at 1 4, read_device, gets.
  unfold mbind at 1 3, M_bind at 1 3. rewrite inventory_setting_run.
  destruct (py_get _ _ _) as [rb|e]; [|done].
  destruct (_ && _); [done|].
  unfold mbind, M_bind. by rewrite (deploy_device_flag i dry_run w v Hv).
Qed.

Lemma default_dry_run_inventory dry_run w w' :
  inventory w' = inventory w ->
  (default_dry_run dry_run w').1 = (default_dry_run dry_run w).1.
Proof.
  intros Hi. destruct dry_run; try done.
  rewrite !default_dry_run_None. simpl. by rewrite Hi.
Qed.

Lemma deploy_loop_flag dry_run sequence t w v :
  default_dry_run dry_run w = (Return v, w) ->
  deploy_loop dry_run sequence t w = deploy_loop (VBool (truthy v)) sequence t w.
Proof.
  revert t w. induction sequence as [|i rest IH]; intros t w Hv; [done|].
  cbn [deploy_loop]. unfold mbind, M_bind.
  rewrite (deploy_step_flag i dry_run t w v Hv).
  pose proof (keeps_deploy_step inventory ltac:(done) ltac:(done) ltac:(done)
                (VBool (truthy v)) i t w) as Hk.
  destruct (deploy_step (VBool (truthy v)) i t w) as [[t1|e] w1]; [|done].
  simpl in Hk. apply IH.
  pose proof (default_dry_run_inventory dry_run w w1 Hk) as Hd.
  pose proof (default_dry_run_state dry_run w1) as Hs.
  destruct (default_dry_run dry_run w1) as [o w2]. simpl in *. subst w2.
  by rewrite Hd, Hv.
Qed.

(** X16: a run or a single deployment whose [dry_run] argument is omitted
    behaves exactly like the one with the explicit boolean that the inventory
    entry [global_settings.dry_run_default] stands for.  So it is a dry run
    when [global_settings] or the entry is absent, and a production run when
    the entry is present and falsy, also when it is [null]. *)
Theorem omitted_flag_follows_inventory w :
  (forall v,
     py_get (dget (inventory w) "global_settings" (VDict ∅)) "dry_run_default"
            (VBool true) = Return v ->
     deploy_all_devices VNone w = deploy_all_devices (VBool (truthy v)) w
     /\ forall i, deploy_device i VNone w = deploy_device i (VBool (truthy v)) w)
  /\ (inventory w !! "global_settings" = None ->
      deploy_all_devices VNone w = deploy_all_devices (VBool true) w)
  /\ (forall g,
        inventory w !! "global_settings" = Some (VDict g) ->
        g !! "dry_run_default" = Some VNone ->
        deploy_all_devices VNone w = deploy_all_devices (VBool false) w).
Proof.
  assert (Hrun : forall v,
     py_get (dget (inventory w) "global_settings" (VDict ∅)) "dry_run_default"
            (VBool true) = Return v ->
     deploy_all_devices VNone w = deploy_all_devices (VBool (truthy v)) w).
  { intros v Hv.
    assert (Hd : default_dry_run VNone w = (Return v, w))
      by (by rewrite default_dry_run_None, Hv).
    destruct (devices w) as [|d ds] eqn:Hds.
    { unfold deploy_all_devices, mbind, M_bind, gets. by rewrite Hds. }
    rewrite !(deploy_all_devices_body _ w d ds Hds). rewrite Hd. cbn [default_dry_run].
    unfold mret at 1, M_ret at 1.
    destruct (validate_templates w) as [[[|]|e] w0] eqn:Hgate; try done.
    apply validate_templates_state in Hgate as ->.
    destruct (get_deployment_sequence w) as [[sq|e] w0] eqn:Hsq; [|done].
    assert (w0 = w) as -> by (by injection Hsq).
    assert (Hvv : default_dry_run v w = (Return v, w)) by (by destruct v).
    by rewrite (deploy_loop_flag v sq _ w v Hvv). }
  split; [|split].
  - intros v Hv. split; [by apply Hrun|]. intros i. apply deploy_device_flag.
    by rewrite default_dry_run_None, Hv.
  - intros Hg. apply (Hrun (VBool true)). unfold dget. by rewrite Hg.
  - intros g Hg Hd. apply (Hrun VNone). unfold dget. rewrite Hg. simpl.
    unfold dget. by rewrite Hd.
Qed.

(** ** Runs that raise *)

Lemma deploy_step_Raise dry_run i t w e w' :
  deploy_step dry_run i t w = (Raise e, w') ->
  rollback_setting w = Raise e /\ w' = w.
Proof.
  unfold deploy_step, mbind at 1, M_bind at 1, read_device, gets.
  unfold mbind at 1, M_bind at 1. rewrite inventory_setting_run.
  fold (rollback_setting w).
  destruct (rollback_setting w) as [rb|e0]; [|by intros [= <- <-]].
  destruct (_ && _); [done|].
  unfold mbind, M_bind.
  destruct (deploy_device_total i dry_run w) as (r & w1 & ->). done.
Qed.

Lemma deploy_loop_Raise dry_run sequence t w e w' :
  deploy_loop dry_run sequence t w = (Raise e, w') ->
  rollback_setting w = Raise e /\ w' = w.
Proof.
  destruct sequence as [|i rest]; [done|].
  cbn [deploy_loop]. unfold mbind, M_bind.
  destruct (deploy_step dry_run i t w) as [[t1|e1] w1] eqn:Hstep.
  - destruct (rollback_setting w) as [v|e0] eqn:Hrb.
    + destruct (deploy_step_returns dry_run i t w v Hrb) as (t2 & w2 & Hs & Hrb2).
      rewrite Hs in Hstep. injection Hstep as <- <-.
      destruct (deploy_loop_returns dry_run rest t2 w2 v Hrb2) as (t3 & w3 & ->). done.
    + unfold deploy_step, mbind at 1, M_bind at 1, read_device, gets in Hstep.
      unfold mbind at 1, M_bind at 1 in Hstep. rewrite inventory_setting_run in Hstep.
      fold (rollback_setting w) in Hstep. by rewrite Hrb in Hstep.
  - intros [= <- <-]. by apply deploy_step_Raise in Hstep.
Qed.

(** X17: unlike [deploy_device], a run can raise, but only on a malformed
    inventory and before it has changed anything: when [deploy_all_devices]
    raises, the state is the initial one (no transport call, no device object
    written, nothing recorded) and the exception is the [AttributeError] of a
    [global_settings] or [deployment_strategy] entry that is not a mapping,
    or the [TypeError] of deployment orders that cannot be compared. *)
Theorem run_raises_only_on_malformed_inventory dry_run w e w' :
  deploy_all_devices dry_run w = (Raise e, w') ->
  w' = w
  /\ ((dry_run = VNone
       /\ py_get (dget (inventory w) "global_settings" (VDict ∅)) "dry_run_default"
                 (VBool true) = Raise e
       /\ exn_kind e = AttributeError)
      \/ (get_deployment_sequence w = (Raise e, w) /\ exn_kind e = TypeError)
      \/ (rollback_setting w = Raise e /\ exn_kind e = AttributeError)).
Proof.
  assert (Hattr : forall o k d, py_get o k d = Raise e -> exn_kind e = AttributeError).
  { intros o k d. destruct o; simpl; try done; by intros [= <-]. }
  destruct (devices w) as [|d ds] eqn:Hds.
  { unfold deploy_all_devices, mbind, M_bind, gets. by rewrite Hds. }
  rewrite (deploy_all_devices_body dry_run w d ds Hds).
  pose proof (default_dry_run_state dry_run w) as Hs.
  destruct (default_dry_run dry_run w) as [[dr|e0] w0] eqn:Hd; simpl in Hs; subst w0.
  2:{ intros [= <- <-]. split; [done|]. left.
      destruct dry_run; try done. rewrite default_dry_run_None in Hd.
      injection Hd as Hd. eauto. }
  rewrite validate_templates_run.
  destruct (_ || _); [|done].
  destruct (get_deployment_sequence w) as [[sq|e0] w0] eqn:Hsq.
  - assert (w0 = w) as -> by (by injection Hsq).
    destruct (deploy_loop dr sq (mkTally ∅ 0 0 0) w) as [[t|e1] w1] eqn:Hloop; [done|].
    intros [= <- <-]. apply deploy_loop_Raise in Hloop as [Hrb ->].
    split; [done|]. right. right. split; [done|]. by eapply Hattr.
  - assert (w0 = w) as -> by (by injection Hsq).
    intros [= <- <-]. split; [done|]. right. left. split; [done|].
    injection Hsq as Hsq. unfold py_sorted in Hsq.
    destruct (_ <=? _)%nat; [done|].
    destruct (mapM _ _); [done|].
    destruct (mapM (fun x => as_str (deployment_order (devices w !!! x))) _); [done|].
    by injection Hsq as <-.
Qed.

(** ** The deployment sequence after a run *)

Lemma py_sorted_ext {A} (key key' : A -> value) (l : list A) :
  (forall x, key x = key' x) -> py_sorted key l = py_sorted key' l.
Proof.
  intros Hk. unfold py_sorted.
  assert (Hi : mapM (fun x => as_int (key x)) l = mapM (fun x => as_int (key' x)) l)
    by (apply mapM_ext; intros x; by rewrite Hk).
  assert (Hs : mapM (fun x => as_str (key x)) l = mapM (fun x => as_str (key' x)) l)
    by (apply mapM_ext; intros x; by rewrite Hk).
  by rewrite Hi, Hs.
Qed.

(** X18: a run never reorders, renames, adds or removes a device.  After
    [deploy_all_devices], however it ended, the device list has the length it
    had, every device is reported under the name it had, every entry of a
    device other than [template_name] and [device_type] is as it was, and
    [get_deployment_sequence] computes the sequence it computed before. *)
Theorem run_keeps_deployment_sequence dry_run w :
  length (devices (deploy_all_devices dry_run w).2) = length (devices w)
  /\ (forall i : nat, label (deploy_all_devices dry_run w).2 i = label w i)
  /\ (forall (i : nat) (key : string),
        key <> "template_name" -> key <> "device_type" ->
        (devices (deploy_all_devices dry_run w).2 !!! i) !! key
        = (devices w !!! i) !! key)
  /\ (get_deployment_sequence (deploy_all_devices dry_run w).2).1
     = (get_deployment_sequence w).1.
Proof.
  set (w' := (deploy_all_devices dry_run w).2).
  assert (Hlen : length (devices w') = length (devices w)).
  { apply (keeps_deploy_all_devices (fun w => length (devices w))); try done.
    intros; simpl; apply length_insert. }
  assert (Hkey : forall (i : nat) (key : string),
            key <> "template_name" -> key <> "device_type" ->
            (devices w' !!! i) !! key = (devices w !!! i) !! key).
  { intros i key Hk1 Hk2.
    apply (keeps_deploy_all_devices (fun w => (devices w !!! i) !! key)); try done.
    intros j k v w0 Hk. simpl.
    destruct (decide (j = i)) as [->|Hji].
    - destruct (decide (i < length (devices w0))%nat) as [Hi|Hi].
      + rewrite list_lookup_total_insert_eq by done.
        apply lookup_insert_ne. by destruct Hk as [-> | ->].
      + by rewrite list_insert_ge by lia.
    - by rewrite list_lookup_total_insert_ne. }
  split; [done|]. split; [|split; [done|]].
  - intros i. unfold label, name_of, dget. by rewrite Hkey.
  - unfold get_deployment_sequence. simpl. rewrite Hlen.
    apply py_sorted_ext. intros i. unfold deployment_order, dget. by rewrite Hkey.
Qed.

(** ** The network filters *)

Lemma masks_table :
  forallb (fun k : nat =>
             (netmask (Z.of_nat k) =? 2 ^ 32 - 2 ^ (32 - Z.of_nat k))
             && (hostmask (Z.of_nat k) =? 2 ^ (32 - Z.of_nat k) - 1))
          (seq 0 33) = true.
Proof. vm_compute. reflexivity. Qed.

Lemma masks_closed_form n :
  0 <= n <= 32 ->
  netmask n = 2 ^ 32 - 2 ^ (32 - n) /\ hostmask n = 2 ^ (32 - n) - 1.
Proof.
  intros Hn. pose proof masks_table as Htable.
  rewrite forallb_forall in Htable.
  specialize (Htable (Z.to_nat n)). rewrite Z2Nat.id in Htable by lia.
  assert (Hin : In (Z.to_nat n) (seq 0 33)) by (apply in_seq; lia).
  apply Htable in Hin. apply andb_true_iff in Hin as [Hm Hh].
  split; by apply Z.eqb_eq.
Qed.

(** X29: for a prefix length from 0 to 32, [subnet_mask] is the dotted form
    of the mask with that many leading ones and [wildcard_mask] the dotted
    form of its complement (the two add up to 255.255.255.255 and share no
    bit); for any other integer the filters fall back to the masks of a /24:
    ["255.255.255.0"] and ["0.0.0.255"]. *)
Theorem masks_by_prefix_length n :
  (0 <= n <= 32 ->
   subnet_mask n = dotted_quad (2 ^ 32 - 2 ^ (32 - n))
   /\ wildcard_mask n = dotted_quad (2 ^ (32 - n) - 1)
   /\ netmask n + hostmask n = 2 ^ 32 - 1
   /\ Z.land (netmask n) (hostmask n) = 0)
  /\ (~ 0 <= n <= 32 ->
      subnet_mask n = "255.255.255.0" /\ wildcard_mask n = "0.0.0.255").
Proof.
  split.
  - intros Hn. destruct (masks_closed_form n Hn) as [Hm Hh].
    unfold subnet_mask, wildcard_mask, valid_prefixlen.
    replace ((0 <=? n) && (n <=? 32)) with true
      by (symmetry; apply andb_true_iff; split; apply Z.leb_le; lia).
    rewrite Hm, Hh. split; [done|]. split; [done|]. split; [lia|].
    rewrite <- Hm, <- Hh. unfold hostmask.
    apply Z.bits_inj'. intros k Hk.
    rewrite Z.land_spec, Z.lxor_spec, Z.bits_0.
    destruct (Z.testbit (netmask n) k) eqn:Hbit; [|done]. simpl.
    destruct (Z.testbit ALL_ONES k) eqn:Hall; [done|].
    exfalso. revert Hbit. unfold netmask. rewrite Z.lxor_spec, Hall. simpl.
    assert (Hhigh : 32 <= k).
    { destruct (decide (k < 32)) as [Hlt|]; [|lia]. exfalso.
      revert Hall. unfold ALL_ONES.
      replace (2 ^ 32 - 1) with (Z.ones 32) by done.
      rewrite Z.ones_spec_low by lia. done. }
    rewrite Z.shiftr_spec by lia. unfold ALL_ONES.
    replace (2 ^ 32 - 1) with (Z.ones 32) by done.
    rewrite Z.ones_spec_high by lia. done.
  - intros Hn. unfold subnet_mask, wildcard_mask, valid_prefixlen.
    replace ((0 <=? n) && (n <=? 32)) with false; [done|].
    symmetry. apply andb_false_iff.
    destruct (decide (0 <= n)) as [H0n|H0n].
    + right. apply Z.leb_gt. lia.
    + left. apply Z.leb_gt. lia.
Qed.

End MoreFacts.


(** * Properties of the device manager *)

Section DeviceManagerFacts.
Context `{DeviceManager.Netmiko}.
Import DeviceManager.

(** What a call through netmiko changes of the manager. *)
Lemma netmiko_run {A} (c : netmiko_call) (f : Net -> answer A * Net) m :
  exists r m1,
    netmiko c f m = (r, m1)
    /\ config m1 = config m /\ connections m1 = connections m
    /\ connection_status m1 = connection_status m
    /\ log m1 = (log m ++ [c])%list.
Proof.
  unfold netmiko. destruct (f (net m)) as [r n]. by eexists _, _.
Qed.

Lemma opened_app (l1 l2 : list netmiko_call) :
  opened (l1 ++ l2)%list = (opened l1 + opened l2)%nat.
Proof. unfold opened. by rewrite filter_app, length_app. Qed.

Lemma others_kept_refl name m : others_kept name m m.
Proof. by split. Qed.

Lemma others_kept_trans name m1 m2 m3 :
  others_kept name m1 m2 -> others_kept name m2 m3 -> others_kept name m1 m3.
Proof.
  intros [Hc1 Ho1] [Hc2 Ho2]. split; [congruence|].
  intros other Hne. destruct (Ho1 other Hne), (Ho2 other Hne). split; congruence.
Qed.


Lemma others_kept_status name b m :
  others_kept name m (set_status <[name := b]> m).
Proof.
  split; [done|]. intros other Hne. simpl. by rewrite lookup_insert_ne.
Qed.

Lemma consistent_books m m' :
  connections m' = connections m -> connection_status m' = connection_status m ->
  consistent m -> consistent m'.
Proof. unfold consistent. intros -> ->. done. Qed.

Lemma consistent_cleanup name m : consistent m -> consistent (cleanup_connection name m).
Proof.
  intros Hm other. simpl. destruct (decide (other = name)) as [->|Hne].
  - by rewrite lookup_delete_eq.
  - rewrite !lookup_delete_ne by done. apply Hm.
Qed.

Lemma consistent_status_false name m :
  consistent m -> consistent (set_status <[name := false]> m).
Proof.
  intros Hm other. simpl. destruct (decide (other = name)) as [->|Hne].
  - by rewrite lookup_insert_eq.
  - rewrite lookup_insert_ne by done. apply Hm.
Qed.

Lemma consistent_status_true name m :
  is_Some (connections m !! name) ->
  consistent m -> consistent (set_status <[name := true]> m).
Proof.
  intros Hc Hm other. simpl. destruct (decide (other = name)) as [->|Hne].
  - done.
  - rewrite lookup_insert_ne by done. apply Hm.
Qed.

Lemma consistent_stored name c m :
  consistent m ->
  consistent (set_status <[name := true]> (set_connections <[name := c]> m)).
Proof.
  intros Hm other. simpl. destruct (decide (other = name)) as [->|Hne].
  - by rewrite !lookup_insert_eq.
  - rewrite !lookup_insert_ne by done. apply Hm.
Qed.

(** [is_connected] never raises.  It answers [True] only for a device with a
    connection object that answered, and forgets a connection that did not. *)
Lemma is_connected_run name m :
  exists b m' l,
    is_connected name m = (Return b, m')
    /\ log m' = (log m ++ l)%list
    /\ (l = [] \/ l = [SendCommand name "display clock"])
    /\ others_kept name m m'
    /\ (consistent m -> consistent m')
    /\ (connections m !! name = None -> b = false /\ m' = m)
    /\ (b = true ->
        connections m' = connections m /\ is_Some (connections m !! name)
        /\ connection_status m' !! name = Some true)
    /\ (b = false ->
        connections m' !! name = None
        /\ (is_Some (connections m !! name) -> connection_status m' !! name = None)).
Proof.
  unfold is_connected. destruct (connections m !! name) as [c|] eqn:Hc.
  - destruct (netmiko_run (SendCommand name "display clock")
                (conn_send_command c "display clock" 5) m)
      as (r & m1 & -> & Hcfg & Hconn & Hst & Hlog).
    pose proof (consistent_books m m1 Hconn Hst) as Hcons.
    destruct r as [out|k msg].
    + exists true, (set_status <[name := true]> m1), [SendCommand name "display clock"].
      split; [done|]. split; [done|]. split; [by right|]. split.
      { split; [done|]. intros other Hne. simpl. rewrite lookup_insert_ne by done.
        by rewrite Hconn, Hst. }
      split.
      { intros Hm. apply consistent_status_true; [|by apply Hcons].
        by rewrite Hconn, Hc. }
      split; [done|]. split; [|done]. intros _. simpl.
      split; [done|]. split; [done|]. apply lookup_insert_eq.
    + exists false, (cleanup_connection name (set_status <[name := false]> m1)),
        [SendCommand name "display clock"].
      split; [done|]. split; [done|]. split; [by right|]. split.
      { split; [done|]. intros other Hne. simpl.
        rewrite !lookup_delete_ne, lookup_insert_ne by done. by rewrite Hconn, Hst. }
      split.
      { intros Hm. by apply consistent_cleanup, consistent_status_false, Hcons. }
      split; [done|]. split; [done|]. intros _. simpl.
      split; [apply lookup_delete_eq|]. intros _. apply lookup_delete_eq.
  - exists false, m, []. rewrite app_nil_r.
    split; [done|]. split; [done|]. split; [by left|].
    split; [apply others_kept_refl|]. split; [done|].
    split; [done|]. split; [done|]. intros _. split; [done|]. by intros [? ?].
Qed.


(** One attempt opens one connection and leaves the books of the manager
    as they are. *)
Lemma attempt_run name params m :
  exists r m1 l,
    attempt name params m = (r, m1)
    /\ config m1 = config m /\ connections m1 = connections m
    /\ connection_status m1 = connection_status m
    /\ log m1 = (log m ++ Open name params :: l)%list /\ opened l = 0%nat.
Proof.
  unfold attempt.
  destruct (netmiko_run (Open name params) (ConnectHandler params) m)
    as (r & m1 & -> & Hcfg1 & Hconn1 & Hst1 & Hlog1).
  destruct r as [c|k msg]; [|exists (after_error k), m1, []; by rewrite Hlog1].
  destruct (netmiko_run (SendCommand name "display version")
              (conn_send_command c "display version" 10) m1)
    as (r & m2 & -> & Hcfg2 & Hconn2 & Hst2 & Hlog2).
  destruct r as [out|k msg].
  2:{ exists (after_error k), m2, [SendCommand name "display version"].
      rewrite Hlog2, Hlog1, <- app_assoc. repeat split; congruence. }
  destruct (_ || _).
  { exists (Connected c), m2, [SendCommand name "display version"].
    rewrite Hlog2, Hlog1, <- app_assoc. repeat split; congruence. }
  destruct (netmiko_run (Close name) (conn_disconnect c) m2)
    as (r & m3 & -> & Hcfg3 & Hconn3 & Hst3 & Hlog3).
  exists (match r with Ok _ => Retry | Err k _ => after_error k end), m3,
    [SendCommand name "display version"; Close name].
  rewrite Hlog3, Hlog2, Hlog1, <- !app_assoc.
  split; [by destruct r|]. repeat split; congruence.
Qed.

(** The retry loop: at most [attempts] connections are opened; [True] comes
    with a stored connection, [False] with the status [False]. *)
Lemma connect_loop_run attempts name params m :
  exists b m' l,
    connect_loop attempts name params m = (Return b, m')
    /\ log m' = (log m ++ l)%list /\ (opened l <= attempts)%nat
    /\ others_kept name m m'
    /\ (consistent m -> consistent m')
    /\ (b = true ->
        is_Some (connections m' !! name) /\ connection_status m' !! name = Some true)
    /\ (b = false ->
        connections m' = connections m /\ connection_status m' !! name = Some false).
Proof.
  revert m. induction attempts as [|k IH]; intros m.
  - exists false, (set_status <[name := false]> m), []. rewrite app_nil_r.
    split; [done|]. split; [done|]. split; [done|].
    split; [apply others_kept_status|].
    split; [by apply consistent_status_false|].
    split; [done|]. intros _.
    split; [done|]. apply lookup_insert_eq.
  - cbn [connect_loop].
    destruct (attempt_run name params m)
      as (r & m1 & l & -> & Hcfg & Hconn & Hst & Hlog & Hopen).
    assert (Hl : opened (Open name params :: l) = 1%nat).
    { change (Open name params :: l) with ([Open name params] ++ l)%list.
      rewrite opened_app, Hopen. done. }
    assert (Hk1 : others_kept name m m1).
    { split; [done|]. intros other _. by rewrite Hconn, Hst. }
    pose proof (consistent_books m m1 Hconn Hst) as Hcons.
    destruct r as [c| |].
    + eexists true, _, _. split; [reflexivity|]. split; [exact Hlog|].
      split; [lia|]. split.
      { split; [done|]. intros other Hne. simpl. rewrite !lookup_insert_ne by done.
        by rewrite Hconn, Hst. }
      split; [intros Hm; by apply consistent_stored, Hcons|].
      split; [|done]. intros _. simpl. rewrite !lookup_insert_eq. eauto.
    + destruct (IH m1) as (b & m' & l' & -> & Hlog' & Hopen' & Hk' & Hcons' & Ht & Hf).
      exists b, m', (Open name params :: l ++ l')%list.
      split; [done|]. split.
      { rewrite Hlog', Hlog, <- app_assoc. done. }
      split.
      { change (Open name params :: l ++ l')%list
          with ((Open name params :: l) ++ l')%list.
        rewrite opened_app, Hl. lia. }
      split; [by eapply others_kept_trans|].
      split; [intros Hm; by apply Hcons', Hcons|]. split; [done|].
      intros Hb. destruct (Hf Hb) as [Hc' Hs']. split; congruence.
    + eexists false, _, _. split; [reflexivity|]. split; [exact Hlog|].
      split; [lia|]. split.
      { split; [done|]. intros other Hne. simpl. rewrite lookup_insert_ne by done.
        by rewrite Hconn, Hst. }
      split; [intros Hm; by apply consistent_status_false, Hcons|].
      split; [done|]. intros _. simpl. split; [done|]. apply lookup_insert_eq.
Qed.

(** The first part of [connect]: an existing connection is probed, and
    forgotten when it is dead. *)
Lemma connect_body name ip kwargs m :
  connections m !! name = None ->
  connect name ip kwargs m
  = match key_path (key_file_of (config m) kwargs) with
    | Raise e => (Raise e, m)
    | Return ssh_key_path =>
      if path_exists ssh_key_path || truthy (dget kwargs "password" VNone) then
        connect_loop (Z.to_nat (max_retries (config m))) name
                     (handler_params (config m) ip kwargs ssh_key_path) m
      else (Return false, m)
    end.
Proof.
  intros Hc. unfold connect, key_file_of, handler_params. rewrite Hc.
  destruct (key_path _) as [p|e]; [|done].
  by destruct (path_exists p), (truthy _).
Qed.

(** X19: [connect] needs a key file name that is a string, also when a
    password is given.  For a device without a connection object, a keyword
    argument [ssh_key_file] that is present but not a string ([None], as the
    orchestrator passes it for credentials without that entry) makes [connect]
    raise [TypeError] before anything is tried: no connection is opened and
    the manager is unchanged. *)
Theorem connect_needs_string_key_file name ip (kwargs : dict) v m :
  connections m !! name = None ->
  kwargs !! "ssh_key_file" = Some v ->
  as_str v = None ->
  exists e, connect name ip kwargs m = (Raise e, m) /\ exn_kind e = TypeError.
Proof.
  intros Hc Hk Hv. rewrite (connect_body name ip kwargs m Hc).
  unfold key_file_of, dget. rewrite Hk. simpl.
  destruct v; try done; by eexists.
Qed.


(** X21: a device without a connection object, for which the key file does
    not exist and no password is given, is refused without any attempt:
    [connect] answers [False] and the manager is unchanged, the refusal is not
    even recorded in [connection_status]. *)
Theorem connect_without_credentials name ip (kwargs : dict) s m :
  connections m !! name = None ->
  key_file_of (config m) kwargs = VStr s ->
  path_exists (expanduser s) = false ->
  truthy (dget kwargs "password" VNone) = false ->
  connect name ip kwargs m = (Return false, m).
Proof.
  intros Hc Hs Hp Hpw. rewrite (connect_body name ip kwargs m Hc), Hs. simpl.
  by rewrite Hp, Hpw.
Qed.

(** X22: an authentication failure is not retried.  When [ConnectHandler]
    raises [NetmikoAuthenticationException] on the first attempt, [connect]
    answers [False] after that single attempt, whatever [max_retries] is, and
    records the device as not connected. *)
Theorem authentication_failure_not_retried name ip (kwargs : dict) s m msg n :
  connections m !! name = None ->
  key_file_of (config m) kwargs = VStr s ->
  path_exists (expanduser s) || truthy (dget kwargs "password" VNone) = true ->
  0 < max_retries (config m) ->
  ConnectHandler (handler_params (config m) ip kwargs (expanduser s)) (net m)
    = (Err NetmikoAuthenticationException msg, n) ->
  exists m',
    connect name ip kwargs m = (Return false, m')
    /\ log m'
       = (log m ++ [Open name (handler_params (config m) ip kwargs (expanduser s))])%list
    /\ connection_status m' !! name = Some false
    /\ connections m' = connections m
    /\ net m' = n.
Proof.
  intros Hc Hs Hcred Hmax Hauth.
  rewrite (connect_body name ip kwargs m Hc), Hs. simpl. rewrite Hcred.
  destruct (Z.to_nat (max_retries (config m))) as [|k] eqn:Hk; [lia|].
  cbn [connect_loop]. unfold attempt, netmiko. rewrite Hauth.
  eexists. split; [reflexivity|]. simpl. split; [done|]. split; [|done].
  apply lookup_insert_eq.
Qed.

(** The loop when every attempt times out. *)
Lemma connect_loop_timeouts attempts name params m :
  (forall n, exists msg n', ConnectHandler params n = (Err NetmikoTimeoutException msg, n')) ->
  exists m',
    connect_loop attempts name params m = (Return false, m')
    /\ log m' = (log m ++ replicate attempts (Open name params))%list
    /\ connection_status m' !! name = Some false
    /\ connections m' = connections m.
Proof.
  intros Htime. revert m. induction attempts as [|k IH]; intros m.
  - eexists. split; [reflexivity|]. simpl. rewrite app_nil_r.
    split; [done|]. split; [apply lookup_insert_eq|done].
  - cbn [connect_loop]. unfold attempt, netmiko.
    destruct (Htime (net m)) as (msg & n' & ->). simpl.
    set (m1 := mkManager _ _ _ _ _).
    destruct (IH m1) as (m' & -> & Hlog & Hst & Hconn).
    exists m'. split; [done|]. split; [|done].
    rewrite Hlog. unfold m1. simpl. by rewrite <- app_assoc.
Qed.

(** X23: a timeout is retried until the attempts are used up.  When every
    [ConnectHandler] call times out, [connect] answers [False] after exactly
    [max_retries] attempts, all with the same arguments. *)
Theorem timeouts_use_all_retries name ip (kwargs : dict) s m :
  connections m !! name = None ->
  key_file_of (config m) kwargs = VStr s ->
  path_exists (expanduser s) || truthy (dget kwargs "password" VNone) = true ->
  (forall n, exists msg n',
     ConnectHandler (handler_params (config m) ip kwargs (expanduser s)) n
     = (Err NetmikoTimeoutException msg, n')) ->
  exists m',
    connect name ip kwargs m = (Return false, m')
    /\ log m'
       = (log m ++ replicate (Z.to_nat (max_retries (config m)))
                     (Open name (handler_params (config m) ip kwargs (expanduser s))))%list
    /\ connection_status m' !! name = Some false.
Proof.
  intros Hc Hs Hcred Htime.
  rewrite (connect_body name ip kwargs m Hc), Hs. simpl. rewrite Hcred.
  destruct (connect_loop_timeouts (Z.to_nat (max_retries (config m))) name _ m Htime)
    as (m' & -> & Hlog & Hst & _).
  by exists m'.
Qed.

(** X24: [disconnect] never raises and always forgets the device: afterwards
    it has no connection object, and no status when it had a connection, also
    when closing the connection failed (the answer is then [False]).  Without
    a connection object it answers [True] and does nothing.  Other devices are
    left alone. *)
Theorem disconnect_always_forgets name m :
  exists b m',
    disconnect name m = (Return b, m')
    /\ connections m' !! name = None
    /\ (is_Some (connections m !! name) ->
        connection_status m' !! name = None
        /\ log m' = (log m ++ [Close name])%list)
    /\ (connections m !! name = None -> b = true /\ m' = m)
    /\ others_kept name m m'.
Proof.
  unfold disconnect. destruct (connections m !! name) as [c|] eqn:Hc.
  - destruct (netmiko_run (Close name) (conn_disconnect c) m)
      as (r & m1 & -> & Hcfg & Hconn & Hst & Hlog).
    exists (match r with Ok _ => true | Err _ _ => false end),
      (cleanup_connection name m1).
    split; [by destruct r|]. split; [apply lookup_delete_eq|].
    split.
    { intros _. split; [apply lookup_delete_eq|done]. }
    split; [done|]. split; [done|]. intros other Hne. simpl.
    rewrite !lookup_delete_ne by done. by rewrite Hconn, Hst.
  - exists true, m. split; [done|]. split; [done|].
    split; [by intros [? ?]|]. split; [done|]. apply others_kept_refl.
Qed.

Lemma config_commands_proper configuration :
  Forall proper_command (config_commands configuration).
Proof.
  unfold config_commands. apply Forall_fmap, Forall_forall.
  intros line Hline. apply list_elem_of_filter in Hline as [Hcmd _].
  unfold is_command in Hcmd. apply andb_true_iff in Hcmd as [Hne Hpre].
  split.
  - intros Heq. rewrite Heq in Hne. done.
  - by apply negb_true_iff in Hpre.
Qed.


(** [send_config_set] as [deploy_config] calls it. *)
Lemma send_config_set_run name commands m :
  exists b m' l,
    send_config_set name commands false true true m = (Return b, m')
    /\ log m' = (log m ++ l)%list
    /\ (forall n cmds, SendConfigSet n cmds ∈ l -> n = name /\ cmds = commands)
    /\ (b = true -> SendConfigSet name commands ∈ l /\ SaveConfig name ∈ l)
    /\ (connections m !! name = None -> b = false /\ m' = m)
    /\ (consistent m -> consistent m').
Proof.
  unfold send_config_set.
  destruct (is_connected_run name m)
    as (b & m0 & l0 & -> & Hlog0 & Hshape & _ & Hcons0 & Hnone & Ht & _).
  assert (Hl0 : forall n cmds, SendConfigSet n cmds ∈ l0 -> False).
  { intros n cmds Hin. destruct Hshape as [-> | ->].
    - by apply elem_of_nil in Hin.
    - apply elem_of_cons in Hin as [Hin|Hin]; [done|]. by apply elem_of_nil in Hin. }
  destruct b.
  2:{ exists false, m0, l0. split; [done|]. split; [done|].
      split; [intros n cmds Hin; by destruct (Hl0 n cmds Hin)|].
      split; [done|]. split; [|done]. intros Hc. by destruct (Hnone Hc) as [_ ->]. }
  destruct (Ht eq_refl) as (Hconn & [c Hc] & _).
  rewrite Hconn, Hc.
  destruct (netmiko_run (SendConfigSet name commands)
              (conn_send_config_set c commands true) m0)
    as (r & m1 & -> & Hcfg1 & Hconn1 & Hst1 & Hlog1).
  pose proof (consistent_books m0 m1 Hconn1 Hst1) as Hcons1.
  destruct r as [out|k msg].
  - destruct (netmiko_run (SaveConfig name) (conn_save_config c) m1)
      as (r & m2 & -> & Hcfg2 & Hconn2 & Hst2 & Hlog2).
    pose proof (consistent_books m1 m2 Hconn2 Hst2) as Hcons2.
    exists (match r with Ok _ => true | Err _ _ => false end), m2,
      (l0 ++ [SendConfigSet name commands; SaveConfig name])%list.
    split; [by destruct r|].
    split; [rewrite Hlog2, Hlog1, Hlog0, <- !app_assoc; done|].
    split.
    { intros n cmds Hin. apply elem_of_app in Hin as [Hin|Hin].
      - by destruct (Hl0 n cmds Hin).
      - apply elem_of_cons in Hin as [Hin|Hin]; [by injection Hin as -> ->|].
        apply elem_of_cons in Hin as [Hin|Hin]; [done|]. by apply elem_of_nil in Hin. }
    split.
    { intros _. split; apply elem_of_app; right.
      - apply elem_of_cons. by left.
      - apply elem_of_cons. right. apply elem_of_cons. by left. }
    split; [intros Hn; by rewrite Hn in Hc|].
    intros Hm. by apply Hcons2, Hcons1, Hcons0.
  - exists false, m1, (l0 ++ [SendConfigSet name commands])%list.
    split; [done|].
    split; [rewrite Hlog1, Hlog0, <- !app_assoc; done|].
    split.
    { intros n cmds Hin. apply elem_of_app in Hin as [Hin|Hin].
      - by destruct (Hl0 n cmds Hin).
      - apply elem_of_cons in Hin as [Hin|Hin]; [by injection Hin as -> ->|].
        by apply elem_of_nil in Hin. }
    split; [done|].
    split; [intros Hn; by rewrite Hn in Hc|].
    intros Hm. by apply Hcons1, Hcons0.
Qed.

Lemma deploy_config_run name configuration dry_run m :
  exists b m' l,
    deploy_config name configuration dry_run m = (Return b, m')
    /\ log m' = (log m ++ l)%list
    /\ (forall n cmds,
          SendConfigSet n cmds ∈ l ->
          dry_run = false /\ n = name /\ cmds = config_commands configuration)
    /\ (dry_run = true -> m' = m)
    /\ (config_commands configuration = [] -> b = false /\ m' = m)
    /\ (b = true -> dry_run = false ->
        SendConfigSet name (config_commands configuration) ∈ l /\ SaveConfig name ∈ l)
    /\ (connections m !! name = None -> dry_run = false -> b = false /\ m' = m)
    /\ (consistent m -> consistent m').
Proof.
  assert (Hidle : forall b : bool,
    (config_commands configuration = [] -> b = false) ->
    (dry_run = false -> b = false) ->
    exists b' m' l,
      (Return b, m) = (Return b', m')
      /\ log m' = (log m ++ l)%list
      /\ (forall n cmds,
            SendConfigSet n cmds ∈ l ->
            dry_run = false /\ n = name /\ cmds = config_commands configuration)
      /\ (dry_run = true -> m' = m)
      /\ (config_commands configuration = [] -> b' = false /\ m' = m)
      /\ (b' = true -> dry_run = false ->
          SendConfigSet name (config_commands configuration) ∈ l /\ SaveConfig name ∈ l)
      /\ (connections m !! name = None -> dry_run = false -> b' = false /\ m' = m)
      /\ (consistent m -> consistent m')).
  { intros b Hb1 Hb2. exists b, m, []. rewrite app_nil_r.
    split; [done|]. split; [done|].
    split; [intros n cmds Hin; by apply elem_of_nil in Hin|].
    split; [done|]. split; [intros Hn; by rewrite Hb1|].
    split; [intros -> Hd; by specialize (Hb2 Hd)|].
    split; [intros _ Hd; by rewrite Hb2|]. done. }
  unfold deploy_config, ret.
  destruct (String.eqb (py_strip configuration) EmptyString); [by apply Hidle|].
  destruct (config_commands configuration) as [|c cs] eqn:Hcmds; [by apply Hidle|].
  destruct dry_run; [by apply Hidle|].
  destruct (send_config_set_run name (c :: cs) m)
    as (b & m' & l & -> & Hlog & Hsent & Ht & Hnone & Hcons).
  exists b, m', l. split; [done|]. split; [done|].
  split; [intros n cmds Hin; by destruct (Hsent n cmds Hin)|].
  split; [done|]. split; [done|]. split; [intros Hb _; by apply Ht|].
  split; [intros Hn _; by apply Hnone|]. done.
Qed.

(** X25: [deploy_config] never raises, and sends nothing but commands.  A
    configuration without a command (blank lines and [#] comments only) is
    refused without reaching the network; in dry-run mode the manager is
    unchanged, connected or not; every command list sent is the list of the
    stripped lines that are neither blank nor comments, it is sent to the
    named device, and [True] in production mode means that it was sent and
    that saving the configuration succeeded. *)
Theorem deploy_config_sends_only_commands name configuration dry_run m :
  exists b m' l,
    deploy_config name configuration dry_run m = (Return b, m')
    /\ log m' = (log m ++ l)%list
    /\ (forall n cmds,
          SendConfigSet n cmds ∈ l ->
          dry_run = false /\ n = name /\ cmds <> [] /\ Forall proper_command cmds)
    /\ (dry_run = true -> m' = m)
    /\ (config_commands configuration = [] -> b = false /\ m' = m)
    /\ (b = true -> dry_run = false ->
        SendConfigSet name (config_commands configuration) ∈ l /\ SaveConfig name ∈ l).
Proof.
  destruct (deploy_config_run name configuration dry_run m)
    as (b & m' & l & Hrun & Hlog & Hsent & Hdry & Hempty & Ht & _ & _).
  exists b, m', l. split; [done|]. split; [done|]. split; [|done].
  intros n cmds Hin. destruct (Hsent n cmds Hin) as (Hd & Hn & Hcmds).
  split; [done|]. split; [done|]. split.
  - intros Hnil. rewrite Hnil in Hcmds. symmetry in Hcmds.
    destruct (Hempty Hcmds) as [_ ->]. rewrite <- (app_nil_r (log m)) in Hlog at 1.
    apply app_inv_head in Hlog. subst l. by apply elem_of_nil in Hin.
  - rewrite Hcmds. apply config_commands_proper.
Qed.

(** X26: the manager never reports a device as connected that has no
    connection object.  This holds of a new manager, and [connect],
    [is_connected], [disconnect] and [deploy_config] keep it, however they
    end. *)
Theorem manager_stays_consistent name ip (kwargs : dict) configuration dry_run m :
  consistent m ->
  consistent (connect name ip kwargs m).2
  /\ consistent (is_connected name m).2
  /\ consistent (disconnect name m).2
  /\ consistent (deploy_config name configuration dry_run m).2
  /\ forall cfg n, consistent (init cfg n).
Proof.
  intros Hm.
  assert (His : forall m0, consistent m0 -> consistent (is_connected name m0).2).
  { intros m0 Hm0.
    destruct (is_connected_run name m0) as (b & m' & l & -> & _ & _ & _ & Hcons & _).
    by apply Hcons. }
  assert (Hfresh : forall m0, consistent m0 -> connections m0 !! name = None ->
                              consistent (connect name ip kwargs m0).2).
  { intros m0 Hm0 Hc. rewrite (connect_body name ip kwargs m0 Hc).
    destruct (key_path _) as [p|e]; [|done].
    destruct (_ || _); [|done].
    destruct (connect_loop_run (Z.to_nat (max_retries (config m0))) name
                (handler_params (config m0) ip kwargs p) m0)
      as (b & m' & l & -> & _ & _ & _ & Hcons & _).
    by apply Hcons. }
  split; [|split; [by apply His|split; [|split]]].
  - destruct (connections m !! name) as [c|] eqn:Hc; [|by apply Hfresh].
    pose proof (His m Hm) as Hm1.
    destruct (is_connected_run name m)
      as (b & m1 & l1 & Hrun & _ & _ & _ & _ & _ & _ & Hf).
    rewrite Hrun in Hm1. simpl in Hm1.
    destruct b.
    + unfold connect. by rewrite Hc, Hrun.
    + assert (Hnone' : connections (cleanup_connection name m1) !! name = None)
        by apply lookup_delete_eq.
      pose proof (Hfresh (cleanup_connection name m1)
                    (consistent_cleanup name m1 Hm1) Hnone') as Hgoal.
      unfold connect in Hgoal |- *. rewrite Hc, Hrun. by rewrite Hnone' in Hgoal.
  - unfold disconnect. destruct (connections m !! name) as [c|]; [|done].
    destruct (netmiko_run (Close name) (conn_disconnect c) m)
      as (r & m1 & -> & _ & Hconn & Hst & _).
    pose proof (consistent_cleanup name m1 (consistent_books m m1 Hconn Hst Hm)).
    by destruct r.
  - destruct (deploy_config_run name configuration dry_run m)
      as (b & m' & l & -> & _ & _ & _ & _ & _ & _ & Hcons).
    by apply Hcons.
  - intros cfg n other. simpl. by rewrite lookup_empty.
Qed.

End DeviceManagerFacts.


(** * The orchestrator run with the device manager *)

Section OrchestratorWithDeviceManager.
Context `{PyRuntime} `{Jinja} `{DeviceManager.Netmiko}.
#[local] Existing Instance DeviceManager.transport.

Lemma connection_params_key_file (device_config credentials : dict) :
  connection_params device_config credentials !! "ssh_key_file"
  = Some (dget credentials "ssh_key_file" VNone).
Proof.
  unfold connection_params. cbn [list_to_map foldr uncurry fst snd].
  rewrite !lookup_insert_ne by done. apply lookup_insert_eq.
Qed.

(** A device whose credentials name no key file: in production mode it
    fails, and neither the device manager nor the device objects change. *)
Lemma deploy_device_without_key_file i w :
  (forall c, dget (devices w !!! i) "credentials" (VDict ∅) = VDict c ->
             as_str (dget c "ssh_key_file" VNone) = None) ->
  DeviceManager.connections (dm w) !! label w i = None ->
  exists r w',
    deploy_device i (VBool false) w = (Return r, w')
    /\ status r = FAILED
    /\ dm w' = dm w /\ devices w' = devices w /\ inventory w' = inventory w.
Proof.
  intros Hkey Hconn.
  destruct (truthy (dget (devices w !!! i) "ip" VNone)) eqn:Hip.
  2:{ rewrite (deploy_device_missing_ip i (VBool false) w) by done.
      by eexists _, _. }
  destruct (truthy (dget (devices w !!! i) "template" VNone)) eqn:Htpl.
  2:{ unfold deploy_device, mbind at 1, M_bind at 1, read_device at 1, gets at 1.
      cbv zeta. unfold try_except, default_dry_run.
      unfold mbind at 1, M_bind at 1, mret at 1, M_ret at 1.
      rewrite Hip, Htpl. cbn [negb]. by eexists _, _. }
  destruct (dget (devices w !!! i) "credentials" (VDict ∅)) as [| | | | |c] eqn:Hcred.
  1-5: unfold deploy_device, mbind at 1, M_bind at 1, read_device at 1, gets at 1;
       cbv zeta; unfold try_except, default_dry_run;
       unfold mbind at 1, M_bind at 1, mret at 1, M_ret at 1;
       rewrite Hip, Htpl, Hcred; cbn [negb];
       unfold mbind at 1, M_bind at 1, lift at 1; cbn [py_get];
       by eexists _, _.
  rewrite (deploy_device_production_start i w c) by done.
  unfold try_except, mbind at 1, M_bind at 1, connect.
  change (dm_connect (label w i) (dget (devices w !!! i) "ip" VNone)
                     (connection_params (devices w !!! i) c) (dm w))
    with (DeviceManager.connect (label w i) (dget (devices w !!! i) "ip" VNone)
                                (connection_params (devices w !!! i) c) (dm w)).
  rewrite (connect_body _ _ _ _ Hconn).
  unfold key_file_of, dget at 1. rewrite connection_params_key_file. cbn [default].
  specialize (Hkey c eq_refl).
  destruct (dget c "ssh_key_file" VNone); try done; by eexists _, _.
Qed.


Lemma no_key_file_at (l : list dict) (i : nat) :
  Forall names_no_key_file l -> names_no_key_file (l !!! i).
Proof.
  intros Hall. destruct (l !! i) as [d|] eqn:Hi.
  - rewrite (list_lookup_total_correct _ _ _ Hi).
    by eapply (proj1 (Forall_lookup _ _) Hall).
  - rewrite (list_lookup_total_alt l i), Hi. simpl.
    intros c. unfold dget. rewrite lookup_empty. simpl. by intros [= <-].
Qed.

Lemma deploy_step_without_key_file i t w :
  Forall names_no_key_file (devices w) ->
  DeviceManager.connections (dm w) = ∅ ->
  dm (deploy_step (VBool false) i t w).2 = dm w
  /\ devices (deploy_step (VBool false) i t w).2 = devices w
  /\ forall t', (deploy_step (VBool false) i t w).1 = Return t' ->
                t_successful t' = t_successful t.
Proof.
  intros Hkeys Hconn.
  destruct (deploy_step (VBool false) i t w) as [o w'] eqn:Hstep. simpl.
  revert Hstep.
  unfold deploy_step, mbind at 1, M_bind at 1, read_device at 1, gets at 1.
  unfold mbind at 1, M_bind at 1. rewrite inventory_setting_run.
  destruct (py_get _ _ _) as [rb|e]; [|by intros [= <- <-]].
  destruct (_ && _).
  { intros [= <- <-]. split; [done|]. split; [done|]. by intros t' [= <-]. }
  unfold mbind, M_bind.
  destruct (deploy_device_without_key_file i w) as (r & w1 & -> & Hst & Hdm & Hdev & _).
  - by apply no_key_file_at.
  - by rewrite Hconn, lookup_empty.
  - intros [= <- <-]. split; [done|]. split; [done|]. intros t' [= <-].
    unfold record_result. by rewrite Hst.
Qed.

Lemma deploy_loop_without_key_file sequence t w :
  Forall names_no_key_file (devices w) ->
  DeviceManager.connections (dm w) = ∅ ->
  dm (deploy_loop (VBool false) sequence t w).2 = dm w
  /\ forall t', (deploy_loop (VBool false) sequence t w).1 = Return t' ->
                t_successful t' = t_successful t.
Proof.
  revert t w. induction sequence as [|i rest IH]; intros t w Hkeys Hconn.
  - split; [done|]. by intros t' [= <-].
  - cbn [deploy_loop]. unfold mbind, M_bind.
    destruct (deploy_step_without_key_file i t w Hkeys Hconn) as (Hdm & Hdev & Hsucc).
    destruct (deploy_step (VBool false) i t w) as [[t1|e] w1]; simpl in *; [|done].
    destruct (IH t1 w1) as [Hdm' Hsucc'].
    + by rewrite Hdev.
    + by rewrite Hdm.
    + split; [congruence|]. intros t' Ht'. rewrite (Hsucc' t' Ht'). by apply Hsucc.
Qed.

(** X28: a production run with a new device manager over an inventory in
    which no device names a key file deploys nothing.  The device manager is
    left exactly as it was (no connection opened, nothing sent), and a result
    that is returned counts no successful device. *)
Theorem production_run_without_key_files w :
  Forall names_no_key_file (devices w) ->
  DeviceManager.connections (dm w) = ∅ ->
  dm (deploy_all_devices (VBool false) w).2 = dm w
  /\ forall r w', deploy_all_devices (VBool false) w = (Return r, w') ->
                  successful r = 0.
Proof.
  intros Hkeys Hconn.
  destruct (deploy_all_devices (VBool false) w) as [o w1] eqn:Hrun. simpl.
  revert Hrun.
  destruct (devices w) as [|d ds] eqn:Hd.
  { unfold deploy_all_devices, mbind, M_bind, gets. rewrite Hd.
    intros [= <- <-]. split; [done|]. by intros r w' [= <- _]. }
  rewrite (deploy_all_devices_body (VBool false) w d ds Hd).
  cbn [default_dry_run]. unfold mret at 1, M_ret at 1.
  rewrite validate_templates_run.
  destruct (_ || _).
  2:{ intros [= <- <-]. split; [done|]. by intros r w' [= <- _]. }
  destruct (get_deployment_sequence w) as [[sq|e] w0] eqn:Hsq;
    (assert (w0 = w) as -> by (by injection Hsq)); [|by intros [= <- <-]].
  rewrite <- Hd in Hkeys.
  destruct (deploy_loop_without_key_file sq (mkTally ∅ 0 0 0) w Hkeys Hconn)
    as [Hdm Hsucc].
  destruct (deploy_loop (VBool false) sq (mkTally ∅ 0 0 0) w) as [[t|e] w2];
    simpl in *; [|by intros [= <- <-]].
  intros [= <- <-]. split; [done|]. intros r w' [= <- _]. simpl. by apply Hsucc.
Qed.

End OrchestratorWithDeviceManager.


(** * The properties on concrete inventories *)

#[local] Existing Instance demo_runtime.
#[local] Existing Instance demo_jinja.
#[local] Existing Instance demo_transport.

(** Closes an equation between closed terms by evaluating both sides. *)
Ltac by_evaluation :=
  lazymatch goal with
  | |- ?a = ?b => exact (@eq_refl _ a <: a = b)
  end.

(** C1 as stated fails: with one device that refers to [core_switch.j2], a
    valid template, the gate passes; adding the file [unused.j2], which no
    device refers to and which does not compile, makes the gate fail. *)
Lemma unreferenced_template_blocks_gate :
  used_templates (devices one_core_broken_extra_world) = {[ "core_switch.j2" ]}
  /\ all_referenced_valid one_core_broken_extra_world
  /\ (validate_templates one_core_world).1 = Return true
  /\ (validate_templates one_core_broken_extra_world).1 = Return false.
Proof.
  assert (Hused : used_templates (devices one_core_broken_extra_world)
                  = {[ "core_switch.j2" ]}) by by_evaluation.
  split; [exact Hused|]. split; [|split; by_evaluation].
  intros n. rewrite Hused. intros ->%elem_of_singleton. by_evaluation.
Qed.

(** C1, as amended, on the same inventory and directory. *)
Lemma validate_templates_checks_all_discovered_witness :
  used_templates (devices one_core_broken_extra_world) <> ∅
  /\ "unused.j2" ∈ list_templates (template_dir one_core_broken_extra_world)
  /\ validate_templates one_core_broken_extra_world
     = (Return false, one_core_broken_extra_world).
Proof.
  assert (Hused : used_templates (devices one_core_broken_extra_world) <> ∅).
  { replace (used_templates (devices one_core_broken_extra_world))
      with ({[ "core_switch.j2" ]} : gset string) by by_evaluation.
    apply non_empty_singleton_L. }
  assert (Hin : "unused.j2" ∈ list_templates (template_dir one_core_broken_extra_world)).
  { replace (list_templates (template_dir one_core_broken_extra_world))
      with ["access_switch.j2"; "core_switch.j2"; "unused.j2"] by by_evaluation.
    set_solver. }
  split; [exact Hused|]. split; [exact Hin|].
  apply (proj2 (validate_templates_checks_all_discovered one_core_broken_extra_world)
               "unused.j2" Hused Hin).
  by_evaluation.
Defined.

(** C2 on the inventory whose template directory holds a broken file. *)
Lemma gate_failure_aborts_run_witness :
  devices one_core_broken_extra_world <> []
  /\ validate_templates one_core_broken_extra_world
     = (Return false, one_core_broken_extra_world)
  /\ deploy_all_devices (VBool true) one_core_broken_extra_world
     = (Return (abort_result one_core_broken_extra_world), one_core_broken_extra_world)
  /\ total_devices (abort_result one_core_broken_extra_world) = 1
  /\ failed (abort_result one_core_broken_extra_world) = 1.
Proof.
  assert (Hne : devices one_core_broken_extra_world <> []) by discriminate.
  assert (Hgate : validate_templates one_core_broken_extra_world
                  = (Return false, one_core_broken_extra_world)) by by_evaluation.
  split; [exact Hne|]. split; [exact Hgate|].
  split; [|split; by_evaluation].
  exact (proj1 (gate_failure_aborts_run (VBool true) (VBool true)
                  one_core_broken_extra_world Hne eq_refl Hgate)).
Defined.


(** A fault of the transport collaborator stays inside [deploy_device]: when
    [connect] raises, the result is [Failed] with the text of the exception. *)
Example deploy_device_contains_transport_fault :
  (@deploy_device demo_runtime demo_jinja unreachable_transport 0 (VBool false)
                  one_core_unreachable_world).1
  = Return (mkDeviceResult "core1" FAILED "Deployment failed with exception" 0
                           (Some "connection timed out")).
Proof. by_evaluation. Qed.



(** C6 on three devices declared with the orders 3, 1, 2. *)
Lemma deployment_sequence_stable_sorted_witness :
  Forall (fun e => int_order e.2)
         [("c", core_device 3); ("a", access_device 1); ("b", access_device 2)]
  /\ exists w1,
       load_inventory (Some three_doc) (fresh good_templates) = (Return true, w1)
       /\ get_deployment_sequence w1 = (Return [0; 1; 2]%nat, w1)
       /\ name_of <$> objects w1 [0; 1; 2]%nat = ["a"; "b"; "c"].
Proof.
  assert (Hint : Forall (fun e => int_order e.2)
                   [("c", core_device 3); ("a", access_device 1); ("b", access_device 2)]).
  { repeat constructor; by eexists. }
  split; [exact Hint|].
  destruct (proj2 (deployment_sequence_stable_sorted
                     [("c", core_device 3); ("a", access_device 1); ("b", access_device 2)]
                     ∅ (fresh good_templates) Hint)
                  "c" "a" "b" (core_device 3) (access_device 1) (access_device 2)
                  eq_refl eq_refl eq_refl) as (w1 & Hload & Hseq & Hobj).
  exists w1. split; [exact Hload|]. split; [exact Hseq|].
  rewrite Hobj. by_evaluation.
Defined.

(** C7 as stated fails: of two devices without address, the second one is
    counted in [skipped], not in [failed]. *)
Lemma missing_ip_device_is_skipped :
  truthy (dget (devices two_without_ip_world !!! 1%nat) "ip" VNone) = false
  /\ label two_without_ip_world 1 = "sw2"
  /\ failed (returned empty_result two_without_ip_run) = 1
  /\ skipped (returned empty_result two_without_ip_run) = 1
  /\ results (returned empty_result two_without_ip_run) !! "sw2"
     = Some (skipped_result "sw2")
  /\ two_without_ip_run.1 = Return (returned empty_result two_without_ip_run).
Proof. repeat split; by_evaluation. Qed.

(** C7, as amended, on the first of these two devices. *)
Lemma missing_ip_fails_witness :
  truthy (dget (devices two_without_ip_world !!! 0%nat) "ip" VNone) = false
  /\ deploy_device 0 (VBool false) two_without_ip_world
     = (Return (mkDeviceResult "sw1" FAILED "No IP address specified" 0
                               (Some "Missing device IP address")),
        two_without_ip_world)
  /\ exists t',
       deploy_step (VBool false) 0 empty_tally two_without_ip_world
       = (Return t', two_without_ip_world)
       /\ t_failed t' = 1 /\ t_skipped t' = 0.
Proof.
  assert (Hip : truthy (dget (devices two_without_ip_world !!! 0%nat) "ip" VNone) = false)
    by by_evaluation.
  destruct (missing_ip_fails 0 false two_without_ip_world Hip) as [Hdev Hstep].
  split; [exact Hip|]. split; [exact Hdev|].
  destruct (Hstep empty_tally (VBool true) eq_refl eq_refl)
    as (t' & Ht' & Hf & Hk & _).
  exists t'. split; [exact Ht'|]. split; [exact Hf | exact Hk].
Defined.

(** C9 fails on the code: a dry run over one core switch overwrites the
    entry [device_type] of the device object, ['huawei'] in the inventory,
    with the role ['core'], and adds an entry [template_name]; both stay in
    [self.devices] after the run. *)
Theorem run_rewrites_device_object :
  (devices one_core_world !!! 0%nat) !! "device_type" = Some (VStr "huawei")
  /\ (devices one_core_world !!! 0%nat) !! "template_name" = None
  /\ status <$> results (returned empty_result one_core_run) !! "core1" = Some SUCCESS
  /\ (devices one_core_run.2 !!! 0%nat) !! "device_type" = Some (VStr "core")
  /\ (devices one_core_run.2 !!! 0%nat) !! "template_name"
     = Some (VStr "core_switch.j2").
Proof. repeat split; by_evaluation. Qed.

(** C10 on the run in which the second of three devices fails. *)
Lemma counters_partition_devices_witness :
  middle_fails_run
  = (Return (returned empty_result middle_fails_run), middle_fails_run.2)
  /\ total_devices (returned empty_result middle_fails_run) = 3
  /\ successful (returned empty_result middle_fails_run) = 1
  /\ failed (returned empty_result middle_fails_run) = 1
  /\ skipped (returned empty_result middle_fails_run) = 1
  /\ total_devices (returned empty_result middle_fails_run)
     = successful (returned empty_result middle_fails_run)
       + failed (returned empty_result middle_fails_run)
       + skipped (returned empty_result middle_fails_run).
Proof.
  assert (Hrun : middle_fails_run
                 = (Return (returned empty_result middle_fails_run), middle_fails_run.2))
    by by_evaluation.
  split; [exact Hrun|]. repeat (split; [by_evaluation|]).
  exact (proj1 (counters_partition_devices (VBool true) middle_fails_world _ _ Hrun)).
Defined.


(** * The further properties on concrete inventories *)

(** X3 on three devices of which the second has no address. *)
Lemma rollback_on_at_most_one_failure_witness :
  0 <= failed (returned empty_result middle_fails_run) <= 1
  /\ skipped (returned empty_result middle_fails_run)
     = total_devices (returned empty_result middle_fails_run)
       - successful (returned empty_result middle_fails_run)
       - failed (returned empty_result middle_fails_run).
Proof.
  apply (rollback_on_at_most_one_failure (VBool true) middle_fails_world (VBool true)
           (returned empty_result middle_fails_run) middle_fails_run.2);
    [by_evaluation | reflexivity | by_evaluation | by_evaluation].
Defined.

(** X4 on two devices without address, with [rollback_on_failure] off. *)
Lemma rollback_off_never_skips_witness :
  skipped (returned empty_result no_rollback_run) = 0.
Proof.
  apply (rollback_off_never_skips (VBool true) no_rollback_world (VBool false)
           (returned empty_result no_rollback_run) no_rollback_run.2);
    [by_evaluation | reflexivity | by_evaluation].
Defined.

(** X5 on one core switch. *)
Lemma result_map_complete_witness :
  entries_ok (results (returned empty_result one_core_run))
  /\ is_Some (results (returned empty_result one_core_run) !! label one_core_world 0).
Proof.
  assert (Hrun : deploy_all_devices (VBool true) one_core_world
                 = (Return (returned empty_result one_core_run), one_core_run.2))
    by by_evaluation.
  destruct (result_map_complete (VBool true) one_core_world
              (returned empty_result one_core_run) one_core_run.2 Hrun) as [Hok Hall].
  split; [exact Hok|].
  apply Hall; [discriminate | by_evaluation |].
  replace (length (devices one_core_world)) with 1%nat by by_evaluation. lia.
Defined.

(** X6 on a collaborator that refuses the connection. *)
Lemma connect_refused_fails_device_witness :
  @deploy_device demo_runtime demo_jinja refusing_transport 0 (VBool false) refused_world
  = (Return (mkDeviceResult (label refused_world 0) FAILED
                            "Failed to connect to device" 0
                            (Some "SSH connection failed")),
     connected refusing_transport refused_world tt).
Proof.
  apply (@connect_refused_fails_device demo_runtime demo_jinja refusing_transport
           0%nat refused_world ∅ tt).
  - repeat split; by_evaluation.
  - by_evaluation.
Defined.

(** X7 on a collaborator that reaches the device. *)
Lemma production_deploys_then_disconnects_witness :
  exists r,
    (deploy_device 0 (VBool false) one_core_world).1 = Return r
    /\ status r = SUCCESS.
Proof.
  destruct (@production_deploys_then_disconnects demo_runtime demo_jinja demo_transport
              0%nat one_core_world ∅ tt "sysname CORE"
              (configured demo_transport one_core_world tt) true tt true tt)
    as (r & w' & Hrun & Hsuccess & _).
  - repeat split; by_evaluation.
  - by_evaluation.
  - by_evaluation.
  - discriminate.
  - by_evaluation.
  - by_evaluation.
  - exists r. rewrite Hrun. split; [reflexivity|]. by apply Hsuccess.
Defined.

(** X8 on a collaborator whose [deploy_config] raises. *)
Lemma deploy_fault_skips_disconnect_witness :
  exists w',
    @deploy_device demo_runtime demo_jinja failing_deploy_transport 0 (VBool false)
                   failing_deploy_world
    = (Return (mkDeviceResult (label failing_deploy_world 0) FAILED
                              "Deployment failed with exception" 0
                              (Some "channel closed")), w')
    /\ length (calls w') = 2%nat.
Proof.
  destruct (@deploy_fault_skips_disconnect demo_runtime demo_jinja failing_deploy_transport
              0%nat failing_deploy_world ∅ tt "sysname CORE"
              (configured failing_deploy_transport failing_deploy_world tt)
              (Exn OtherException "channel closed" None) tt)
    as (w' & Hrun & Hcalls).
  - repeat split; by_evaluation.
  - by_evaluation.
  - by_evaluation.
  - discriminate.
  - by_evaluation.
  - exists w'. split; [exact Hrun|]. rewrite Hcalls. by_evaluation.
Defined.

(** X9 on a collaborator whose [disconnect] raises. *)
Lemma disconnect_fault_fails_device_witness :
  exists w',
    @deploy_device demo_runtime demo_jinja failing_disconnect_transport 0 (VBool false)
                   failing_disconnect_world
    = (Return (mkDeviceResult (label failing_disconnect_world 0) FAILED
                              "Deployment failed with exception" 0
                              (Some "socket is closed")), w').
Proof.
  apply (@disconnect_fault_fails_device demo_runtime demo_jinja
           failing_disconnect_transport 0%nat failing_disconnect_world ∅ tt
           "sysname CORE"
           (configured failing_disconnect_transport failing_disconnect_world tt)
           true tt (Exn OtherException "socket is closed" None) tt).
  - repeat split; by_evaluation.
  - by_evaluation.
  - by_evaluation.
  - discriminate.
  - by_evaluation.
  - by_evaluation.
Defined.

(** X10 on variables that bring their own, empty [stp] mapping. *)
Lemma prepare_variables_top_level_witness :
  prepare_variables {[ "stp" := VDict ∅ ]} !! "stp" = Some (VDict ∅)
  /\ prepare_variables {[ "stp" := VDict ∅ ]} !! "mgmt_vlan" = defaults !! "mgmt_vlan".
Proof.
  destruct (prepare_variables_top_level {[ "stp" := VDict ∅ ]}) as (Hown & Hdflt & _).
  split; [apply Hown | apply Hdflt]; by_evaluation.
Defined.

(** X11 on the first load of [core_switch.j2]. *)
Lemma template_cache_serves_loaded_template_witness :
  template_cache (get_template "core_switch.j2" one_core_world).2 !! "core_switch.j2"
  = Some ("sysname CORE" : @template demo_jinja).
Proof.
  apply (proj1 (template_cache_serves_loaded_template "core_switch.j2" one_core_world)
               ("sysname CORE" : @template demo_jinja)
               (get_template "core_switch.j2" one_core_world).2).
  by_evaluation.
Defined.

(** X12 on a template that is not in the directory. *)
Lemma validation_result_shape_witness :
  validate_template_syntax good_templates "missing.j2" !! "error"
  = Some (VStr ("Template file not found: " +:+ "missing.j2")).
Proof.
  destruct (validation_result_shape good_templates "missing.j2")
    as (b & _ & _ & Hmissing & _).
  apply Hmissing. by_evaluation.
Defined.

(** X13 on a directory that also holds a file that is not a template. *)
Lemma list_templates_sorted_j2_files_witness :
  "core_switch.j2" ∈ list_templates templates_with_readme.
Proof.
  apply (proj1 (list_templates_sorted_j2_files templates_with_readme)).
  split; [exists "sysname CORE"|]; by_evaluation.
Defined.

(** X14 on the role [core]. *)
Lemma generate_config_by_role_witness :
  exists config w',
    generate_config (VStr "core") 0 one_core_world = (Return config, w')
    /\ (devices w' !!! 0%nat) !! "template_name" = Some (VStr "core_switch.j2")
    /\ (devices w' !!! 0%nat) !! "device_type" = Some (VStr "core").
Proof.
  destruct (proj2 (proj2 (generate_config_by_role (VStr "core") 0 one_core_world))
                  "core_switch.j2")
    as (config & w' & Hrun & Hname & Htype & _).
  - by_evaluation.
  - replace (length (devices one_core_world)) with 1%nat by by_evaluation. lia.
  - by exists config, w'.
Defined.


(** X16 on an inventory whose [dry_run_default] is [null]. *)
Lemma omitted_flag_follows_inventory_witness :
  deploy_all_devices VNone null_default_world
  = deploy_all_devices (VBool false) null_default_world.
Proof.
  apply (proj2 (proj2 (omitted_flag_follows_inventory null_default_world))
               {[ "dry_run_default" := VNone ]}); by_evaluation.
Defined.

(** X17 on an inventory whose [deployment_strategy] is a string. *)
Lemma run_raises_only_on_malformed_inventory_witness :
  deploy_all_devices (VBool true) malformed_strategy_world
  = (Raise (Exn AttributeError "object has no attribute 'get'" None),
     malformed_strategy_world)
  /\ rollback_setting malformed_strategy_world
     = Raise (Exn AttributeError "object has no attribute 'get'" None).
Proof.
  assert (Hrun : deploy_all_devices (VBool true) malformed_strategy_world
                 = (Raise (Exn AttributeError "object has no attribute 'get'" None),
                    malformed_strategy_world)) by by_evaluation.
  split; [exact Hrun|].
  destruct (run_raises_only_on_malformed_inventory _ _ _ _ Hrun)
    as [_ [(Hnone & _)|[(Hsq & _)|(Hrb & _)]]].
  - discriminate Hnone.
  - exfalso. revert Hsq.
    replace (get_deployment_sequence malformed_strategy_world)
      with (Return [0%nat] : outcome (list nat), malformed_strategy_world)
      by by_evaluation.
    discriminate.
  - exact Hrb.
Defined.

(** X18 on the address of a core switch. *)
Lemma run_keeps_deployment_sequence_witness :
  (devices (deploy_all_devices (VBool true) one_core_world).2 !!! 0%nat) !! "ip"
  = (devices one_core_world !!! 0%nat) !! "ip".
Proof.
  apply (proj1 (proj2 (proj2 (run_keeps_deployment_sequence (VBool true) one_core_world)))
               0%nat "ip"); discriminate.
Defined.

(** X19 on the keyword arguments the orchestrator passes for credentials
    without [ssh_key_file]. *)
Lemma connect_needs_string_key_file_witness :
  exists e,
    @DeviceManager.connect demo_netmiko "core1" (VStr "10.0.0.1") null_key_kwargs
                           new_manager
    = (Raise e, new_manager)
    /\ exn_kind e = TypeError.
Proof.
  apply (@connect_needs_string_key_file demo_netmiko "core1" (VStr "10.0.0.1")
           null_key_kwargs VNone new_manager); by_evaluation.
Defined.


(** X21 on a key file that does not exist. *)
Lemma connect_without_credentials_witness :
  @DeviceManager.connect demo_netmiko "core1" (VStr "10.0.0.1") missing_key_kwargs
                         new_manager
  = (Return false, new_manager).
Proof.
  apply (@connect_without_credentials demo_netmiko "core1" (VStr "10.0.0.1")
           missing_key_kwargs "/keys/none" new_manager); by_evaluation.
Defined.

(** X22 on a host that rejects the login. *)
Lemma authentication_failure_not_retried_witness :
  exists m',
    @DeviceManager.connect demo_netmiko "edge1" (VStr "10.0.0.2") key_kwargs new_manager
    = (Return false, m')
    /\ length (DeviceManager.log m') = 1%nat.
Proof.
  destruct (@authentication_failure_not_retried demo_netmiko "edge1" (VStr "10.0.0.2")
              key_kwargs "/keys/huawei_rsa" new_manager "authentication failed" 1%nat)
    as (m' & Hrun & Hlog & _).
  - by_evaluation.
  - by_evaluation.
  - by_evaluation.
  - unfold Z.lt. by_evaluation.
  - by_evaluation.
  - exists m'. split; [exact Hrun|]. rewrite Hlog. by_evaluation.
Defined.

(** X23 on a host that does not answer. *)
Lemma timeouts_use_all_retries_witness :
  exists m',
    @DeviceManager.connect demo_netmiko "sw8" (VStr "10.0.0.8") password_kwargs
                           new_manager
    = (Return false, m')
    /\ length (DeviceManager.log m') = 3%nat.
Proof.
  destruct (@timeouts_use_all_retries demo_netmiko "sw8" (VStr "10.0.0.8")
              password_kwargs "/keys/none" new_manager)
    as (m' & Hrun & Hlog & _).
  - by_evaluation.
  - by_evaluation.
  - by_evaluation.
  - intros n. exists "timed out", (S n). by_evaluation.
  - exists m'. split; [exact Hrun|]. rewrite Hlog. by_evaluation.
Defined.

(** X24 on a connected device. *)
Lemma disconnect_always_forgets_witness :
  exists b m',
    @DeviceManager.disconnect demo_netmiko "core1" manager_with_core1 = (Return b, m')
    /\ DeviceManager.connection_status m' !! "core1" = None.
Proof.
  destruct (@disconnect_always_forgets demo_netmiko "core1" manager_with_core1)
    as (b & m' & Hrun & _ & Hhad & _).
  exists b, m'. split; [exact Hrun|].
  apply Hhad. exists "10.0.0.1". by_evaluation.
Defined.

(** X25 on a configuration of two commands, in dry-run mode. *)
Lemma deploy_config_sends_only_commands_witness :
  (@DeviceManager.deploy_config demo_netmiko "core1" sample_configuration true
                                new_manager).2
  = new_manager.
Proof.
  destruct (@deploy_config_sends_only_commands demo_netmiko "core1" sample_configuration
              true new_manager)
    as (b & m' & l & Hrun & _ & _ & Hdry & _).
  rewrite Hrun. exact (Hdry eq_refl).
Defined.

(** X26 on a manager that holds a connection. *)
Lemma manager_stays_consistent_witness :
  consistent (@DeviceManager.disconnect demo_netmiko "core1" manager_with_core1).2.
Proof.
  apply (@manager_stays_consistent demo_netmiko "core1" (VStr "10.0.0.1") key_kwargs
           sample_configuration false manager_with_core1).
  intros name Hname. destruct (decide (name = "core1")) as [->|Hne].
  - exists "10.0.0.1". by_evaluation.
  - simpl in Hname. by rewrite lookup_singleton_ne in Hname.
Defined.


(** X28 on the same inventory. *)
Lemma production_run_without_key_files_witness :
  dm (@deploy_all_devices demo_runtime demo_jinja (@DeviceManager.transport demo_netmiko)
        (VBool false) managed_world).2
  = dm managed_world.
Proof.
  apply (@production_run_without_key_files demo_runtime demo_jinja demo_netmiko
           managed_world).
  - replace (devices managed_world)
      with [<["name" := VStr "core1"]> password_device] by by_evaluation.
    constructor; [|constructor].
    intros c Hc.
    replace (dget (<["name" := VStr "core1"]> password_device) "credentials" (VDict ∅))
      with (VDict {[ "password" := VStr "secret" ]}) in Hc by by_evaluation.
    injection Hc as <-. by_evaluation.
  - by_evaluation.
Defined.

(** X29 on the prefix lengths 24 and 33. *)
Lemma masks_by_prefix_length_witness :
  subnet_mask 24 = dotted_quad (2 ^ 32 - 2 ^ (32 - 24))
  /\ subnet_mask 33 = "255.255.255.0".
Proof.
  split.
  - apply (proj1 (masks_by_prefix_length 24)). lia.
  - apply (proj2 (masks_by_prefix_length 33)). lia.
Defined.
